(** * A shallow embedding of the presi print spooler

    The development follows the C sources file by file:
    - [printer_struct.h], [job_struct.h]: the records [PRINTER] and [JOB];
    - [printer_manager.c]: the printer registry and [select_compatible_printer];
    - [job_manager.c]: the job table, submission, the scheduler, the expiry
      sweep and the cancel / pause / resume operations;
    - [command_handler.c]: the command handlers and their dispatcher;
    - [cli.c]: the child-status dispatcher, the tokenizer and the command loop.

    The spooler is a single-threaded C program over process-wide statics.
    The statics are gathered in one record, [spooler], threaded explicitly
    through every operation.  Everything the program does to the outside
    world (calls of the [sf_*] event sink, lines written to the output
    stream, signals sent with [killpg]) is appended to a trace kept in the
    same record.  What the outside world answers (the pid returned by
    [fork], the value of [time], the result of [killpg], the sequence of
    [waitpid] results) is supplied by the environment. *)

From Stdlib Require Import ZArith List String Ascii Bool Arith Lia.
From Stdlib Require Import DecimalString.
Import ListNotations.

Local Open Scope string_scope.
Local Open Scope Z_scope.

(** ** Enumerations of [presi.h] *)

Inductive PRINTER_STATUS : Set :=
| PRINTER_DISABLED
| PRINTER_IDLE
| PRINTER_BUSY.

Inductive JOB_STATUS : Set :=
| JOB_CREATED
| JOB_RUNNING
| JOB_PAUSED
| JOB_FINISHED
| JOB_ABORTED
| JOB_DELETED.

Definition printer_status_eqb (a b : PRINTER_STATUS) : bool :=
  match a, b with
  | PRINTER_DISABLED, PRINTER_DISABLED
  | PRINTER_IDLE, PRINTER_IDLE
  | PRINTER_BUSY, PRINTER_BUSY => true
  | _, _ => false
  end.

Definition job_status_eqb (a b : JOB_STATUS) : bool :=
  match a, b with
  | JOB_CREATED, JOB_CREATED
  | JOB_RUNNING, JOB_RUNNING
  | JOB_PAUSED, JOB_PAUSED
  | JOB_FINISHED, JOB_FINISHED
  | JOB_ABORTED, JOB_ABORTED
  | JOB_DELETED, JOB_DELETED => true
  | _, _ => false
  end.

(** [printer_status_names] of [presi.h], as printed by the "PRINTER:" lines. *)
Definition printer_status_names (st : PRINTER_STATUS) : string :=
  match st with
  | PRINTER_DISABLED => "disabled"
  | PRINTER_IDLE => "idle"
  | PRINTER_BUSY => "busy"
  end.

(** The three signals the spooler sends. *)
Inductive signal : Set := SIGSTOP | SIGCONT | SIGTERM.

(** The [int status] filled in by [waitpid], seen through the macros the
    code tests it with: [WIFSTOPPED], [WIFCONTINUED], [WIFEXITED] (with
    [WEXITSTATUS]) and [WIFSIGNALED] (with [WTERMSIG]). *)
Inductive wstatus : Set :=
| W_STOPPED
| W_CONTINUED
| W_EXITED (exit_status : Z)
| W_SIGNALED (termsig : Z).

(** ** Records of [conversions.h], [printer_struct.h] and [job_struct.h] *)

(** A [FILE_TYPE *].  The code compares file types both by pointer
    ([printer->type != from_type]) and by name ([strcmp]); [ft_addr]
    stands for the address of the struct. *)
Record FILE_TYPE : Set := mkFILE_TYPE {
  ft_addr : nat;
  ft_name : string
}.

(** A [CONVERSION *]; the spooler only reads [cmd_and_args]. *)
Record CONVERSION : Set := mkCONVERSION {
  cmd_and_args : list string
}.

(** [struct printer].  The reserved field [other] is always [NULL] and is
    left out. *)
Record PRINTER : Set := mkPRINTER {
  name : string;
  type : FILE_TYPE;
  printer_status : PRINTER_STATUS
}.

(** [struct job].  A [PRINTER *] is an index into [printer_registry];
    [None] is [NULL]. *)
Record JOB : Set := mkJOB {
  id : Z;
  input_file_path : option string;
  target_printer : option nat;
  status : JOB_STATUS;
  pgid : Z;
  created_at : Z;
  status_changed_at : Z
}.

Definition set_printer_status (st : PRINTER_STATUS) (p : PRINTER) : PRINTER :=
  mkPRINTER (name p) (type p) st.

Definition set_status (st : JOB_STATUS) (j : JOB) : JOB :=
  mkJOB (id j) (input_file_path j) (target_printer j) st (pgid j)
        (created_at j) (status_changed_at j).

Definition set_pgid (p : Z) (j : JOB) : JOB :=
  mkJOB (id j) (input_file_path j) (target_printer j) (status j) p
        (created_at j) (status_changed_at j).

Definition set_target_printer (p : option nat) (j : JOB) : JOB :=
  mkJOB (id j) (input_file_path j) p (status j) (pgid j)
        (created_at j) (status_changed_at j).

Definition set_status_changed_at (t : Z) (j : JOB) : JOB :=
  mkJOB (id j) (input_file_path j) (target_printer j) (status j) (pgid j)
        (created_at j) t.

(** ** The trace of externally visible actions *)

Inductive event : Set :=
| sf_cmd_ok
| sf_cmd_error (msg : string)
| sf_printer_defined (pname tname : string)
| sf_printer_status (pname : string) (st : PRINTER_STATUS)
| sf_job_created (jid : Z) (path : option string) (tname : string)
| sf_job_status (jid : Z) (st : JOB_STATUS)
| sf_job_started (jid : Z) (pname : string) (pid : Z) (cmds : list (option string))
| sf_job_finished (jid : Z) (exit_status : Z)
| sf_job_aborted (jid : Z) (termsig : Z)
| sf_job_deleted (jid : Z)
| killpg (pgrp : Z) (sig : signal)
| fprintf_out (line : string)
| printf_job (jid : Z) (tname : string) (created changed : Z)
             (st : JOB_STATUS) (path : option string) (pname : option string).

(** An array element written in place. *)
Definition upd {A : Type} (a : nat -> A) (i : nat) (x : A) : nat -> A :=
  fun k => if Nat.eqb k i then x else a k.

(** ** Pieces of the C library

    Strings are C strings: a [string] holds the characters before the
    terminating NUL. *)

(** [isspace] in the C locale: space, and the controls from tab to
    carriage return. *)
Definition isspace (c : ascii) : bool :=
  let n := nat_of_ascii c in
  (Nat.eqb n 32 || (Nat.leb 9 n && Nat.leb n 13))%bool.

Definition nl : string := String (ascii_of_nat 10) EmptyString.

(** The conversion [%d] of [printf]. *)
Definition fmt_d (z : Z) : string := NilZero.string_of_int (Z.to_int z).

Definition digit_value (c : ascii) : option Z :=
  let n := nat_of_ascii c in
  if (Nat.leb 48 n && Nat.leb n 57)%bool then Some (Z.of_nat n - 48) else None.

Fixpoint atoi_digits (acc : Z) (s : string) : Z :=
  match s with
  | EmptyString => acc
  | String c rest =>
      match digit_value c with
      | Some d => atoi_digits (10 * acc + d) rest
      | None => acc
      end
  end.

Fixpoint atoi_skip (s : string) : string :=
  match s with
  | EmptyString => EmptyString
  | String c rest => if isspace c then atoi_skip rest else s
  end.

(** The number a decimal numeral denotes: leading white space, an
    optional sign, then decimal digits up to the first character that is
    not one. *)
Definition decimal_value (s : string) : Z :=
  match atoi_skip s with
  | String "-" rest => - atoi_digits 0 rest
  | String "+" rest => atoi_digits 0 rest
  | t => atoi_digits 0 t
  end.

(** [strtol] keeps its result within the range of a 64-bit [long]. *)
Definition LONG_MAX : Z := 2 ^ 63 - 1.
Definition LONG_MIN : Z := - 2 ^ 63.

Definition strtol (s : string) : Z :=
  Z.max LONG_MIN (Z.min LONG_MAX (decimal_value s)).

(** The conversion of a [long] to a 32-bit [int]: the low 32 bits, read in
    two's complement. *)
Definition to_int (z : Z) : Z := (z + 2 ^ 31) mod 2 ^ 32 - 2 ^ 31.

(** [atoi], as the C library computes it: [(int) strtol (s, NULL, 10)].
    A numeral that fits an [int] gives its value; [4294967296] gives 0. *)
Definition atoi (s : string) : Z := to_int (strtol s).

(** ** The environment

    [presi.h] and [conversions.h] are not part of the sources: the two
    capacity constants and the type / conversion registry enter as
    parameters, and so do the answers of the operating system.  The
    registry of [conversions.c] has a state of its own ([REGISTRY]);
    [define_type] and [define_conversion] may change it, the three lookups
    only read it.  System calls are numbered in the order the spooler makes
    them, and the environment fixes the answer to the n-th call. *)
Class Env : Type := {
  MAX_JOBS : nat;
  MAX_PRINTERS : nat;
  REGISTRY : Type;
  define_type : string -> REGISTRY -> option FILE_TYPE * REGISTRY;
  define_conversion :
    string -> string -> list string -> REGISTRY -> option CONVERSION * REGISTRY;
  find_type : string -> REGISTRY -> option FILE_TYPE;
  infer_file_type : option string -> REGISTRY -> option FILE_TYPE;
  find_conversion_path : string -> string -> REGISTRY -> option (list CONVERSION);
  fork_result : nat -> Z;
  time_result : nat -> Z;
  killpg_result : nat -> Z
}.

Section Spooler.

Context {env : Env}.

(** ** The process-wide state

    [printer_registry] and [job_spool] are the two static arrays with
    their element counts; slots at or beyond the count hold whatever was
    last written there.  [trace] lists the events, most recent first. *)
Record spooler : Type := mkSpooler {
  registry : REGISTRY;
  printer_registry : nat -> PRINTER;
  number_of_registered_printers : nat;
  job_spool : nat -> JOB;
  job_count : nat;
  child_signal_received : bool;
  initialized : bool;
  syscalls : nat;
  trace : list event
}.

Definition set_registry (r : REGISTRY) (s : spooler) : spooler :=
  mkSpooler r (printer_registry s) (number_of_registered_printers s)
            (job_spool s) (job_count s) (child_signal_received s)
            (initialized s) (syscalls s) (trace s).

Definition set_printer_registry (a : nat -> PRINTER) (s : spooler) : spooler :=
  mkSpooler (registry s) a (number_of_registered_printers s)
            (job_spool s) (job_count s) (child_signal_received s)
            (initialized s) (syscalls s) (trace s).

Definition set_number_of_registered_printers (n : nat) (s : spooler) : spooler :=
  mkSpooler (registry s) (printer_registry s) n
            (job_spool s) (job_count s) (child_signal_received s)
            (initialized s) (syscalls s) (trace s).

Definition set_job_spool (a : nat -> JOB) (s : spooler) : spooler :=
  mkSpooler (registry s) (printer_registry s) (number_of_registered_printers s)
            a (job_count s) (child_signal_received s)
            (initialized s) (syscalls s) (trace s).

Definition set_job_count (n : nat) (s : spooler) : spooler :=
  mkSpooler (registry s) (printer_registry s) (number_of_registered_printers s)
            (job_spool s) n (child_signal_received s)
            (initialized s) (syscalls s) (trace s).

Definition set_child_signal_received (b : bool) (s : spooler) : spooler :=
  mkSpooler (registry s) (printer_registry s) (number_of_registered_printers s)
            (job_spool s) (job_count s) b
            (initialized s) (syscalls s) (trace s).

Definition set_initialized (b : bool) (s : spooler) : spooler :=
  mkSpooler (registry s) (printer_registry s) (number_of_registered_printers s)
            (job_spool s) (job_count s) (child_signal_received s)
            b (syscalls s) (trace s).

Definition set_syscalls (n : nat) (s : spooler) : spooler :=
  mkSpooler (registry s) (printer_registry s) (number_of_registered_printers s)
            (job_spool s) (job_count s) (child_signal_received s)
            (initialized s) n (trace s).

(** One call of the event sink, one output line or one signal. *)
Definition emit (e : event) (s : spooler) : spooler :=
  mkSpooler (registry s) (printer_registry s) (number_of_registered_printers s)
            (job_spool s) (job_count s) (child_signal_received s)
            (initialized s) (syscalls s) (e :: trace s).

(** [job_spool[i] = f(job_spool[i])]: fields of one slot assigned in place. *)
Definition modify_job (i : nat) (f : JOB -> JOB) (s : spooler) : spooler :=
  set_job_spool (upd (job_spool s) i (f (job_spool s i))) s.

(** [p->status = st] for the printer at index [p]. *)
Definition modify_printer (p : nat) (f : PRINTER -> PRINTER) (s : spooler) : spooler :=
  set_printer_registry (upd (printer_registry s) p (f (printer_registry s p))) s.

(** ** System calls *)

(** [time(NULL)]. *)
Definition time (s : spooler) : Z * spooler :=
  (time_result (syscalls s), set_syscalls (S (syscalls s)) s).

(** [killpg(pgrp, sig)]: the signal is recorded, the result is the
    environment's. *)
Definition do_killpg (pgrp : Z) (sig : signal) (s : spooler) : Z * spooler :=
  (killpg_result (syscalls s), set_syscalls (S (syscalls s)) (emit (killpg pgrp sig) s)).

(** ** [printer_manager.c] *)

Definition get_printer_count (s : spooler) : nat :=
  number_of_registered_printers s.

(** The loop of [get_printer_by_name], from index [i], [n] entries to go. *)
Fixpoint get_printer_by_name_from (printer_name : string) (s : spooler)
         (i n : nat) : option nat :=
  match n with
  | O => None
  | S n' =>
      if String.eqb (name (printer_registry s i)) printer_name then Some i
      else get_printer_by_name_from printer_name s (S i) n'
  end.

Definition get_printer_by_name (printer_name : string) (s : spooler) : option nat :=
  get_printer_by_name_from printer_name s 0 (number_of_registered_printers s).

Definition get_printer_by_index (index : nat) (s : spooler) : option nat :=
  if Nat.ltb index (number_of_registered_printers s) then Some index else None.

Definition add_printer_to_system (printer_name file_type_name : string)
           (s : spooler) : Z * spooler :=
  if Nat.leb MAX_PRINTERS (number_of_registered_printers s) then (-1, s)
  else
    match get_printer_by_name printer_name s with
    | Some _ => (-1, s)
    | None =>
        match find_type file_type_name (registry s) with
        | None => (-1, s)
        | Some resolved_file_type =>
            let n := number_of_registered_printers s in
            let new_printer :=
              mkPRINTER printer_name resolved_file_type PRINTER_DISABLED in
            let s1 := set_printer_registry (upd (printer_registry s) n new_printer) s in
            let s2 := set_number_of_registered_printers (S n) s1 in
            (0, emit (sf_printer_defined printer_name (ft_name resolved_file_type)) s2)
        end
    end.

(** The loop of [select_compatible_printer], from index [i], [n] entries
    to go.  One pass: the first idle printer that matches by name or is
    reachable through a conversion path is returned. *)
Fixpoint select_compatible_printer_from (from_type : FILE_TYPE) (s : spooler)
         (i n : nat) : option nat :=
  match n with
  | O => None
  | S n' =>
      let printer := printer_registry s i in
      if negb (printer_status_eqb (printer_status printer) PRINTER_IDLE) then
        select_compatible_printer_from from_type s (S i) n'
      else if String.eqb (ft_name (type printer)) (ft_name from_type) then
        Some i
      else
        match find_conversion_path (ft_name from_type) (ft_name (type printer))
                                   (registry s) with
        | Some _ => Some i
        | None => select_compatible_printer_from from_type s (S i) n'
        end
  end.

Definition select_compatible_printer (from_type : option FILE_TYPE) (s : spooler)
  : option nat :=
  match from_type with
  | None => None
  | Some ft => select_compatible_printer_from ft s 0 (get_printer_count s)
  end.

(** ** [job_manager.c] *)

(** [start_conversion_pipeline], as seen from the spooler process: one
    [fork]; a negative result is a failure, otherwise the pid of the
    supervising process comes back.  What the forked supervisor does with
    [job] and [path] happens in another process. *)
Definition start_conversion_pipeline (job : nat) (path : option (list CONVERSION))
           (s : spooler) : Z * spooler :=
  let master := fork_result (syscalls s) in
  ((if master <? 0 then -1 else master), set_syscalls (S (syscalls s)) s).

Definition job_manager_initialize (s : spooler) : spooler :=
  set_job_count 0 s.

Definition cleanup_job (job : JOB) : JOB :=
  mkJOB (id job) None None JOB_DELETED (-1) 0 0.

(** The loop of [job_manager_cleanup], from index [i], [n] slots to go. *)
Fixpoint cleanup_jobs_from (i n : nat) (s : spooler) : spooler :=
  match n with
  | O => s
  | S n' => cleanup_jobs_from (S i) n' (modify_job i cleanup_job s)
  end.

Definition job_manager_cleanup (s : spooler) : spooler :=
  set_job_count 0 (cleanup_jobs_from 0 (job_count s) s).

Definition get_job_count (s : spooler) : nat := job_count s.

Definition get_job_by_index (index : nat) (s : spooler) : option JOB :=
  if Nat.ltb index (job_count s) then Some (job_spool s index) else None.

(** [cmds[i] = path[i]->cmd_and_args[0]] for every stage of [path]. *)
Definition stage_commands (path : list CONVERSION) : list (option string) :=
  map (fun c => hd_error (cmd_and_args c)) path.

(** The second half of [try_scheduling_jobs]'s loop body and of
    [submit_print_job]'s second case: the job at [i] has been started on
    printer [p] as process group [pid]. *)
Definition mark_running (i p : nat) (pid : Z) (s : spooler) : spooler :=
  let s1 := modify_job i (fun j => set_status JOB_RUNNING (set_pgid pid j)) s in
  let (now, s2) := time s1 in
  let s3 := modify_job i (set_status_changed_at now) s2 in
  modify_printer p (set_printer_status PRINTER_BUSY) s3.

Definition announce_started (i p : nat) (pid : Z) (cmds : list (option string))
           (s : spooler) : spooler :=
  let jid := id (job_spool s i) in
  let pname := name (printer_registry s p) in
  emit (sf_job_started jid pname pid cmds)
       (emit (sf_printer_status pname PRINTER_BUSY)
             (emit (sf_job_status jid JOB_RUNNING) s)).

(** The body of the loop of [try_scheduling_jobs] for index [i]. *)
Definition try_scheduling_job (i : nat) (s : spooler) : spooler :=
  let job := job_spool s i in
  if negb (job_status_eqb (status job) JOB_CREATED) then s
  else
    match infer_file_type (input_file_path job) (registry s) with
    | None => s
    | Some from_type =>
        match select_compatible_printer (Some from_type) s with
        | None => s
        | Some p =>
            let printer := printer_registry s p in
            let s1 := modify_job i (set_target_printer (Some p)) s in
            if String.eqb (ft_name from_type) (ft_name (type printer)) then
              let (pid, s2) := start_conversion_pipeline i None s1 in
              if pid <? 0 then modify_job i (set_target_printer None) s2
              else
                announce_started i p pid [Some "cat"] (mark_running i p pid s2)
            else
              match find_conversion_path (ft_name from_type)
                                         (ft_name (type printer)) (registry s1) with
              | None => modify_job i (set_target_printer None) s1
              | Some path =>
                  let (pid, s2) := start_conversion_pipeline i (Some path) s1 in
                  if pid <? 0 then modify_job i (set_target_printer None) s2
                  else
                    announce_started i p pid (stage_commands path)
                                     (mark_running i p pid s2)
              end
        end
    end.

(** [for (i = ...; i < get_job_count(); i++)], from index [i] with [n]
    iterations to go; the body never changes [job_count]. *)
Fixpoint try_scheduling_jobs_from (i n : nat) (s : spooler) : spooler :=
  match n with
  | O => s
  | S n' => try_scheduling_jobs_from (S i) n' (try_scheduling_job i s)
  end.

Definition try_scheduling_jobs (s : spooler) : spooler :=
  try_scheduling_jobs_from 0 (get_job_count s) s.

(** The summary line [submit_print_job] prints on [stdout]; the two
    timestamps are kept as numbers rather than formatted. *)
Definition print_job_summary (i : nat) (from_type : FILE_TYPE) (s : spooler)
  : spooler :=
  let job := job_spool s i in
  emit (printf_job (id job) (ft_name from_type) (created_at job)
                   (status_changed_at job) (status job) (input_file_path job)
                   (option_map (fun p => name (printer_registry s p))
                               (target_printer job))) s.

(** The validation of an explicitly requested printer. *)
Definition printer_accepts (printer : nat) (from_type : FILE_TYPE) (s : spooler)
  : bool :=
  let pr := printer_registry s printer in
  if negb (printer_status_eqb (printer_status pr) PRINTER_IDLE) then false
  else if negb (Nat.eqb (ft_addr (type pr)) (ft_addr from_type)) then
    match find_conversion_path (ft_name from_type) (ft_name (type pr)) (registry s) with
    | None => false
    | Some _ => true
    end
  else true.

Definition submit_print_job (file_path : option string) (printer : option nat)
           (s : spooler) : Z * spooler :=
  match file_path with
  | None => (-1, s)
  | Some _ =>
  if Nat.leb MAX_JOBS (job_count s) then (-1, s)
  else
    match infer_file_type file_path (registry s) with
    | None => (-1, s)
    | Some from_type =>
        if match printer with
           | Some p => negb (printer_accepts p from_type s)
           | None => false
           end
        then (-1, s)
        else
          let i := job_count s in
          let (now, s1) := time s in
          let s2 :=
            modify_job i (fun j => mkJOB (Z.of_nat i) file_path printer (status j)
                                         (-1) now now) s1 in
          let s3 :=
            emit (sf_job_created (id (job_spool s2 i)) (input_file_path (job_spool s2 i))
                                 (ft_name from_type)) s2 in
          match printer with
          | None =>
              let s4 := modify_job i (set_status JOB_CREATED) s3 in
              let s5 := emit (sf_job_status (id (job_spool s4 i)) JOB_CREATED) s4 in
              let s6 := set_job_count (S (job_count s5)) s5 in
              let s7 := try_scheduling_jobs s6 in
              (0, print_job_summary i from_type s7)
          | Some p =>
              let path :=
                find_conversion_path (ft_name from_type)
                                     (ft_name (type (printer_registry s3 p)))
                                     (registry s3) in
              let (pid, s4) := start_conversion_pipeline i path s3 in
              if pid <? 0 then (-1, s4)
              else
                let s5 := mark_running i p pid s4 in
                let cmds :=
                  match path with
                  | Some stages => stage_commands stages
                  | None => [Some "cat"]
                  end in
                let s6 := announce_started i p pid cmds s5 in
                let s7 := set_job_count (S (job_count s6)) s6 in
                (0, print_job_summary i from_type s7)
          end
    end
  end.

(** The inner loop of the sweep:
    [for (j = ...; j < job_count; j++) job_spool[j - 1] = job_spool[j]],
    from index [j] with [n] iterations to go. *)
Fixpoint compact_from (j n : nat) (a : nat -> JOB) : nat -> JOB :=
  match n with
  | O => a
  | S n' => compact_from (S j) n' (upd a (j - 1) (a j))
  end.

(** The test of the sweep; [difftime(now, status_changed_at) >= 10.0] is
    taken on whole seconds. *)
Definition job_expired (now : Z) (job : JOB) : bool :=
  (job_status_eqb (status job) JOB_FINISHED || job_status_eqb (status job) JOB_ABORTED)
  && (10 <=? now - status_changed_at job).

(** The outer loop of [delete_expired_jobs_if_needed] at index [i], with
    [n = job_count - i] iterations to go: a removal decrements both
    [job_count] and [i] before the [i++] of the loop, every other
    iteration advances [i]. *)
Fixpoint delete_expired_jobs_from (now : Z) (i n : nat) (s : spooler) : spooler :=
  match n with
  | O => s
  | S n' =>
      let job := job_spool s i in
      if job_expired now job then
        let s1 := emit (sf_job_deleted (id job)) s in
        let s2 := modify_job i cleanup_job s1 in
        let s3 :=
          set_job_spool (compact_from (S i) (job_count s2 - S i) (job_spool s2)) s2 in
        let s4 := set_job_count (job_count s3 - 1) s3 in
        delete_expired_jobs_from now i n' s4
      else delete_expired_jobs_from now (S i) n' s
  end.

Definition delete_expired_jobs_if_needed (s : spooler) : spooler :=
  let (now, s1) := time s in
  delete_expired_jobs_from now 0 (job_count s1) s1.

(** [job->target_printer->status = PRINTER_IDLE] followed by the status
    event, as [cancel_job] does it.  The C code dereferences
    [target_printer] unconditionally; a Running or Paused job always has
    one (see [spooler_inv]), and for [NULL], where C leaves the behaviour
    undefined, the model changes nothing. *)
Definition release_printer_of (i : nat) (s : spooler) : spooler :=
  match target_printer (job_spool s i) with
  | Some p => modify_printer p (set_printer_status PRINTER_IDLE) s
  | None => s
  end.

Definition announce_printer_idle_of (i : nat) (s : spooler) : spooler :=
  match target_printer (job_spool s i) with
  | Some p => emit (sf_printer_status (name (printer_registry s p)) PRINTER_IDLE) s
  | None => s
  end.

Definition cancel_job (job_id : Z) (s : spooler) : Z * spooler :=
  if (job_id <? 0) || (Z.of_nat (job_count s) <=? job_id) then (-1, s)
  else
    let i := Z.to_nat job_id in
    let job := job_spool s i in
    if job_status_eqb (status job) JOB_CREATED then
      let s1 := modify_job i (set_status JOB_ABORTED) s in
      let (now, s2) := time s1 in
      let s3 := modify_job i (set_status_changed_at now) s2 in
      let s4 := emit (sf_job_status (id (job_spool s3 i)) JOB_ABORTED) s3 in
      (0, emit (sf_job_aborted (id (job_spool s4 i)) 0) s4)
    else if negb (job_status_eqb (status job) JOB_RUNNING)
            && negb (job_status_eqb (status job) JOB_PAUSED) then (-1, s)
    else
      let s1 :=
        if job_status_eqb (status job) JOB_PAUSED
        then snd (do_killpg (pgid job) SIGCONT s) else s in
      let s2 := snd (do_killpg (pgid job) SIGTERM s1) in
      let s3 := modify_job i (set_status JOB_ABORTED) s2 in
      let (now, s4) := time s3 in
      let s5 := modify_job i (set_status_changed_at now) s4 in
      let s6 := release_printer_of i s5 in
      let s7 := emit (sf_job_status (id (job_spool s6 i)) JOB_ABORTED) s6 in
      let s8 := announce_printer_idle_of i s7 in
      (0, emit (sf_job_aborted (id (job_spool s8 i)) 0) s8).

Definition pause_job (job_id : Z) (s : spooler) : Z * spooler :=
  if (job_id <? 0) || (Z.of_nat (job_count s) <=? job_id) then (-1, s)
  else
    let job := job_spool s (Z.to_nat job_id) in
    if negb (job_status_eqb (status job) JOB_RUNNING) then (-1, s)
    else do_killpg (pgid job) SIGSTOP s.

Definition resume_job (job_id : Z) (s : spooler) : Z * spooler :=
  if (job_id <? 0) || (Z.of_nat (job_count s) <=? job_id) then (-1, s)
  else
    let job := job_spool s (Z.to_nat job_id) in
    if negb (job_status_eqb (status job) JOB_PAUSED) then (-1, s)
    else do_killpg (pgid job) SIGCONT s.

(** ** [command_handler.c]

    A handler receives [argv] as the list of tokens; [argc] is its length.
    Buffers are assumed to be allocated successfully ([strdup], [calloc]). *)

Definition argc_of (argv : list string) : Z := Z.of_nat (List.length argv).

Definition arg (argv : list string) (i : nat) : string := nth i argv "".

Definition commands_summary : string :=
  "Commands are: help quit type printer conversion printers jobs print cancel disable enable pause resume" ++ nl.

(** The format ["PRINTER: id=%d, name=%s, type=%s, status=%s\n"]. *)
Definition printer_line (shown_id : Z) (p : PRINTER) : string :=
  "PRINTER: id=" ++ fmt_d shown_id ++ ", name=" ++ name p ++ ", type="
    ++ ft_name (type p) ++ ", status=" ++ printer_status_names (printer_status p) ++ nl.

Definition handle_type_command (argv : list string) (s : spooler) : spooler :=
  if negb (argc_of argv =? 2) then
    let s1 := emit (fprintf_out
      ("Wrong number of args (given: " ++ fmt_d (argc_of argv - 1)
         ++ ", required: 1) for CLI command 'type'" ++ nl)) s in
    emit (sf_cmd_error "Invalid number of arguments for 'type'.") s1
  else
    let (t, r) := define_type (arg argv 1) (registry s) in
    let s1 := set_registry r s in
    match t with
    | None =>
        emit (sf_cmd_error "define_type() failed.")
             (emit (fprintf_out ("Command error: type (failed)" ++ nl)) s1)
    | Some _ => emit sf_cmd_ok s1
    end.

Definition handle_conversion_command (argv : list string) (s : spooler) : spooler :=
  if argc_of argv <? 4 then
    let s1 := emit (fprintf_out
      ("Wrong number of args (given: " ++ fmt_d (argc_of argv - 1)
         ++ ", required: 3) for CLI command 'conversion'" ++ nl)) s in
    emit (sf_cmd_error "Invalid number of arguments for 'conversion'.") s1
  else
    let from_type := arg argv 1 in
    let to_type := arg argv 2 in
    match find_type from_type (registry s), find_type to_type (registry s) with
    | Some _, Some _ =>
        let (conv, r) :=
          define_conversion from_type to_type (skipn 3 argv) (registry s) in
        let s1 := set_registry r s in
        match conv with
        | None =>
            emit (sf_cmd_error "define_conversion() failed.")
                 (emit (fprintf_out ("Command error: conversion (failed)" ++ nl)) s1)
        | Some _ => emit sf_cmd_ok s1
        end
    | from, _ =>
        let s1 :=
          match from with
          | None => emit (fprintf_out ("Undeclared file type: " ++ from_type ++ nl)) s
          | Some _ => emit (fprintf_out ("Undeclared file type: " ++ to_type ++ nl)) s
          end in
        emit (fprintf_out ("Command error: conversion (failed)" ++ nl))
             (emit (sf_cmd_error "conversion") s1)
    end.

Definition handle_printer_command (argv : list string) (s : spooler) : spooler :=
  if negb (argc_of argv =? 3) then
    let s1 := emit (fprintf_out
      ("Wrong number of args (given: " ++ fmt_d (argc_of argv - 1)
         ++ ", required: 2) for CLI command 'printer'" ++ nl)) s in
    emit (sf_cmd_error "Invalid number of arguments for 'printer'.") s1
  else
    let pname := arg argv 1 in
    let tname := arg argv 2 in
    match find_type tname (registry s) with
    | None =>
        emit (fprintf_out ("Command error: printer (failed)" ++ nl))
             (emit (sf_cmd_error "printer")
                   (emit (fprintf_out ("Unknown file type: " ++ tname ++ nl)) s))
    | Some _ =>
        let (rc, s1) := add_printer_to_system pname tname s in
        if negb (rc =? 0) then
          emit (fprintf_out ("Command error: printer (failed)" ++ nl))
               (emit (sf_cmd_error "printer") s1)
        else
          let s2 :=
            match get_printer_by_name pname s1 with
            | Some p =>
                emit (fprintf_out
                        (printer_line (Z.of_nat (get_printer_count s1) - 1)
                                      (printer_registry s1 p))) s1
            | None => s1
            end in
          emit sf_cmd_ok s2
    end.

Definition handle_enable_command (argv : list string) (s : spooler) : spooler :=
  if negb (argc_of argv =? 2) then
    let s1 := emit (fprintf_out
      ("Wrong number of args (given: " ++ fmt_d (argc_of argv - 1)
         ++ ", required: 1) for CLI command 'enable'" ++ nl)) s in
    emit (sf_cmd_error "Invalid number of arguments for 'enable'.") s1
  else
    match get_printer_by_name (arg argv 1) s with
    | None =>
        emit (fprintf_out ("Command error: enable (no printer)" ++ nl))
             (emit (sf_cmd_error "enable") s)
    | Some p =>
        let s1 := modify_printer p (set_printer_status PRINTER_IDLE) s in
        let s2 :=
          emit (sf_printer_status (name (printer_registry s1 p))
                                  (printer_status (printer_registry s1 p))) s1 in
        let s3 :=
          emit (fprintf_out
                  (printer_line (Z.of_nat (get_printer_count s2) - 1)
                                (printer_registry s2 p))) s2 in
        let s4 := try_scheduling_jobs s3 in
        emit sf_cmd_ok s4
    end.

(** The loop of [handle_printers_command], from index [i], [n] to go. *)
Fixpoint list_printers_from (i n : nat) (s : spooler) : spooler :=
  match n with
  | O => s
  | S n' =>
      list_printers_from (S i) n'
        (emit (fprintf_out (printer_line (Z.of_nat i) (printer_registry s i))) s)
  end.

Definition handle_printers_command (s : spooler) : spooler :=
  emit sf_cmd_ok (list_printers_from 0 (get_printer_count s) s).

Definition handle_print_command (argv : list string) (s : spooler) : spooler :=
  if negb (argc_of argv =? 2) then
    let s1 := emit (fprintf_out
      ("Wrong number of args (given: " ++ fmt_d (argc_of argv - 1)
         ++ ", required: 1) for CLI command 'print'" ++ nl)) s in
    emit (sf_cmd_error "Invalid number of arguments for 'print'.") s1
  else
    match infer_file_type (Some (arg argv 1)) (registry s) with
    | None =>
        emit (sf_cmd_error "print")
             (emit (fprintf_out ("Command error: print (file type)" ++ nl)) s)
    | Some _ =>
        let (rc, s1) := submit_print_job (Some (arg argv 1)) None s in
        if negb (rc =? 0) then
          emit (sf_cmd_error "submit_print_job() failed.")
               (emit (fprintf_out ("Command error: print (failed)" ++ nl)) s1)
        else emit sf_cmd_ok s1
    end.

(** The loop of [handle_jobs_command], from index [i], [n] to go. *)
Fixpoint list_jobs_from (i n : nat) (s : spooler) : spooler :=
  match n with
  | O => s
  | S n' =>
      list_jobs_from (S i) n'
        (emit (sf_job_status (id (job_spool s i)) (status (job_spool s i))) s)
  end.

Definition handle_jobs_command (s : spooler) : spooler :=
  emit sf_cmd_ok (list_jobs_from 0 (get_job_count s) s).

Definition handle_cancel_command (argv : list string) (s : spooler) : spooler :=
  if negb (argc_of argv =? 2) then
    emit (sf_cmd_error "Invalid arguments for 'cancel'")
         (emit (fprintf_out ("Error: 'cancel' requires 1 argument: <job_id>" ++ nl)) s)
  else
    let job_id := atoi (arg argv 1) in
    let (rc, s1) := cancel_job job_id s in
    if negb (rc =? 0) then
      emit (sf_cmd_error "cancel_job() failed")
           (emit (fprintf_out ("Error: Failed to cancel job " ++ fmt_d job_id ++ nl)) s1)
    else emit sf_cmd_ok s1.

Definition handle_pause_command (argv : list string) (s : spooler) : spooler :=
  if negb (argc_of argv =? 2) then
    emit (sf_cmd_error "Invalid arguments for 'pause'")
         (emit (fprintf_out ("Error: 'pause' requires 1 argument: <job_id>" ++ nl)) s)
  else
    let job_id := atoi (arg argv 1) in
    let (rc, s1) := pause_job job_id s in
    if negb (rc =? 0) then
      emit (sf_cmd_error "pause_job() failed")
           (emit (fprintf_out ("Error: Failed to pause job " ++ fmt_d job_id ++ nl)) s1)
    else emit sf_cmd_ok s1.

Definition handle_resume_command (argv : list string) (s : spooler) : spooler :=
  if negb (argc_of argv =? 2) then
    emit (sf_cmd_error "Invalid arguments for 'resume'")
         (emit (fprintf_out ("Error: 'resume' requires 1 argument: <job_id>" ++ nl)) s)
  else
    let job_id := atoi (arg argv 1) in
    let (rc, s1) := resume_job job_id s in
    if negb (rc =? 0) then
      emit (sf_cmd_error "resume_job() failed")
           (emit (fprintf_out ("Error: Failed to resume job " ++ fmt_d job_id ++ nl)) s1)
    else emit sf_cmd_ok s1.

Definition handle_user_command (argv : list string) (s : spooler) : spooler :=
  match argv with
  | [] => s
  | cmd :: _ =>
      if String.eqb cmd "help" then
        if negb (argc_of argv =? 1) then
          let s1 := emit (fprintf_out
            ("Wrong number of args (given: " ++ fmt_d (argc_of argv - 1)
               ++ ", required: 0) for CLI command 'help'" ++ nl)) s in
          emit (sf_cmd_error "Invalid number of arguments for 'help'") s1
        else emit sf_cmd_ok (emit (fprintf_out commands_summary) s)
      else if String.eqb cmd "type" then handle_type_command argv s
      else if String.eqb cmd "conversion" then handle_conversion_command argv s
      else if String.eqb cmd "printer" then handle_printer_command argv s
      else if String.eqb cmd "enable" then handle_enable_command argv s
      else if String.eqb cmd "disable" then
        emit (sf_cmd_error "disable command not implemented")
             (emit (fprintf_out ("Command error: disable (not implemented)" ++ nl)) s)
      else if String.eqb cmd "printers" then handle_printers_command s
      else if String.eqb cmd "print" then handle_print_command argv s
      else if String.eqb cmd "jobs" then handle_jobs_command s
      else if String.eqb cmd "cancel" then handle_cancel_command argv s
      else if String.eqb cmd "pause" then handle_pause_command argv s
      else if String.eqb cmd "resume" then handle_resume_command argv s
      else if String.eqb cmd "quit" then emit sf_cmd_ok s
      else
        emit (sf_cmd_error "Unknown command.")
             (emit (fprintf_out ("Unrecognized command: " ++ cmd ++ nl)) s)
  end.

(** ** [cli.c] *)

Definition MAX_COMMAND_TOKENS : nat := 32.

Definition sigchld_handler (s : spooler) : spooler :=
  set_child_signal_received true s.

(** The printer of a job that has ended is released: the [if
    (job->target_printer)] block shared by the exited and signalled cases. *)
Definition release_target_printer (i : nat) (s : spooler) : spooler :=
  match target_printer (job_spool s i) with
  | Some p =>
      let s1 := modify_printer p (set_printer_status PRINTER_IDLE) s in
      emit (sf_printer_status (name (printer_registry s1 p)) PRINTER_IDLE) s1
  | None => s
  end.

(** The body of the inner loop of [handle_child_status_updates] for the
    job at index [i], once [job->pgid == pid] holds. *)
Definition update_job_status (i : nat) (wst : wstatus) (s : spooler) : spooler :=
  match wst with
  | W_STOPPED =>
      let s1 := modify_job i (set_status JOB_PAUSED) s in
      emit (sf_job_status (id (job_spool s1 i)) JOB_PAUSED) s1
  | W_CONTINUED =>
      let s1 := modify_job i (set_status JOB_RUNNING) s in
      emit (sf_job_status (id (job_spool s1 i)) JOB_RUNNING) s1
  | W_EXITED exit_status =>
      let s1 := modify_job i (set_status JOB_FINISHED) s in
      let (now, s2) := time s1 in
      let s3 := modify_job i (set_status_changed_at now) s2 in
      let s4 := emit (sf_job_status (id (job_spool s3 i)) JOB_FINISHED) s3 in
      let s5 := emit (sf_job_finished (id (job_spool s4 i)) exit_status) s4 in
      release_target_printer i s5
  | W_SIGNALED termsig =>
      let s1 := modify_job i (set_status JOB_ABORTED) s in
      let (now, s2) := time s1 in
      let s3 := modify_job i (set_status_changed_at now) s2 in
      let s4 := emit (sf_job_status (id (job_spool s3 i)) JOB_ABORTED) s3 in
      let s5 := emit (sf_job_aborted (id (job_spool s4 i)) termsig) s4 in
      release_target_printer i s5
  end.

(** The inner loop over the job table for one reaped [pid], from index
    [i] with [n] iterations to go. *)
Fixpoint reap_from (pid : Z) (wst : wstatus) (i n : nat) (s : spooler) : spooler :=
  match n with
  | O => s
  | S n' =>
      if negb (pgid (job_spool s i) =? pid) then reap_from pid wst (S i) n' s
      else reap_from pid wst (S i) n' (update_job_status i wst s)
  end.

Definition reap (pid : Z) (wst : wstatus) (s : spooler) : spooler :=
  reap_from pid wst 0 (get_job_count s) s.

(** [while ((pid = waitpid(-1, &status, ...)) > 0)]: [pending] lists what
    the successive calls of [waitpid] return; past its end [waitpid]
    returns 0 or -1. *)
Fixpoint drain (pending : list (Z * wstatus)) (s : spooler) : spooler :=
  match pending with
  | [] => s
  | (pid, wst) :: rest => if 0 <? pid then drain rest (reap pid wst s) else s
  end.

Definition handle_child_status_updates (pending : list (Z * wstatus)) (s : spooler)
  : spooler :=
  if negb (child_signal_received s) then s
  else
    let s1 := set_child_signal_received false s in
    try_scheduling_jobs (drain pending s1).

(** The two scanning loops of [split_input_line_into_tokens]. *)
Fixpoint skip_spaces (line : string) : string :=
  match line with
  | EmptyString => EmptyString
  | String c rest => if isspace c then skip_spaces rest else line
  end.

(** The token starting at [line], and what follows the NUL written over
    the character that ends it. *)
Fixpoint scan_token (line : string) : string * string :=
  match line with
  | EmptyString => (EmptyString, EmptyString)
  | String c rest =>
      if isspace c then (EmptyString, rest)
      else let (tok, after) := scan_token rest in (String c tok, after)
  end.

(** The outer loop of [split_input_line_into_tokens] with [count] tokens
    already stored.  Every iteration consumes at least one character, so
    [fuel] as large as the length of [line] never runs out ([split_fuel]). *)
Fixpoint split_from (fuel : nat) (line : string) (count : nat) : list string :=
  match fuel with
  | O => []
  | S fuel' =>
      match skip_spaces line with
      | EmptyString => []
      | String _ _ as l =>
          let (tok, after) := scan_token l in
          tok :: (if Nat.leb MAX_COMMAND_TOKENS (S count) then []
                  else split_from fuel' after (S count))
      end
  end.

Definition split_input_line_into_tokens (line : string) : list string :=
  split_from (String.length line) line 0.

(** The test [is_all_whitespace] of [run_cli]. *)
Fixpoint is_all_whitespace (line : string) : bool :=
  match line with
  | EmptyString => true
  | String c rest => if negb (isspace c) then false else is_all_whitespace rest
  end.

(** [isspace((unsigned char)input_line[0])]; the NUL of an empty line is
    not a space. *)
Definition first_is_space (line : string) : bool :=
  match line with
  | EmptyString => false
  | String c _ => isspace c
  end.

(** One iteration of the [while (1)] loop of [run_cli], once a line has
    been read.  The first component is [Some r] when the loop returns [r]
    and [None] when it goes on to the next line. *)
Definition run_cli_line (line : string) (s : spooler) : option Z * spooler :=
  if (is_all_whitespace line || first_is_space line)%bool then (None, s)
  else
    let tokens := split_input_line_into_tokens line in
    match tokens with
    | [] =>
        (None, emit (sf_cmd_error "Unrecognized command.")
                    (emit (fprintf_out ("Unrecognized command: " ++ nl)) s))
    | cmd :: _ =>
        if String.eqb cmd "quit" then
          if negb (argc_of tokens =? 1) then
            let s1 := emit (fprintf_out
              ("Wrong number of args (given: " ++ fmt_d (argc_of tokens - 1)
                 ++ ", required: 0) for CLI command 'quit'" ++ nl)) s in
            let s2 := emit (sf_cmd_error "Invalid number of arguments for 'quit'") s1 in
            (None, delete_expired_jobs_if_needed s2)
          else (Some (-1), emit sf_cmd_ok s)
        else
          (None, delete_expired_jobs_if_needed (handle_user_command tokens s))
    end.

(** [printer_manager_initialize]: the registry is emptied.  (The fields
    the C code resets in the slots it abandons are not represented.) *)
Definition printer_manager_initialize (s : spooler) : spooler :=
  set_number_of_registered_printers 0 s.

Definition initialize_once (s : spooler) : spooler :=
  if initialized s then s
  else set_initialized true (job_manager_initialize (printer_manager_initialize s)).

(** The loop of [run_cli] over the lines the reader delivers; [at_eof] is
    what the loop returns when the reader has no more lines (0 for a
    batch file, -1 for the interactive stream). *)
Fixpoint run_cli_lines (at_eof : Z) (lines : list string) (s : spooler)
  : Z * spooler :=
  match lines with
  | [] => (at_eof, s)
  | line :: rest =>
      match run_cli_line line s with
      | (Some r, s1) => (r, s1)
      | (None, s1) => run_cli_lines at_eof rest s1
      end
  end.

Definition run_cli (interactive : bool) (lines : list string) (s : spooler)
  : Z * spooler :=
  run_cli_lines (if interactive then -1 else 0) lines (initialize_once s).

End Spooler.

(** ** A concrete environment

    Used to run the embedding on concrete command lines. *)
Module Demo.

(** Modelled from the spec: the type and conversion registry of
    [conversions.c], which is not part of the sources, after section 4.C:
    [find_type] looks a declared name up, [infer_file_type] goes by the
    extension of the path, [find_conversion_path] returns a shortest chain
    of declared conversions, the empty chain when the two types are equal,
    and nothing when there is no chain. *)
Record registry : Set := mkRegistry {
  types : list string;
  conversions : list (string * string * list string)
}.

Fixpoint lookup_type (k : nat) (tname : string) (ts : list string) : option FILE_TYPE :=
  match ts with
  | [] => None
  | t :: rest =>
      if String.eqb t tname then Some (mkFILE_TYPE k t)
      else lookup_type (S k) tname rest
  end.

Definition find_type (tname : string) (r : registry) : option FILE_TYPE :=
  lookup_type 0 tname (types r).

Definition define_type (tname : string) (r : registry) : option FILE_TYPE * registry :=
  match find_type tname r with
  | Some t => (Some t, r)
  | None =>
      let r' := mkRegistry (types r ++ [tname]) (conversions r) in
      (find_type tname r', r')
  end.

Definition define_conversion (from to : string) (cmd : list string) (r : registry)
  : option CONVERSION * registry :=
  match find_type from r, find_type to r with
  | Some _, Some _ =>
      (Some (mkCONVERSION cmd),
       mkRegistry (types r) (conversions r ++ [(from, to, cmd)]))
  | _, _ => (None, r)
  end.

Fixpoint extension (path : string) : option string :=
  match path with
  | EmptyString => None
  | String c rest =>
      match extension rest with
      | Some e => Some e
      | None => if Ascii.eqb c "."%char then Some rest else None
      end
  end.

Definition infer_file_type (path : option string) (r : registry) : option FILE_TYPE :=
  match path with
  | None => None
  | Some p =>
      match extension p with
      | None => None
      | Some e => find_type e r
      end
  end.

(** A chain of at most [depth] conversions from [from] to [to]. *)
Fixpoint chain_within (depth : nat) (all : list (string * string * list string))
         (from to : string) : option (list CONVERSION) :=
  if String.eqb from to then Some []
  else
    match depth with
    | O => None
    | S d =>
        fold_right
          (fun '(f, t, cmd) found =>
             if String.eqb f from then
               match chain_within d all t to with
               | Some chain => Some (mkCONVERSION cmd :: chain)
               | None => found
               end
             else found)
          None all
    end.

(** The first depth, from [depth] upwards over [n] attempts, at which a
    chain exists. *)
Fixpoint shortest_chain (depth n : nat) (all : list (string * string * list string))
         (from to : string) : option (list CONVERSION) :=
  match n with
  | O => None
  | S n' =>
      match chain_within depth all from to with
      | Some chain => Some chain
      | None => shortest_chain (S depth) n' all from to
      end
  end.

Definition find_conversion_path (from to : string) (r : registry)
  : option (list CONVERSION) :=
  shortest_chain 0 (S (List.length (types r))) (conversions r) from to.

(** The operating system of the demonstration: [forks] and [clock] give
    the answers to [fork] and [time]; every [killpg] succeeds. *)
Definition env (forks clock : nat -> Z) : Env :=
  Build_Env 64 32 registry define_type define_conversion find_type
            infer_file_type find_conversion_path forks clock (fun _ => 0).

(** The state of a freshly started spooler: empty tables, nothing
    declared.  The slots of the two static arrays are zero-filled. *)
Definition start (forks clock : nat -> Z) : @spooler (env forks clock) :=
  @mkSpooler (env forks clock)
    (mkRegistry [] [])
    (fun _ => mkPRINTER "" (mkFILE_TYPE 0 "") PRINTER_DISABLED) 0
    (fun _ => mkJOB 0 None None JOB_CREATED 0 0 0) 0
    false false 0 [].

(** Pids grow with the calls; twenty seconds pass between two calls of
    [time]. *)
Definition pids (n : nat) : Z := 100 + Z.of_nat n.
Definition clock (n : nat) : Z := 20 * Z.of_nat n.

Definition world : Env := env pids clock.

(** The same world with no process left to fork. *)
Definition world_without_forks : Env := env (fun _ => -1) clock.

(** The spooler once [run_cli] has initialized it. *)
Definition boot : @spooler world := @initialize_once world (start pids clock).

Definition after (lines : list string) : @spooler world :=
  snd (@run_cli_lines world (-1) lines boot).

(** One printer, busy with job 0. *)
Definition running : @spooler world :=
  after ["type pdf"; "printer alice pdf"; "enable alice"; "print a.pdf"].

(** Two jobs wait for a printer; job 0 is cancelled and, its grace period
    over, swept out at the end of the same command: the job with id 1 now
    sits at position 0 of the table. *)
Definition compacted : @spooler world :=
  after ["type pdf"; "print a.pdf"; "print b.pdf"; "cancel 0"].

(** Two idle printers: [alice] takes [pdf] and needs a conversion for a
    [ps] file, [bob] takes [ps] as it is. *)
Definition two_printers : @spooler world :=
  after ["type pdf"; "type ps"; "conversion ps pdf ps2pdf";
         "printer alice pdf"; "printer bob ps"; "enable alice"; "enable bob"].

(** One idle printer in the world where [fork] fails. *)
Definition idle_without_forks : @spooler world_without_forks :=
  snd (@run_cli world_without_forks true
         ["type pdf"; "printer alice pdf"; "enable alice"]
         (start (fun _ => -1) clock)).

(** One printer, busy with job 0, while job 1 waits for it. *)
Definition queued : @spooler world :=
  after ["type pdf"; "printer alice pdf"; "enable alice"; "print a.pdf";
         "print b.pdf"].

(** One idle printer and no job. *)
Definition one_idle_printer : @spooler world :=
  after ["type pdf"; "printer alice pdf"; "enable alice"].

End Demo.


(** * Vocabulary of the properties *)

Section Vocabulary.

Context {env : Env}.

(** Two states with the same job count and the same [id] in every slot. *)
Definition same_ids (s s' : spooler) : Prop :=
  job_count s' = job_count s /\
  forall k, id (job_spool s' k) = id (job_spool s k).

(** Everything but the trace and the system-call counter is the same. *)
Definition same_tables (s s' : spooler) : Prop :=
  job_spool s' = job_spool s /\
  job_count s' = job_count s /\
  printer_registry s' = printer_registry s /\
  number_of_registered_printers s' = number_of_registered_printers s /\
  registry s' = registry s /\
  child_signal_received s' = child_signal_received s.

(** The signals [cancel_job] sends to the process group [pg] of a job
    found in status [st], most recent first. *)
Definition cancel_signals (st : JOB_STATUS) (pg : Z) : list event :=
  match st with
  | JOB_PAUSED => [killpg pg SIGTERM; killpg pg SIGCONT]
  | _ => [killpg pg SIGTERM]
  end.

(** The table of section 4.F, as the spec words it: the status a job
    takes for each kind of child event, and whether the event releases
    the job's printer. *)
Definition status_for_event (wst : wstatus) : JOB_STATUS :=
  match wst with
  | W_STOPPED => JOB_PAUSED
  | W_CONTINUED => JOB_RUNNING
  | W_EXITED _ => JOB_FINISHED
  | W_SIGNALED _ => JOB_ABORTED
  end.

Definition event_releases_printer (wst : wstatus) : bool :=
  match wst with
  | W_STOPPED | W_CONTINUED => false
  | W_EXITED _ | W_SIGNALED _ => true
  end.

(** Two states whose job slots agree on the fields the dispatcher never
    writes. *)
Definition same_job_identity (s s' : spooler) : Prop :=
  job_count s' = job_count s /\
  forall k,
    pgid (job_spool s' k) = pgid (job_spool s k) /\
    target_printer (job_spool s' k) = target_printer (job_spool s k) /\
    id (job_spool s' k) = id (job_spool s k) /\
    input_file_path (job_spool s' k) = input_file_path (job_spool s k) /\
    created_at (job_spool s' k) = created_at (job_spool s k).

(** What holds of every live job: a job that waits for a printer has no
    process group; a job that runs or is paused has one; and a job with a
    process group has a printer. *)
Definition job_inv (j : JOB) : Prop :=
  (status j = JOB_CREATED -> pgid j = -1) /\
  (status j = JOB_RUNNING \/ status j = JOB_PAUSED -> 0 <= pgid j) /\
  (0 <= pgid j -> target_printer j <> None).


(** A step that keeps the job count and the invariant slot by slot. *)
Definition keeps_inv (s s' : spooler) : Prop :=
  job_count s' = job_count s /\
  forall k, job_inv (job_spool s k) -> job_inv (job_spool s' k).

(** A step that does not write to the job table at all. *)
Definition same_jobs (s s' : spooler) : Prop :=
  job_count s' = job_count s /\ job_spool s' = job_spool s.

(** The spooler moves when a line is processed, when [SIGCHLD] arrives, and
    when the reader's hook runs the dispatcher. *)
Inductive step : spooler -> spooler -> Prop :=
| step_line line s : step s (snd (run_cli_line line s))
| step_sigchld s : step s (sigchld_handler s)
| step_hook pending s : step s (handle_child_status_updates pending s).

Inductive reachable (s0 : spooler) : spooler -> Prop :=
| reachable_start : reachable s0 s0
| reachable_step s s' : reachable s0 s -> step s s' -> reachable s0 s'.

(** [cmd_events] counts the [sf_cmd_ok] and [sf_cmd_error] calls made so
    far. *)
Definition is_cmd_event (e : event) : bool :=
  match e with
  | sf_cmd_ok | sf_cmd_error _ => true
  | _ => false
  end.

Definition cmd_events (s : spooler) : nat :=
  List.length (filter is_cmd_event (trace s)).

Definition distinct_names (s : spooler) : Prop :=
  forall i j,
    (i < number_of_registered_printers s)%nat ->
    (j < number_of_registered_printers s)%nat ->
    name (printer_registry s i) = name (printer_registry s j) -> i = j.

(** What [select_compatible_printer] looks for in a printer. *)
Definition compatible_idle (from_type : FILE_TYPE) (s : spooler) (i : nat) : bool :=
  let printer := printer_registry s i in
  printer_status_eqb (printer_status printer) PRINTER_IDLE
  && (String.eqb (ft_name (type printer)) (ft_name from_type)
      || match find_conversion_path (ft_name from_type) (ft_name (type printer))
                                    (registry s) with
         | Some _ => true
         | None => false
         end).

(** Two states with the same number of printers under the same names. *)
Definition same_names (s s' : spooler) : Prop :=
  number_of_registered_printers s' = number_of_registered_printers s /\
  forall p, name (printer_registry s' p) = name (printer_registry s p).

(** The line the dispatcher documents for an argument-count mismatch, as
    the spec words it, with [X] given and [Y] required arguments. *)
Definition wrong_number_of_args (given : Z) (required cmd : string) : string :=
  "Wrong number of args (given: " ++ fmt_d given ++ ", required: " ++ required
    ++ ") for CLI command '" ++ cmd ++ "'" ++ nl.

(** ** Vocabulary of the further properties *)

(** The slots [i], ..., [i + n - 1] of an array, in order. *)
Definition slots {A : Type} (a : nat -> A) (i n : nat) : list A :=
  map a (seq i n).

(** The live part of the job table, first position first. *)
Definition live_jobs (s : spooler) : list JOB :=
  slots (job_spool s) 0 (job_count s).

(** The [sf_job_deleted] events of a sweep at time [now] over the jobs
    [l], in the order of the table. *)
Definition deletions (now : Z) (l : list JOB) : list event :=
  map (fun j => sf_job_deleted (id j)) (filter (job_expired now) l).

(** [job_id] is a position of the live part of the job table. *)
Definition in_table (job_id : Z) (s : spooler) : bool :=
  (0 <=? job_id) && (job_id <? Z.of_nat (job_count s)).

(** What one pass of the scheduler may do to a printer: nothing, or claim
    it when it is idle. *)
Definition printer_claimed (P P' : PRINTER) : Prop :=
  P' = P \/
  (printer_status P = PRINTER_IDLE /\ P' = set_printer_status PRINTER_BUSY P).

(** What one pass of the scheduler may do to a job between the states [s]
    and [s']: nothing; or, for a job in Created, clear its printer field
    after a launch that failed, or start it on a printer that was idle and
    compatible with its file type. *)
Definition job_scheduled (s s' : spooler) (J J' : JOB) : Prop :=
  J' = J \/
  (status J = JOB_CREATED /\
   (J' = set_target_printer None J \/
    exists p pid now from_type,
      0 <= pid /\
      (p < number_of_registered_printers s)%nat /\
      infer_file_type (input_file_path J) (registry s) = Some from_type /\
      compatible_idle from_type s p = true /\
      printer_status (printer_registry s' p) = PRINTER_BUSY /\
      J' = mkJOB (id J) (input_file_path J) (Some p) JOB_RUNNING pid
                 (created_at J) now)).

Definition scheduler_pass (s s' : spooler) : Prop :=
  job_count s' = job_count s /\
  registry s' = registry s /\
  number_of_registered_printers s' = number_of_registered_printers s /\
  (forall k, job_scheduled s s' (job_spool s k) (job_spool s' k)) /\
  (forall p, printer_claimed (printer_registry s p) (printer_registry s' p)).

(** What the child-status dispatcher may do to a printer. *)
Definition printer_released (P P' : PRINTER) : Prop :=
  P' = P \/ P' = set_printer_status PRINTER_IDLE P.

(** The job at [k] is settled in [s] when, if it still waits in Created
    and its file type is known, no registered printer is idle and
    compatible with that type. *)
Definition settled (s : spooler) (k : nat) : Prop :=
  status (job_spool s k) = JOB_CREATED ->
  forall from_type,
    infer_file_type (input_file_path (job_spool s k)) (registry s) = Some from_type ->
    forall p, (p < number_of_registered_printers s)%nat ->
              compatible_idle from_type s p = false.

(** A live job is well formed in a registry of [n] printers: it has an
    input path, it has not been deleted, its id is a position of the job
    table, and its printer, if any, is a registered one. *)
Definition wf_job (n : nat) (j : JOB) : Prop :=
  input_file_path j <> None /\
  status j <> JOB_DELETED /\
  0 <= id j < Z.of_nat MAX_JOBS /\
  forall p, target_printer j = Some p -> (p < n)%nat.

(** Both tables within their capacity, and every live job well formed. *)
Definition table_inv (s : spooler) : Prop :=
  (job_count s <= MAX_JOBS)%nat /\
  (number_of_registered_printers s <= MAX_PRINTERS)%nat /\
  forall k, (k < job_count s)%nat ->
            wf_job (number_of_registered_printers s) (job_spool s k).

(** The two flags of [cli.c] are the same in [s] and [s']. *)
Definition same_flags (s s' : spooler) : Prop :=
  initialized s' = initialized s /\
  child_signal_received s' = child_signal_received s.

(** A string without white space. *)
Fixpoint no_space (t : string) : bool :=
  match t with
  | EmptyString => true
  | String c rest => negb (isspace c) && no_space rest
  end.

(** What [split_input_line_into_tokens] hands out as a token. *)
Definition is_token (t : string) : Prop :=
  t <> EmptyString /\ no_space t = true.

(** Tokens written on one line, a single space between two of them. *)
Fixpoint join_tokens (toks : list string) : string :=
  match toks with
  | [] => EmptyString
  | [t] => t
  | t :: rest => t ++ String " " (join_tokens rest)
  end.

(** The command names [handle_user_command] hands to a handler of their
    own (or, for [quit], answers itself). *)
Definition handled_commands : list string :=
  ["help"; "type"; "conversion"; "printer"; "enable"; "printers"; "print";
   "jobs"; "cancel"; "pause"; "resume"; "quit"].

(** The two calls a handler makes on a wrong number of arguments. *)
Definition report_wrong_number_of_args (given : Z) (required cmd message : string)
           (s : spooler) : spooler :=
  emit (sf_cmd_error message)
       (emit (fprintf_out (wrong_number_of_args given required cmd)) s).

End Vocabulary.

(** * Properties *)

Lemma upd_same {A : Type} (a : nat -> A) i x : upd a i x i = x.
Proof. unfold upd. now rewrite Nat.eqb_refl. Qed.

Lemma upd_other {A : Type} (a : nat -> A) i k x : k <> i -> upd a i x k = a k.
Proof. unfold upd. intros H. apply Nat.eqb_neq in H. now rewrite H. Qed.

(** Case analysis on the first test the goal is stuck on. *)
Ltac break_test :=
  match goal with
  | |- context [match ?x with _ => _ end] => destruct x eqn:?
  end; simpl in *; try discriminate.

Ltac upd_cases k i :=
  unfold upd;
  destruct (Nat.eqb_spec k i);
  [ subst; rewrite ?Nat.eqb_refl | ]; simpl; try reflexivity; try congruence.

(** Simplification through the state updates: a slot just written is
    read back. *)
Ltac unfold_updates := repeat (progress (simpl; rewrite ?upd_same)).

Section SchedulerFacts.

Context {env : Env}.

(** ** What the scheduler leaves alone *)

Lemma same_ids_refl s : same_ids s s.
Proof. split; reflexivity. Qed.

Lemma same_ids_trans s1 s2 s3 : same_ids s1 s2 -> same_ids s2 s3 -> same_ids s1 s3.
Proof.
  intros [H1 H2] [H3 H4]. split.
  - congruence.
  - intros k. rewrite H4. apply H2.
Qed.

Lemma try_scheduling_job_same_ids i s : same_ids s (try_scheduling_job i s).
Proof.
  unfold try_scheduling_job, start_conversion_pipeline, announce_started,
    mark_running, time.
  simpl.
  repeat break_test; try apply same_ids_refl;
    (split; [reflexivity | intros k; simpl; upd_cases k i]).
Qed.

Lemma try_scheduling_jobs_from_same_ids n : forall i s,
  same_ids s (try_scheduling_jobs_from i n s).
Proof.
  induction n as [|n IH]; intros i s; simpl.
  - apply same_ids_refl.
  - eapply same_ids_trans; [apply try_scheduling_job_same_ids | apply IH].
Qed.

Lemma try_scheduling_jobs_same_ids s : same_ids s (try_scheduling_jobs s).
Proof. apply try_scheduling_jobs_from_same_ids. Qed.

(** ** Submission *)

Lemma submit_print_job_result file_path printer s :
  fst (submit_print_job file_path printer s) = 0 \/
  fst (submit_print_job file_path printer s) = -1.
Proof.
  unfold submit_print_job, time. simpl.
  repeat break_test; simpl; auto.
Qed.

Lemma submit_print_job_error_frame file_path printer s :
  fst (submit_print_job file_path printer s) = -1 ->
  let s' := snd (submit_print_job file_path printer s) in
  job_count s' = job_count s /\
  (forall k, (k < job_count s)%nat -> job_spool s' k = job_spool s k) /\
  number_of_registered_printers s' = number_of_registered_printers s /\
  (forall p, printer_registry s' p = printer_registry s p) /\
  registry s' = registry s.
Proof.
  unfold submit_print_job, time. simpl.
  repeat break_test; simpl; intros H; try discriminate H;
    repeat split; auto; intros k Hk; upd_cases k (job_count s); lia.
Qed.

Lemma submit_print_job_success file_path printer s :
  fst (submit_print_job file_path printer s) = 0 ->
  let s' := snd (submit_print_job file_path printer s) in
  job_count s' = S (job_count s) /\
  id (job_spool s' (job_count s)) = Z.of_nat (job_count s) /\
  (forall k, k <> job_count s -> id (job_spool s' k) = id (job_spool s k)).
Proof.
  unfold submit_print_job, time. simpl.
  repeat break_test; simpl; intros H; try discriminate H.
  - (* the printer was given: the job is started at once *)
    unfold announce_started, mark_running, time; simpl.
    repeat split.
    + upd_cases (job_count s) (job_count s).
    + intros k Hk. upd_cases k (job_count s).
  - (* no printer: the job is left to the scheduler *)
    match goal with
    | |- context [try_scheduling_jobs ?x] =>
        destruct (try_scheduling_jobs_same_ids x) as [Hc Hid]
    end.
    rewrite Hc. simpl. repeat split.
    + rewrite Hid. simpl. upd_cases (job_count s) (job_count s).
    + intros k Hk. rewrite Hid. simpl. upd_cases k (job_count s).
Qed.

(** ** Cancel, pause and resume *)

Lemma in_table_tests job_id s :
  0 <= job_id < Z.of_nat (job_count s) ->
  ((job_id <? 0) || (Z.of_nat (job_count s) <=? job_id))%bool = false.
Proof.
  intros H. apply orb_false_iff. split.
  - apply Z.ltb_ge. lia.
  - apply Z.leb_gt. lia.
Qed.

Lemma pause_job_running job_id s :
  0 <= job_id < Z.of_nat (job_count s) ->
  status (job_spool s (Z.to_nat job_id)) = JOB_RUNNING ->
  let s' := snd (pause_job job_id s) in
  trace s' = killpg (pgid (job_spool s (Z.to_nat job_id))) SIGSTOP :: trace s /\
  same_tables s s'.
Proof.
  intros Hin Hst. unfold pause_job. rewrite (in_table_tests _ _ Hin), Hst. simpl.
  repeat split.
Qed.

Lemma resume_job_paused job_id s :
  0 <= job_id < Z.of_nat (job_count s) ->
  status (job_spool s (Z.to_nat job_id)) = JOB_PAUSED ->
  let s' := snd (resume_job job_id s) in
  trace s' = killpg (pgid (job_spool s (Z.to_nat job_id))) SIGCONT :: trace s /\
  same_tables s s'.
Proof.
  intros Hin Hst. unfold resume_job. rewrite (in_table_tests _ _ Hin), Hst. simpl.
  repeat split.
Qed.

Lemma cancel_job_active job_id s p :
  let i := Z.to_nat job_id in
  let job := job_spool s i in
  0 <= job_id < Z.of_nat (job_count s) ->
  status job = JOB_RUNNING \/ status job = JOB_PAUSED ->
  target_printer job = Some p ->
  let s' := snd (cancel_job job_id s) in
  fst (cancel_job job_id s) = 0 /\
  trace s' =
    ([sf_job_aborted (id job) 0;
      sf_printer_status (name (printer_registry s p)) PRINTER_IDLE;
      sf_job_status (id job) JOB_ABORTED]
       ++ cancel_signals (status job) (pgid job) ++ trace s)%list /\
  status (job_spool s' i) = JOB_ABORTED /\
  printer_status (printer_registry s' p) = PRINTER_IDLE /\
  (id (job_spool s' i) = id job /\
   input_file_path (job_spool s' i) = input_file_path job /\
   target_printer (job_spool s' i) = target_printer job /\
   pgid (job_spool s' i) = pgid job /\
   created_at (job_spool s' i) = created_at job) /\
  (forall k, k <> i -> job_spool s' k = job_spool s k) /\
  (forall q, q <> p -> printer_registry s' q = printer_registry s q) /\
  job_count s' = job_count s.
Proof.
  intros i job Hin Hst Hp. subst job.
  unfold cancel_job. rewrite (in_table_tests _ _ Hin). fold i.
  unfold release_printer_of, announce_printer_idle_of, do_killpg, time.
  destruct Hst as [Hst | Hst]; rewrite Hst;
    repeat (progress (simpl; rewrite ?upd_same; rewrite ?Hp));
    (repeat split; try reflexivity;
     [ intros k Hk; rewrite !upd_other by exact Hk; reflexivity
     | intros q Hq; rewrite !upd_other by exact Hq; reflexivity ]).
Qed.

(** The clock of [cancel_job]: read once, after the signals. *)
Lemma cancel_job_clock job_id s p :
  let i := Z.to_nat job_id in
  let job := job_spool s i in
  0 <= job_id < Z.of_nat (job_count s) ->
  status job = JOB_RUNNING \/ status job = JOB_PAUSED ->
  target_printer job = Some p ->
  let s' := snd (cancel_job job_id s) in
  let signals := List.length (cancel_signals (status job) (pgid job)) in
  status_changed_at (job_spool s' i) = time_result (syscalls s + signals) /\
  syscalls s' = S (syscalls s + signals).
Proof.
  intros i job Hin Hst Hp. subst job.
  unfold cancel_job. rewrite (in_table_tests _ _ Hin). fold i.
  unfold release_printer_of, announce_printer_idle_of, do_killpg, time.
  destruct Hst as [Hst | Hst]; rewrite Hst;
    repeat (progress (simpl; rewrite ?upd_same; rewrite ?Hp));
    rewrite ?Nat.add_1_r, ?Nat.add_succ_r, ?Nat.add_0_r; split; reflexivity.
Qed.


(** ** The child-status dispatcher *)

Lemma same_job_identity_refl s : same_job_identity s s.
Proof. split; [reflexivity | intros k; repeat split]. Qed.

Lemma same_job_identity_trans s1 s2 s3 :
  same_job_identity s1 s2 -> same_job_identity s2 s3 -> same_job_identity s1 s3.
Proof.
  intros [Hc1 H1] [Hc2 H2]. split; [congruence|].
  intros k. destruct (H1 k) as (?&?&?&?&?), (H2 k) as (?&?&?&?&?).
  repeat split; congruence.
Qed.

Lemma update_job_status_identity i wst s :
  same_job_identity s (update_job_status i wst s).
Proof.
  unfold update_job_status, release_target_printer, time.
  destruct wst; unfold_updates; rewrite ?upd_same; simpl;
    repeat break_test;
    (split; [reflexivity | intros k; simpl; repeat split; upd_cases k i]).
Qed.

Lemma update_job_status_other i wst s k :
  k <> i -> job_spool (update_job_status i wst s) k = job_spool s k.
Proof.
  intros Hk. unfold update_job_status, release_target_printer, time.
  destruct wst; unfold_updates; rewrite ?upd_same; simpl;
    repeat break_test; rewrite ?upd_other by exact Hk; reflexivity.
Qed.

Lemma update_job_status_status i wst s :
  status (job_spool (update_job_status i wst s) i) = status_for_event wst.
Proof.
  unfold update_job_status, release_target_printer, time.
  destruct wst; unfold_updates; rewrite ?upd_same; simpl;
    repeat break_test; rewrite ?upd_same; reflexivity.
Qed.

Lemma update_job_status_keeps_printers i wst s :
  event_releases_printer wst = false ->
  printer_registry (update_job_status i wst s) = printer_registry s.
Proof. destruct wst; simpl; intros H; try discriminate H; reflexivity. Qed.

Lemma update_job_status_releases i wst s p :
  event_releases_printer wst = true ->
  target_printer (job_spool s i) = Some p ->
  printer_status (printer_registry (update_job_status i wst s) p) = PRINTER_IDLE.
Proof.
  intros Hrel Hp. unfold update_job_status, release_target_printer, time.
  destruct wst; try discriminate Hrel; unfold_updates;
    rewrite ?upd_same; simpl; rewrite Hp; simpl; rewrite upd_same; reflexivity.
Qed.

Lemma update_job_status_idle_stays i wst s q :
  printer_status (printer_registry s q) = PRINTER_IDLE ->
  printer_status (printer_registry (update_job_status i wst s) q) = PRINTER_IDLE.
Proof.
  intros Hq. unfold update_job_status, release_target_printer, time.
  destruct wst; unfold_updates; rewrite ?upd_same; simpl; auto;
    break_test; simpl; auto;
    match goal with |- context [upd _ ?n _ q] => upd_cases q n end.
Qed.

Lemma reap_from_identity pid wst n : forall i s,
  same_job_identity s (reap_from pid wst i n s).
Proof.
  induction n as [|n IH]; intros i s; simpl.
  - apply same_job_identity_refl.
  - destruct (negb (pgid (job_spool s i) =? pid)); [apply IH|].
    eapply same_job_identity_trans; [apply update_job_status_identity | apply IH].
Qed.

(** Slots before the loop index, and slots of another process group, are
    not touched. *)
Lemma reap_from_other pid wst n : forall i s k,
  (k < i)%nat \/ pgid (job_spool s k) <> pid ->
  job_spool (reap_from pid wst i n s) k = job_spool s k.
Proof.
  induction n as [|n IH]; intros i s k Hk; simpl; [reflexivity|].
  destruct (Z.eqb_spec (pgid (job_spool s i)) pid) as [E|E]; simpl.
  - rewrite IH.
    + apply update_job_status_other. intros ->. destruct Hk; [lia | contradiction].
    + destruct Hk as [Hk|Hk]; [left; lia|right].
      destruct (update_job_status_identity i wst s) as [_ Hid].
      destruct (Hid k) as [-> _]. exact Hk.
  - apply IH. destruct Hk; [left; lia | right; assumption].
Qed.

(** Every slot the loop passes whose [pgid] is the reaped pid takes the
    status of the table. *)
Lemma reap_from_status pid wst n : forall i s k,
  (i <= k < i + n)%nat ->
  pgid (job_spool s k) = pid ->
  status (job_spool (reap_from pid wst i n s) k) = status_for_event wst.
Proof.
  induction n as [|n IH]; intros i s k Hk Hpid; simpl; [lia|].
  destruct (Nat.eq_dec k i) as [->|Hne].
  - rewrite Hpid, Z.eqb_refl. simpl.
    rewrite reap_from_other by (left; lia).
    apply update_job_status_status.
  - destruct (negb (pgid (job_spool s i) =? pid)).
    + apply IH; [lia | exact Hpid].
    + apply IH; [lia|].
      destruct (update_job_status_identity i wst s) as [_ Hid].
      destruct (Hid k) as [-> _]. exact Hpid.
Qed.

Lemma reap_from_keeps_printers pid wst n : forall i s,
  event_releases_printer wst = false ->
  printer_registry (reap_from pid wst i n s) = printer_registry s.
Proof.
  induction n as [|n IH]; intros i s Hrel; simpl; [reflexivity|].
  destruct (negb (pgid (job_spool s i) =? pid)); rewrite IH by exact Hrel;
    [reflexivity | apply update_job_status_keeps_printers, Hrel].
Qed.

Lemma reap_from_idle_stays pid wst n : forall i s q,
  printer_status (printer_registry s q) = PRINTER_IDLE ->
  printer_status (printer_registry (reap_from pid wst i n s) q) = PRINTER_IDLE.
Proof.
  induction n as [|n IH]; intros i s q Hq; simpl; [exact Hq|].
  destruct (negb (pgid (job_spool s i) =? pid)); apply IH;
    [exact Hq | apply update_job_status_idle_stays, Hq].
Qed.

Lemma reap_from_releases pid wst n : forall i s k p,
  event_releases_printer wst = true ->
  (i <= k < i + n)%nat ->
  pgid (job_spool s k) = pid ->
  target_printer (job_spool s k) = Some p ->
  printer_status (printer_registry (reap_from pid wst i n s) p) = PRINTER_IDLE.
Proof.
  induction n as [|n IH]; intros i s k p Hrel Hk Hpid Hp; simpl; [lia|].
  destruct (Nat.eq_dec k i) as [->|Hne].
  - rewrite Hpid, Z.eqb_refl. simpl.
    apply reap_from_idle_stays, update_job_status_releases; assumption.
  - destruct (negb (pgid (job_spool s i) =? pid)).
    + apply (IH _ _ k); auto; lia.
    + destruct (update_job_status_identity i wst s) as [_ Hid].
      destruct (Hid k) as (Hpg & Htp & _).
      apply (IH _ _ k); auto; try lia; congruence.
Qed.

(** ** The invariant of the job table *)

Lemma job_status_eqb_eq a b : job_status_eqb a b = true <-> a = b.
Proof. destruct a, b; simpl; split; intros H; try reflexivity; discriminate H. Qed.

Lemma job_status_eqb_neq a b : job_status_eqb a b = false <-> a <> b.
Proof.
  destruct a, b; simpl; split; intros H; try reflexivity; try discriminate H;
    try (intros E; discriminate E); exfalso; apply H; reflexivity.
Qed.

Lemma keeps_inv_refl s : keeps_inv s s.
Proof. split; auto. Qed.



Lemma same_jobs_refl s : same_jobs s s.
Proof. split; reflexivity. Qed.

Lemma same_jobs_trans s1 s2 s3 : same_jobs s1 s2 -> same_jobs s2 s3 -> same_jobs s1 s3.
Proof. intros [H1 H2] [H3 H4]. split; congruence. Qed.


Lemma job_inv_started j p pid :
  0 <= pid ->
  job_inv (mkJOB (id j) (input_file_path j) (Some p) JOB_RUNNING pid
                 (created_at j) (status_changed_at j)).
Proof.
  intros Hpid. unfold job_inv; simpl. repeat split; intros; try discriminate; auto.
Qed.






(** The compaction loop in closed form: the slots from [j - 1] on, [n] of
    them, take the value of their right neighbour. *)
Lemma compact_from_spec n : forall j a k,
  (1 <= j)%nat ->
  compact_from j n a k =
  if (Nat.leb (j - 1) k && Nat.ltb k (j - 1 + n))%bool then a (S k) else a k.
Proof.
  induction n as [|n IH]; intros j a k Hj; simpl.
  - replace (j - 1 + 0)%nat with (j - 1)%nat by lia.
    destruct (Nat.leb_spec (j - 1) k), (Nat.ltb_spec k (j - 1)); simpl;
      try reflexivity; lia.
  - rewrite IH by lia.
    replace (S j - 1)%nat with j by lia.
    destruct (Nat.leb_spec j k), (Nat.ltb_spec k (j + n)),
             (Nat.leb_spec (j - 1) k), (Nat.ltb_spec k (j - 1 + S n));
      simpl; try lia; try (apply upd_other; lia).
    replace k with (j - 1)%nat by lia. rewrite upd_same.
    f_equal. lia.
Qed.



Lemma cancel_job_keeps_inv job_id s : keeps_inv s (snd (cancel_job job_id s)).
Proof.
  unfold cancel_job, release_printer_of, announce_printer_idle_of, do_killpg, time.
  repeat break_test; try apply keeps_inv_refl;
    (split; [reflexivity|]; intros k Hinv; unfold_updates;
     rewrite ?upd_same; simpl;
     upd_cases k (Z.to_nat job_id); auto;
     destruct Hinv as (_ & _ & Htp);
     unfold job_inv; simpl; repeat split; intros; try discriminate; auto;
     match goal with H : _ \/ _ |- _ => destruct H; discriminate end).
Qed.

Lemma pause_job_same_jobs job_id s : same_jobs s (snd (pause_job job_id s)).
Proof.
  unfold pause_job, do_killpg. repeat break_test; split; reflexivity.
Qed.

Lemma resume_job_same_jobs job_id s : same_jobs s (snd (resume_job job_id s)).
Proof.
  unfold resume_job, do_killpg. repeat break_test; split; reflexivity.
Qed.




End SchedulerFacts.

Section CommandFacts.

Context {env : Env}.

(** ** The invariant through the command handlers *)


Ltac split_tests :=
  repeat match goal with
         | |- context [match ?x with _ => _ end] => destruct x eqn:?
         end.

Lemma list_printers_from_same_jobs n : forall i s,
  same_jobs s (list_printers_from i n s).
Proof.
  induction n as [|n IH]; intros i s; simpl.
  - apply same_jobs_refl.
  - eapply same_jobs_trans; [|apply IH]. split; reflexivity.
Qed.

Lemma list_jobs_from_same_jobs n : forall i s,
  same_jobs s (list_jobs_from i n s).
Proof.
  induction n as [|n IH]; intros i s; simpl.
  - apply same_jobs_refl.
  - eapply same_jobs_trans; [|apply IH]. split; reflexivity.
Qed.












(** ** Reachable states *)



Lemma reachable_run_cli_lines at_eof lines : forall s0 s,
  reachable s0 s -> reachable s0 (snd (run_cli_lines at_eof lines s)).
Proof.
  induction lines as [|line rest IH]; intros s0 s Hr; simpl; [exact Hr|].
  pose proof (reachable_step _ _ _ Hr (step_line line s)) as Hr1.
  destruct (run_cli_line line s) as [[r|] s1]; simpl in *.
  - exact Hr1.
  - apply IH, Hr1.
Qed.

(** ** One verdict per command *)

Lemma try_scheduling_job_cmd_events i s :
  cmd_events (try_scheduling_job i s) = cmd_events s.
Proof.
  unfold try_scheduling_job, start_conversion_pipeline, announce_started,
    mark_running, time.
  split_tests; reflexivity.
Qed.

Lemma try_scheduling_jobs_from_cmd_events n : forall i s,
  cmd_events (try_scheduling_jobs_from i n s) = cmd_events s.
Proof.
  induction n as [|n IH]; intros i s; simpl; [reflexivity|].
  rewrite IH. apply try_scheduling_job_cmd_events.
Qed.

Lemma try_scheduling_jobs_cmd_events s :
  cmd_events (try_scheduling_jobs s) = cmd_events s.
Proof. apply try_scheduling_jobs_from_cmd_events. Qed.

Lemma submit_print_job_cmd_events file_path printer s :
  cmd_events (snd (submit_print_job file_path printer s)) = cmd_events s.
Proof.
  unfold submit_print_job, start_conversion_pipeline, announce_started,
    mark_running, print_job_summary, time.
  split_tests; try reflexivity.
  match goal with
  | |- context [try_scheduling_jobs ?x] =>
      transitivity (cmd_events (try_scheduling_jobs x));
        [reflexivity | rewrite try_scheduling_jobs_cmd_events; reflexivity]
  end.
Qed.

Lemma delete_expired_jobs_from_cmd_events now n : forall i s,
  cmd_events (delete_expired_jobs_from now i n s) = cmd_events s.
Proof.
  induction n as [|n IH]; intros i s; simpl; [reflexivity|].
  destruct (job_expired now (job_spool s i)); rewrite IH; reflexivity.
Qed.

Lemma delete_expired_jobs_if_needed_cmd_events s :
  cmd_events (delete_expired_jobs_if_needed s) = cmd_events s.
Proof.
  unfold delete_expired_jobs_if_needed, time.
  rewrite delete_expired_jobs_from_cmd_events. reflexivity.
Qed.

Lemma cancel_job_cmd_events job_id s :
  cmd_events (snd (cancel_job job_id s)) = cmd_events s.
Proof.
  unfold cancel_job, release_printer_of, announce_printer_idle_of, do_killpg, time.
  split_tests; reflexivity.
Qed.

Lemma pause_job_cmd_events job_id s :
  cmd_events (snd (pause_job job_id s)) = cmd_events s.
Proof. unfold pause_job, do_killpg. split_tests; reflexivity. Qed.

Lemma resume_job_cmd_events job_id s :
  cmd_events (snd (resume_job job_id s)) = cmd_events s.
Proof. unfold resume_job, do_killpg. split_tests; reflexivity. Qed.

Lemma add_printer_to_system_cmd_events pname tname s :
  cmd_events (snd (add_printer_to_system pname tname s)) = cmd_events s.
Proof. unfold add_printer_to_system. split_tests; reflexivity. Qed.

Lemma list_printers_from_cmd_events n : forall i s,
  cmd_events (list_printers_from i n s) = cmd_events s.
Proof.
  induction n as [|n IH]; intros i s; simpl; [reflexivity|].
  rewrite IH. reflexivity.
Qed.

Lemma list_jobs_from_cmd_events n : forall i s,
  cmd_events (list_jobs_from i n s) = cmd_events s.
Proof.
  induction n as [|n IH]; intros i s; simpl; [reflexivity|].
  rewrite IH. reflexivity.
Qed.

Lemma cmd_events_emit_ok s : cmd_events (emit sf_cmd_ok s) = S (cmd_events s).
Proof. reflexivity. Qed.

Lemma cmd_events_emit_error msg s :
  cmd_events (emit (sf_cmd_error msg) s) = S (cmd_events s).
Proof. reflexivity. Qed.

Lemma cmd_events_emit_out line s :
  cmd_events (emit (fprintf_out line) s) = cmd_events s.
Proof. reflexivity. Qed.

(** Rewriting to a normal form of [cmd_events] over the events a handler
    itself emits. *)
Ltac count_cmds :=
  repeat (rewrite ?cmd_events_emit_ok, ?cmd_events_emit_error, ?cmd_events_emit_out);
  try reflexivity.

Lemma handle_type_command_cmd_events argv s :
  cmd_events (handle_type_command argv s) = S (cmd_events s).
Proof. unfold handle_type_command. split_tests; count_cmds. Qed.

Lemma handle_conversion_command_cmd_events argv s :
  cmd_events (handle_conversion_command argv s) = S (cmd_events s).
Proof. unfold handle_conversion_command. split_tests; count_cmds. Qed.

Lemma handle_printer_command_cmd_events argv s :
  cmd_events (handle_printer_command argv s) = S (cmd_events s).
Proof.
  unfold handle_printer_command.
  destruct (negb (argc_of argv =? 3)); [count_cmds|].
  destruct (find_type (arg argv 2) (registry s)); [|count_cmds].
  pose proof (add_printer_to_system_cmd_events (arg argv 1) (arg argv 2) s) as H.
  destruct (add_printer_to_system (arg argv 1) (arg argv 2) s) as [rc s1].
  cbn [snd] in H. split_tests; count_cmds; rewrite H; reflexivity.
Qed.

Lemma handle_enable_command_cmd_events argv s :
  cmd_events (handle_enable_command argv s) = S (cmd_events s).
Proof.
  unfold handle_enable_command. split_tests; count_cmds.
  rewrite try_scheduling_jobs_cmd_events. reflexivity.
Qed.

Lemma handle_print_command_cmd_events argv s :
  cmd_events (handle_print_command argv s) = S (cmd_events s).
Proof.
  unfold handle_print_command.
  destruct (negb (argc_of argv =? 2)); [count_cmds|].
  destruct (infer_file_type (Some (arg argv 1)) (registry s)); [|count_cmds].
  pose proof (submit_print_job_cmd_events (Some (arg argv 1)) None s) as H.
  destruct (submit_print_job (Some (arg argv 1)) None s) as [rc s1].
  cbn [snd] in H. destruct (negb (rc =? 0)); count_cmds; rewrite H; reflexivity.
Qed.

Lemma handle_cancel_command_cmd_events argv s :
  cmd_events (handle_cancel_command argv s) = S (cmd_events s).
Proof.
  unfold handle_cancel_command.
  destruct (negb (argc_of argv =? 2)); [count_cmds|].
  pose proof (cancel_job_cmd_events (atoi (arg argv 1)) s) as H.
  destruct (cancel_job (atoi (arg argv 1)) s) as [rc s1].
  cbn [snd] in H. destruct (negb (rc =? 0)); count_cmds; rewrite H; reflexivity.
Qed.

Lemma handle_pause_command_cmd_events argv s :
  cmd_events (handle_pause_command argv s) = S (cmd_events s).
Proof.
  unfold handle_pause_command.
  destruct (negb (argc_of argv =? 2)); [count_cmds|].
  pose proof (pause_job_cmd_events (atoi (arg argv 1)) s) as H.
  destruct (pause_job (atoi (arg argv 1)) s) as [rc s1].
  cbn [snd] in H. destruct (negb (rc =? 0)); count_cmds; rewrite H; reflexivity.
Qed.

Lemma handle_resume_command_cmd_events argv s :
  cmd_events (handle_resume_command argv s) = S (cmd_events s).
Proof.
  unfold handle_resume_command.
  destruct (negb (argc_of argv =? 2)); [count_cmds|].
  pose proof (resume_job_cmd_events (atoi (arg argv 1)) s) as H.
  destruct (resume_job (atoi (arg argv 1)) s) as [rc s1].
  cbn [snd] in H. destruct (negb (rc =? 0)); count_cmds; rewrite H; reflexivity.
Qed.

(** Every command handed to the dispatcher ends in exactly one call of
    [sf_cmd_ok] or [sf_cmd_error]. *)
Lemma handle_user_command_cmd_events cmd args s :
  cmd_events (handle_user_command (cmd :: args) s) = S (cmd_events s).
Proof.
  unfold handle_user_command.
  repeat match goal with
         | |- context [if String.eqb cmd ?c then _ else _] =>
             destruct (String.eqb cmd c)
         end;
    try match goal with
        | |- context [if negb ?b then _ else _] => destruct (negb b)
        end;
    count_cmds.
  - apply handle_type_command_cmd_events.
  - apply handle_conversion_command_cmd_events.
  - apply handle_printer_command_cmd_events.
  - apply handle_enable_command_cmd_events.
  - unfold handle_printers_command. count_cmds.
    rewrite list_printers_from_cmd_events. reflexivity.
  - apply handle_print_command_cmd_events.
  - unfold handle_jobs_command. count_cmds.
    rewrite list_jobs_from_cmd_events. reflexivity.
  - apply handle_cancel_command_cmd_events.
  - apply handle_pause_command_cmd_events.
  - apply handle_resume_command_cmd_events.
Qed.

(** ** The tokenizer and the line filter *)

Lemma skip_spaces_length line :
  (String.length (skip_spaces line) <= String.length line)%nat.
Proof.
  induction line as [|c rest IH]; simpl; [lia|].
  destruct (isspace c); simpl; lia.
Qed.

Lemma scan_token_length c rest :
  (String.length (snd (scan_token (String c rest))) <= String.length rest)%nat.
Proof.
  revert c. induction rest as [|d rest IH]; intros c; simpl.
  - destruct (isspace c); simpl; lia.
  - destruct (isspace c); simpl; [lia|].
    specialize (IH d). simpl in IH.
    destruct (isspace d); simpl in *; [lia|].
    destruct (scan_token rest); simpl in *. lia.
Qed.

(** Fuel beyond the length of the line changes nothing: the loop of
    [split_input_line_into_tokens] has ended by then. *)
Lemma split_fuel f1 : forall f2 line count,
  (String.length line <= f1)%nat -> (String.length line <= f2)%nat ->
  split_from f1 line count = split_from f2 line count.
Proof.
  induction f1 as [|f1 IH]; intros f2 line count H1 H2.
  - destruct line; simpl in H1; [|lia]. destruct f2; reflexivity.
  - destruct f2 as [|f2].
    + destruct line; simpl in H2; [|lia]. reflexivity.
    + cbn [split_from]. pose proof (skip_spaces_length line) as Hskip.
      destruct (skip_spaces line) as [|c rest]; [reflexivity|].
      pose proof (scan_token_length c rest) as Hscan.
      destruct (scan_token (String c rest)) as [tok after].
      cbn [snd String.length] in Hskip, Hscan. f_equal.
      destruct (Nat.leb MAX_COMMAND_TOKENS (S count)); [reflexivity|].
      apply IH; lia.
Qed.

Lemma first_is_space_skip line :
  first_is_space line = false -> skip_spaces line = line.
Proof. destruct line as [|c rest]; simpl; [reflexivity|]. now intros ->. Qed.

(** A line that passes the filter of [run_cli] starts with a token. *)
Lemma split_input_line_nonempty line :
  (is_all_whitespace line || first_is_space line)%bool = false ->
  exists cmd args, split_input_line_into_tokens line = cmd :: args.
Proof.
  intros H. apply orb_false_iff in H. destruct H as [Hall Hfirst].
  destruct line as [|c rest]; [discriminate Hall|].
  unfold split_input_line_into_tokens. simpl String.length.
  cbn [split_from]. rewrite (first_is_space_skip _ Hfirst).
  destruct (scan_token (String c rest)) as [tok after].
  eexists. eexists. reflexivity.
Qed.

(** The filter of [run_cli] in one test: the line is empty or starts with
    white space. *)
Lemma line_filter line :
  (is_all_whitespace line || first_is_space line)%bool =
  match line with
  | EmptyString => true
  | String c _ => isspace c
  end.
Proof.
  destruct line as [|c rest]; simpl; [reflexivity|].
  destruct (isspace c); simpl; [apply orb_true_r | reflexivity].
Qed.

(** ** The printer registry *)

Lemma get_printer_by_name_from_none pname s n : forall i,
  get_printer_by_name_from pname s i n = None ->
  forall k, (i <= k < i + n)%nat -> name (printer_registry s k) <> pname.
Proof.
  induction n as [|n IH]; intros i H k Hk; [lia|].
  simpl in H.
  destruct (String.eqb_spec (name (printer_registry s i)) pname) as [E|E];
    [discriminate H|].
  destruct (Nat.eq_dec k i) as [->|Hne]; [exact E|].
  apply (IH (S i)); [exact H | lia].
Qed.

Lemma get_printer_by_name_from_first pname s n : forall i p,
  (i <= p < i + n)%nat ->
  name (printer_registry s p) = pname ->
  (forall k, (i <= k < p)%nat -> name (printer_registry s k) <> pname) ->
  get_printer_by_name_from pname s i n = Some p.
Proof.
  induction n as [|n IH]; intros i p Hp Hname Hfirst; [lia|].
  simpl.
  destruct (String.eqb_spec (name (printer_registry s i)) pname) as [E|E].
  - destruct (Nat.eq_dec p i) as [->|Hne]; [reflexivity|].
    exfalso. apply (Hfirst i); [lia | exact E].
  - destruct (Nat.eq_dec p i) as [->|Hne]; [contradiction|].
    apply IH; [lia | exact Hname |].
    intros k Hk. apply Hfirst. lia.
Qed.

(** With distinct names, every declared printer is found under its name. *)
Lemma get_printer_by_name_declared s p :
  distinct_names s ->
  (p < number_of_registered_printers s)%nat ->
  get_printer_by_name (name (printer_registry s p)) s = Some p.
Proof.
  intros Hd Hp. unfold get_printer_by_name.
  apply get_printer_by_name_from_first; [lia | reflexivity |].
  intros k Hk E. assert (k = p) by (apply Hd; [lia | lia | exact E]). lia.
Qed.

(** [add_printer_to_system] keeps the names distinct. *)
Lemma add_printer_to_system_distinct pname tname s :
  distinct_names s -> distinct_names (snd (add_printer_to_system pname tname s)).
Proof.
  intros Hd. unfold add_printer_to_system.
  destruct (Nat.leb MAX_PRINTERS (number_of_registered_printers s)); [exact Hd|].
  destruct (get_printer_by_name pname s) eqn:Hfind; [exact Hd|].
  destruct (find_type tname (registry s)); [|exact Hd].
  unfold distinct_names. simpl. intros i j Hi Hj.
  pose proof (get_printer_by_name_from_none _ _ _ _ Hfind) as Hnone.
  unfold upd.
  destruct (Nat.eqb_spec i (number_of_registered_printers s)),
           (Nat.eqb_spec j (number_of_registered_printers s)); simpl; intros E.
  - congruence.
  - exfalso. apply (Hnone j); [lia | congruence].
  - exfalso. apply (Hnone i); [lia | congruence].
  - apply Hd; [lia | lia | exact E].
Qed.

(** The printer selected is the first idle compatible one in registry
    order, whether it matches directly or through a conversion. *)
Lemma select_compatible_printer_from_first from_type s n : forall i,
  match select_compatible_printer_from from_type s i n with
  | Some p =>
      (i <= p < i + n)%nat /\ compatible_idle from_type s p = true /\
      forall k, (i <= k < p)%nat -> compatible_idle from_type s k = false
  | None => forall k, (i <= k < i + n)%nat -> compatible_idle from_type s k = false
  end.
Proof.
  induction n as [|n IH]; intros i; simpl; [intros k Hk; lia|].
  unfold compatible_idle at 1 2 3.
  specialize (IH (S i)).
  destruct (printer_status_eqb (printer_status (printer_registry s i)) PRINTER_IDLE)
    eqn:Hidle; simpl.
  - destruct (String.eqb (ft_name (type (printer_registry s i))) (ft_name from_type))
      eqn:Hname; simpl.
    + split; [lia|]. split; [|intros k Hk; lia].
      unfold compatible_idle. rewrite Hidle, Hname. reflexivity.
    + destruct (find_conversion_path (ft_name from_type)
                  (ft_name (type (printer_registry s i))) (registry s)) eqn:Hpath.
      * split; [lia|]. split; [|intros k Hk; lia].
        unfold compatible_idle. rewrite Hidle, Hname, Hpath. reflexivity.
      * assert (Hi : compatible_idle from_type s i = false)
          by (unfold compatible_idle; rewrite Hidle, Hname, Hpath; reflexivity).
        destruct (select_compatible_printer_from from_type s (S i) n).
        -- destruct IH as (Hr & Hc & Hf).
           split; [lia|]. split; [exact Hc|].
           intros k Hk. destruct (Nat.eq_dec k i) as [->|]; [exact Hi|].
           apply Hf. lia.
        -- intros k Hk. destruct (Nat.eq_dec k i) as [->|]; [exact Hi|].
           apply IH. lia.
  - assert (Hi : compatible_idle from_type s i = false)
      by (unfold compatible_idle; rewrite Hidle; reflexivity).
    destruct (select_compatible_printer_from from_type s (S i) n).
    + destruct IH as (Hr & Hc & Hf).
      split; [lia|]. split; [exact Hc|].
      intros k Hk. destruct (Nat.eq_dec k i) as [->|]; [exact Hi|].
      apply Hf. lia.
    + intros k Hk. destruct (Nat.eq_dec k i) as [->|]; [exact Hi|].
      apply IH. lia.
Qed.

(** ** Printer names *)

Lemma same_names_refl s : same_names s s.
Proof. split; reflexivity. Qed.

Lemma same_names_trans s1 s2 s3 :
  same_names s1 s2 -> same_names s2 s3 -> same_names s1 s3.
Proof.
  intros [H1 H2] [H3 H4]. split; [congruence|].
  intros p. rewrite H4. apply H2.
Qed.

Lemma same_names_distinct s s' : same_names s s' -> distinct_names s -> distinct_names s'.
Proof.
  intros [Hn Hnames] Hd i j Hi Hj E. rewrite Hn in Hi, Hj.
  rewrite !Hnames in E. apply Hd; assumption.
Qed.

Lemma upd_status_name (a : nat -> PRINTER) n st q :
  name (upd a n (set_printer_status st (a n)) q) = name (a q).
Proof. upd_cases q n. Qed.

(** A step that writes nothing but a printer status keeps the names. *)
Ltac names_kept :=
  split; [reflexivity | intros q; simpl; rewrite ?upd_status_name; reflexivity].

Lemma try_scheduling_job_same_names i s : same_names s (try_scheduling_job i s).
Proof.
  unfold try_scheduling_job, start_conversion_pipeline, announce_started,
    mark_running, time.
  split_tests; names_kept.
Qed.

Lemma try_scheduling_jobs_from_same_names n : forall i s,
  same_names s (try_scheduling_jobs_from i n s).
Proof.
  induction n as [|n IH]; intros i s; simpl.
  - apply same_names_refl.
  - eapply same_names_trans; [apply try_scheduling_job_same_names | apply IH].
Qed.

Lemma try_scheduling_jobs_same_names s : same_names s (try_scheduling_jobs s).
Proof. apply try_scheduling_jobs_from_same_names. Qed.

Lemma submit_print_job_same_names file_path printer s :
  same_names s (snd (submit_print_job file_path printer s)).
Proof.
  unfold submit_print_job, start_conversion_pipeline, announce_started,
    mark_running, print_job_summary, time.
  split_tests; try names_kept.
  cbn [snd].
  match goal with
  | |- same_names _ (emit _ (try_scheduling_jobs ?x)) =>
      apply (same_names_trans _ x);
        [ names_kept
        | eapply same_names_trans;
            [apply try_scheduling_jobs_same_names | names_kept] ]
  end.
Qed.

Lemma delete_expired_jobs_from_same_names now n : forall i s,
  same_names s (delete_expired_jobs_from now i n s).
Proof.
  induction n as [|n IH]; intros i s; simpl.
  - apply same_names_refl.
  - destruct (job_expired now (job_spool s i)); [|apply IH].
    eapply same_names_trans; [|apply IH]. names_kept.
Qed.

Lemma delete_expired_jobs_if_needed_same_names s :
  same_names s (delete_expired_jobs_if_needed s).
Proof.
  unfold delete_expired_jobs_if_needed, time.
  eapply same_names_trans; [|apply delete_expired_jobs_from_same_names]. names_kept.
Qed.

Lemma cancel_job_same_names job_id s : same_names s (snd (cancel_job job_id s)).
Proof.
  unfold cancel_job, release_printer_of, announce_printer_idle_of, do_killpg, time.
  split_tests; names_kept.
Qed.

Lemma pause_job_same_names job_id s : same_names s (snd (pause_job job_id s)).
Proof. unfold pause_job, do_killpg. split_tests; names_kept. Qed.

Lemma resume_job_same_names job_id s : same_names s (snd (resume_job job_id s)).
Proof. unfold resume_job, do_killpg. split_tests; names_kept. Qed.

Lemma update_job_status_same_names i wst s :
  same_names s (update_job_status i wst s).
Proof.
  unfold update_job_status, release_target_printer, time.
  destruct wst; split_tests; names_kept.
Qed.

Lemma reap_from_same_names pid wst n : forall i s,
  same_names s (reap_from pid wst i n s).
Proof.
  induction n as [|n IH]; intros i s; simpl.
  - apply same_names_refl.
  - destruct (negb (pgid (job_spool s i) =? pid)); [apply IH|].
    eapply same_names_trans; [apply update_job_status_same_names | apply IH].
Qed.

Lemma drain_same_names pending : forall s, same_names s (drain pending s).
Proof.
  induction pending as [|[pid wst] rest IH]; intros s; simpl.
  - apply same_names_refl.
  - destruct (0 <? pid); [|apply same_names_refl].
    eapply same_names_trans; [apply reap_from_same_names | apply IH].
Qed.

Lemma handle_child_status_updates_same_names pending s :
  same_names s (handle_child_status_updates pending s).
Proof.
  unfold handle_child_status_updates.
  destruct (negb (child_signal_received s)); [apply same_names_refl|].
  eapply same_names_trans; [|apply try_scheduling_jobs_same_names].
  eapply same_names_trans; [|apply drain_same_names]. names_kept.
Qed.

Lemma list_printers_from_same_names n : forall i s,
  same_names s (list_printers_from i n s).
Proof.
  induction n as [|n IH]; intros i s; simpl.
  - apply same_names_refl.
  - eapply same_names_trans; [|apply IH]. names_kept.
Qed.

Lemma list_jobs_from_same_names n : forall i s,
  same_names s (list_jobs_from i n s).
Proof.
  induction n as [|n IH]; intros i s; simpl.
  - apply same_names_refl.
  - eapply same_names_trans; [|apply IH]. names_kept.
Qed.

Lemma handle_printer_command_distinct argv s :
  distinct_names s -> distinct_names (handle_printer_command argv s).
Proof.
  intros Hd. unfold handle_printer_command.
  destruct (negb (argc_of argv =? 3)); [exact Hd|].
  destruct (find_type (arg argv 2) (registry s)); [|exact Hd].
  pose proof (add_printer_to_system_distinct (arg argv 1) (arg argv 2) s Hd) as H.
  destruct (add_printer_to_system (arg argv 1) (arg argv 2) s) as [rc s1].
  cbn [snd] in H. split_tests; exact H.
Qed.

Lemma handle_user_command_distinct argv s :
  distinct_names s -> distinct_names (handle_user_command argv s).
Proof.
  intros Hd. unfold handle_user_command.
  destruct argv as [|cmd args]; [exact Hd|].
  repeat match goal with
         | |- context [if String.eqb cmd ?c then _ else _] =>
             destruct (String.eqb cmd c)
         end;
    try match goal with
        | |- context [if negb ?b then _ else _] => destruct (negb b)
        end;
    try exact Hd.
  - unfold handle_type_command. split_tests; exact Hd.
  - unfold handle_conversion_command. split_tests; exact Hd.
  - apply handle_printer_command_distinct, Hd.
  - unfold handle_enable_command. split_tests; try exact Hd.
    match goal with
    | |- distinct_names (emit _ (try_scheduling_jobs ?x)) =>
        apply (same_names_distinct x);
          [ eapply same_names_trans;
              [apply try_scheduling_jobs_same_names | names_kept]
          | apply (same_names_distinct s); [names_kept | exact Hd] ]
    end.
  - apply (same_names_distinct s); [|exact Hd].
    eapply same_names_trans; [apply list_printers_from_same_names | names_kept].
  - unfold handle_print_command.
    destruct (negb (argc_of (cmd :: args) =? 2)); [exact Hd|].
    destruct (infer_file_type _ _); [|exact Hd].
    pose proof (submit_print_job_same_names (Some (arg (cmd :: args) 1)) None s) as H.
    destruct (submit_print_job _ None s) as [rc s1]. cbn [snd] in H.
    apply (same_names_distinct _ _ H) in Hd. split_tests; exact Hd.
  - apply (same_names_distinct s); [|exact Hd].
    eapply same_names_trans; [apply list_jobs_from_same_names | names_kept].
  - unfold handle_cancel_command.
    destruct (negb (argc_of (cmd :: args) =? 2)); [exact Hd|].
    pose proof (cancel_job_same_names (atoi (arg (cmd :: args) 1)) s) as H.
    destruct (cancel_job _ s) as [rc s1]. cbn [snd] in H.
    apply (same_names_distinct _ _ H) in Hd. split_tests; exact Hd.
  - unfold handle_pause_command.
    destruct (negb (argc_of (cmd :: args) =? 2)); [exact Hd|].
    pose proof (pause_job_same_names (atoi (arg (cmd :: args) 1)) s) as H.
    destruct (pause_job _ s) as [rc s1]. cbn [snd] in H.
    apply (same_names_distinct _ _ H) in Hd. split_tests; exact Hd.
  - unfold handle_resume_command.
    destruct (negb (argc_of (cmd :: args) =? 2)); [exact Hd|].
    pose proof (resume_job_same_names (atoi (arg (cmd :: args) 1)) s) as H.
    destruct (resume_job _ s) as [rc s1]. cbn [snd] in H.
    apply (same_names_distinct _ _ H) in Hd. split_tests; exact Hd.
Qed.

Lemma run_cli_line_distinct line s :
  distinct_names s -> distinct_names (snd (run_cli_line line s)).
Proof.
  intros Hd. unfold run_cli_line.
  destruct (is_all_whitespace line || first_is_space line)%bool; [exact Hd|].
  destruct (split_input_line_into_tokens line) as [|cmd args]; [exact Hd|].
  destruct (String.eqb cmd "quit").
  - destruct (negb (argc_of (cmd :: args) =? 1)); cbn [snd]; [|exact Hd].
    apply (same_names_distinct s); [|exact Hd].
    eapply same_names_trans; [|apply delete_expired_jobs_if_needed_same_names].
    names_kept.
  - cbn [snd].
    eapply same_names_distinct; [apply delete_expired_jobs_if_needed_same_names|].
    apply handle_user_command_distinct, Hd.
Qed.

Lemma reachable_distinct_names s0 s :
  number_of_registered_printers s0 = 0%nat -> reachable s0 s -> distinct_names s.
Proof.
  intros H0 Hr. induction Hr as [|s s' _ IH Hstep].
  - intros i j Hi. rewrite H0 in Hi. lia.
  - destruct Hstep.
    + apply run_cli_line_distinct, IH.
    + exact IH.
    + eapply same_names_distinct;
        [apply handle_child_status_updates_same_names | exact IH].
Qed.

(** ** Argument counts

    The handlers that print the documented line on a wrong number of
    arguments. *)
Ltac arity_message H :=
  unfold handle_user_command; cbn [String.eqb Ascii.eqb Bool.eqb];
  unfold handle_type_command, handle_conversion_command, handle_printer_command,
    handle_enable_command, handle_print_command;
  rewrite H; reflexivity.

Lemma help_arity_message args s :
  argc_of ("help" :: args) <> 1 ->
  trace (handle_user_command ("help" :: args) s) =
    sf_cmd_error "Invalid number of arguments for 'help'"
      :: fprintf_out (wrong_number_of_args (argc_of ("help" :: args) - 1) "0" "help")
      :: trace s.
Proof. intros H. apply Z.eqb_neq in H. arity_message H. Qed.

Lemma type_arity_message args s :
  argc_of ("type" :: args) <> 2 ->
  trace (handle_user_command ("type" :: args) s) =
    sf_cmd_error "Invalid number of arguments for 'type'."
      :: fprintf_out (wrong_number_of_args (argc_of ("type" :: args) - 1) "1" "type")
      :: trace s.
Proof. intros H. apply Z.eqb_neq in H. arity_message H. Qed.

Lemma conversion_arity_message args s :
  argc_of ("conversion" :: args) < 4 ->
  trace (handle_user_command ("conversion" :: args) s) =
    sf_cmd_error "Invalid number of arguments for 'conversion'."
      :: fprintf_out (wrong_number_of_args (argc_of ("conversion" :: args) - 1)
                                           "3" "conversion")
      :: trace s.
Proof. intros H. apply Z.ltb_lt in H. arity_message H. Qed.

Lemma printer_arity_message args s :
  argc_of ("printer" :: args) <> 3 ->
  trace (handle_user_command ("printer" :: args) s) =
    sf_cmd_error "Invalid number of arguments for 'printer'."
      :: fprintf_out (wrong_number_of_args (argc_of ("printer" :: args) - 1)
                                           "2" "printer")
      :: trace s.
Proof. intros H. apply Z.eqb_neq in H. arity_message H. Qed.

Lemma enable_arity_message args s :
  argc_of ("enable" :: args) <> 2 ->
  trace (handle_user_command ("enable" :: args) s) =
    sf_cmd_error "Invalid number of arguments for 'enable'."
      :: fprintf_out (wrong_number_of_args (argc_of ("enable" :: args) - 1)
                                           "1" "enable")
      :: trace s.
Proof. intros H. apply Z.eqb_neq in H. arity_message H. Qed.

Lemma print_arity_message args s :
  argc_of ("print" :: args) <> 2 ->
  trace (handle_user_command ("print" :: args) s) =
    sf_cmd_error "Invalid number of arguments for 'print'."
      :: fprintf_out (wrong_number_of_args (argc_of ("print" :: args) - 1)
                                           "1" "print")
      :: trace s.
Proof. intros H. apply Z.eqb_neq in H. arity_message H. Qed.

End CommandFacts.

(** * The claims *)

Section Claims.

Context {env : Env}.

(** C1 (amended).  For a job in the Running or Paused state, addressed by
    its position in the table: pause (of a Running job) sends SIGSTOP and
    resume (of a Paused job) sends SIGCONT to the job's process group, and
    neither writes to the job table or the printer registry.  Cancel sends
    SIGTERM, preceded by SIGCONT when the job is paused, and at that same
    moment sets the job to Aborted and its printer to Idle and reports
    both; the id, input path, printer, process group and creation time of
    the job, every other job and every other printer stay as they were.
    The job's [status_changed_at] is refreshed: it becomes the reading of
    the clock taken right after the signals, the only other system call
    of [cancel_job]. *)
Theorem signals_on_active_job (job_id : Z) (s : spooler) (p : nat) :
  let i := Z.to_nat job_id in
  let job := job_spool s i in
  0 <= job_id < Z.of_nat (job_count s) ->
  status job = JOB_RUNNING \/ status job = JOB_PAUSED ->
  target_printer job = Some p ->
  (if job_status_eqb (status job) JOB_RUNNING
   then trace (snd (pause_job job_id s)) = killpg (pgid job) SIGSTOP :: trace s /\
        same_tables s (snd (pause_job job_id s))
   else trace (snd (resume_job job_id s)) = killpg (pgid job) SIGCONT :: trace s /\
        same_tables s (snd (resume_job job_id s))) /\
  let s' := snd (cancel_job job_id s) in
  fst (cancel_job job_id s) = 0 /\
  trace s' =
    ([sf_job_aborted (id job) 0;
      sf_printer_status (name (printer_registry s p)) PRINTER_IDLE;
      sf_job_status (id job) JOB_ABORTED]
       ++ cancel_signals (status job) (pgid job) ++ trace s)%list /\
  status (job_spool s' i) = JOB_ABORTED /\
  printer_status (printer_registry s' p) = PRINTER_IDLE /\
  (id (job_spool s' i) = id job /\
   input_file_path (job_spool s' i) = input_file_path job /\
   target_printer (job_spool s' i) = target_printer job /\
   pgid (job_spool s' i) = pgid job /\
   created_at (job_spool s' i) = created_at job) /\
  (forall k, k <> i -> job_spool s' k = job_spool s k) /\
  (forall q, q <> p -> printer_registry s' q = printer_registry s q) /\
  job_count s' = job_count s /\
  let signals := List.length (cancel_signals (status job) (pgid job)) in
  status_changed_at (job_spool s' i) = time_result (syscalls s + signals) /\
  syscalls s' = S (syscalls s + signals).
Proof.
  intros i job Hin Hst Hp. split.
  - destruct Hst as [Hst | Hst]; subst job; rewrite Hst; simpl.
    + apply pause_job_running; assumption.
    + apply resume_job_paused; assumption.
  - destruct (cancel_job_active job_id s p Hin Hst Hp)
      as (H1 & H2 & H3 & H4 & H5 & H6 & H7 & H8).
    destruct (cancel_job_clock job_id s p Hin Hst Hp) as (H9 & H10).
    cbv zeta.
    split; [exact H1|]. split; [exact H2|]. split; [exact H3|].
    split; [exact H4|]. split; [exact H5|]. split; [exact H6|].
    split; [exact H7|]. split; [exact H8|]. split; [exact H9 | exact H10].
Qed.

(** C2.  A reaped pid reaches every job of the table whose [pgid] equals
    it: the job takes the status the table of section 4.F gives for the
    event (Stopped: Paused, Continued: Running, Exited with any code:
    Finished, Signalled: Aborted); a Stopped or Continued event leaves the
    printer registry alone, an Exited or Signalled event sets the job's
    printer to Idle.  With the signal flag set, the dispatcher reaps the
    pending events one after the other and then runs the scheduler, once. *)
Theorem child_status_dispatch (pid : Z) (wst : wstatus) (s : spooler) (k p : nat)
        (pending : list (Z * wstatus)) (s0 : spooler) :
  (k < job_count s)%nat ->
  pgid (job_spool s k) = pid ->
  target_printer (job_spool s k) = Some p ->
  child_signal_received s0 = true ->
  Forall (fun e => 0 < fst e) pending ->
  let s' := reap pid wst s in
  status (job_spool s' k) = status_for_event wst /\
  (if event_releases_printer wst
   then printer_status (printer_registry s' p) = PRINTER_IDLE
   else printer_registry s' = printer_registry s) /\
  handle_child_status_updates pending s0 =
    try_scheduling_jobs
      (fold_left (fun st e => reap (fst e) (snd e) st) pending
                 (set_child_signal_received false s0)).
Proof.
  intros Hk Hpid Hp Hflag Hpos. simpl. repeat split.
  - apply reap_from_status; [simpl; unfold get_job_count; lia | exact Hpid].
  - destruct (event_releases_printer wst) eqn:Hrel.
    + apply (reap_from_releases pid wst _ _ _ k); auto.
      unfold get_job_count; lia.
    + apply reap_from_keeps_printers, Hrel.
  - unfold handle_child_status_updates. rewrite Hflag. simpl. f_equal.
    generalize (set_child_signal_received false s0).
    induction Hpos as [|[pid' wst'] rest Hhd _ IH]; intros st; simpl; [reflexivity|].
    simpl in Hhd. apply Z.ltb_lt in Hhd. rewrite Hhd. apply IH.
Qed.


(** C6.  When [submit_print_job] returns an error, the job count is what
    it was, every job position answers as before, and the printer
    registry is unchanged: no slot is reserved and no printer is claimed. *)
Theorem failed_submission_leaves_tables (file_path : option string)
        (printer : option nat) (s : spooler) :
  fst (submit_print_job file_path printer s) <> 0 ->
  let s' := snd (submit_print_job file_path printer s) in
  get_job_count s' = get_job_count s /\
  (forall index, get_job_by_index index s' = get_job_by_index index s) /\
  get_printer_count s' = get_printer_count s /\
  (forall p, printer_registry s' p = printer_registry s p).
Proof.
  intros Herr.
  destruct (submit_print_job_result file_path printer s) as [H | H];
    [contradiction|].
  destruct (submit_print_job_error_frame _ _ _ H) as (Hc & Hj & Hn & Hp & _).
  simpl. unfold get_job_count, get_job_by_index, get_printer_count.
  repeat split; auto.
  intros index. rewrite Hc.
  destruct (Nat.ltb_spec index (job_count s)); [|reflexivity].
  rewrite Hj by assumption. reflexivity.
Qed.

(** C7 (amended).  A line is skipped, with no command dispatched and no
    event emitted, exactly when it is empty or begins with a white-space
    character; this covers the blank and white-space-only lines, and also
    every line whose first token is preceded by white space.  Every other
    line starts with a token, is tokenized and dispatched ([quit] inside
    the loop, any other word through [handle_user_command]), and ends in
    exactly one [sf_cmd_ok] or [sf_cmd_error]. *)
Theorem run_cli_line_filter (line : string) (s : spooler) :
  (is_all_whitespace line || first_is_space line)%bool =
    match line with
    | EmptyString => true
    | String c _ => isspace c
    end /\
  if (is_all_whitespace line || first_is_space line)%bool
  then run_cli_line line s = (None, s)
  else exists cmd args,
      split_input_line_into_tokens line = cmd :: args /\
      cmd_events (snd (run_cli_line line s)) = S (cmd_events s) /\
      if String.eqb cmd "quit"
      then fst (run_cli_line line s) =
           (if argc_of (cmd :: args) =? 1 then Some (-1) else None)
      else run_cli_line line s =
           (None, delete_expired_jobs_if_needed (handle_user_command (cmd :: args) s)).
Proof.
  split; [apply line_filter|].
  unfold run_cli_line.
  destruct (is_all_whitespace line || first_is_space line)%bool eqn:Hskip;
    [reflexivity|].
  destruct (split_input_line_nonempty line Hskip) as (cmd & args & Htok).
  exists cmd, args. rewrite Htok. split; [reflexivity|].
  destruct (String.eqb cmd "quit").
  - destruct (argc_of (cmd :: args) =? 1); cbn [negb fst snd].
    + split; reflexivity.
    + split; [|reflexivity].
      rewrite delete_expired_jobs_if_needed_cmd_events. reflexivity.
  - cbn [snd]. split; [|reflexivity].
    rewrite delete_expired_jobs_if_needed_cmd_events.
    apply handle_user_command_cmd_events.
Qed.

(** C8.  [cancel], [pause] and [resume] given no argument do not print
    the line "Wrong number of args (given: X, required: Y) for CLI command
    '<name>'": each prints a line of its own and reports the failure.
    ([printers] and [jobs] do not count their arguments at all.) *)
Theorem cancel_pause_resume_arity_message (s : spooler) :
  (trace (handle_user_command ["cancel"] s) =
     sf_cmd_error "Invalid arguments for 'cancel'"
       :: fprintf_out ("Error: 'cancel' requires 1 argument: <job_id>" ++ nl)
       :: trace s /\
   trace (handle_user_command ["pause"] s) =
     sf_cmd_error "Invalid arguments for 'pause'"
       :: fprintf_out ("Error: 'pause' requires 1 argument: <job_id>" ++ nl)
       :: trace s /\
   trace (handle_user_command ["resume"] s) =
     sf_cmd_error "Invalid arguments for 'resume'"
       :: fprintf_out ("Error: 'resume' requires 1 argument: <job_id>" ++ nl)
       :: trace s) /\
  ("Error: 'cancel' requires 1 argument: <job_id>" ++ nl
     <> wrong_number_of_args 0 "1" "cancel" /\
   "Error: 'pause' requires 1 argument: <job_id>" ++ nl
     <> wrong_number_of_args 0 "1" "pause" /\
   "Error: 'resume' requires 1 argument: <job_id>" ++ nl
     <> wrong_number_of_args 0 "1" "resume") /\
  (hd_error (trace (handle_user_command ["printers"; "x"] s)) = Some sf_cmd_ok /\
   hd_error (trace (handle_user_command ["jobs"; "x"] s)) = Some sf_cmd_ok).
Proof. repeat split; discriminate. Qed.

(** C9.  For every declared printer of a reachable state, whatever its
    status, the command [enable] with its name sets the status to Idle and
    emits the printer status event, before the scheduler runs and the
    command is acknowledged. *)
Theorem enable_sets_idle (s0 s : spooler) (p : nat) :
  number_of_registered_printers s0 = 0%nat ->
  reachable s0 s ->
  (p < number_of_registered_printers s)%nat ->
  let printer := printer_registry s p in
  let s1 :=
    emit (sf_printer_status (name printer) PRINTER_IDLE)
         (modify_printer p (set_printer_status PRINTER_IDLE) s) in
  printer_status (printer_registry s1 p) = PRINTER_IDLE /\
  name (printer_registry s1 p) = name printer /\
  trace s1 = sf_printer_status (name printer) PRINTER_IDLE :: trace s /\
  handle_enable_command ["enable"; name printer] s =
    emit sf_cmd_ok
      (try_scheduling_jobs
         (emit (fprintf_out (printer_line (Z.of_nat (get_printer_count s1) - 1)
                                          (printer_registry s1 p))) s1)).
Proof.
  intros H0 Hr Hp printer s1. subst s1 printer. simpl.
  pose proof (reachable_distinct_names _ _ H0 Hr) as Hd.
  rewrite upd_same. simpl. repeat split.
  unfold handle_enable_command. cbn [argc_of List.length Z.of_nat].
  change (arg ["enable"; name (printer_registry s p)] 1)
    with (name (printer_registry s p)).
  rewrite (get_printer_by_name_declared s p Hd Hp).
  simpl. rewrite upd_same. reflexivity.
Qed.

(** C10.  A successful submission appends one job whose id is the job
    count at the moment of submission.  Nothing makes that number fresh:
    a job already in the table under that id, as a survivor of a sweep
    can be, keeps it, and the two jobs then share the id. *)
Theorem submitted_id_is_job_count (file_path : option string)
        (printer : option nat) (s : spooler) :
  fst (submit_print_job file_path printer s) = 0 ->
  let s' := snd (submit_print_job file_path printer s) in
  job_count s' = S (job_count s) /\
  id (job_spool s' (job_count s)) = Z.of_nat (job_count s) /\
  forall k, (k < job_count s)%nat -> id (job_spool s' k) = id (job_spool s k).
Proof.
  intros Hok.
  destruct (submit_print_job_success _ _ _ Hok) as (Hc & Hid & Hold).
  split; [exact Hc|]. split; [exact Hid|].
  intros k Hk. apply Hold. lia.
Qed.

End Claims.

(** * The claims on concrete runs *)

(** A run of the command loop only visits reachable states. *)
Lemma after_reachable lines : reachable Demo.boot (Demo.after lines).
Proof. unfold Demo.after. apply reachable_run_cli_lines, reachable_start. Qed.

(** C1 at job 0 of [Demo.running]: pausing it only sends SIGSTOP;
    cancelling it aborts it and idles its printer on the spot, and stamps
    it with the clock read after the one signal. *)
Lemma signals_on_active_job_witness :
  (0 <= 0 < Z.of_nat (job_count Demo.running) /\
   (status (job_spool Demo.running 0) = JOB_RUNNING \/
    status (job_spool Demo.running 0) = JOB_PAUSED) /\
   target_printer (job_spool Demo.running 0) = Some 0%nat) /\
  (trace (snd (pause_job 0 Demo.running)) = killpg 104 SIGSTOP :: trace Demo.running /\
   same_tables Demo.running (snd (pause_job 0 Demo.running))) /\
  status (job_spool (snd (cancel_job 0 Demo.running)) 0) = JOB_ABORTED /\
  printer_status (printer_registry (snd (cancel_job 0 Demo.running)) 0) = PRINTER_IDLE /\
  status_changed_at (job_spool (snd (cancel_job 0 Demo.running)) 0) =
    @time_result Demo.world (syscalls Demo.running + 1).
Proof.
  assert (H1 : 0 <= 0 < Z.of_nat (job_count Demo.running)) by (vm_compute; split; congruence).
  assert (H2 : status (job_spool Demo.running 0) = JOB_RUNNING)
    by (vm_compute; reflexivity).
  assert (H3 : target_printer (job_spool Demo.running 0) = Some 0%nat)
    by (vm_compute; reflexivity).
  assert (Hpg : pgid (job_spool Demo.running 0) = 104)
    by (vm_compute; reflexivity).
  pose proof (signals_on_active_job 0 Demo.running 0 H1 (or_introl H2) H3) as H.
  cbv zeta in H. change (Z.to_nat 0) with 0%nat in H.
  rewrite H2, Hpg in H. cbn [job_status_eqb cancel_signals List.length] in H.
  destruct H as (Hpause & _ & _ & Hst & Hpr & _ & _ & _ & _ & Hclock & _).
  split; [split; [exact H1 | split; [left; exact H2 | exact H3]]|].
  split; [exact Hpause|]. split; [exact Hst|]. split; [exact Hpr | exact Hclock].
Defined.

(** The claim C1 fails for cancel: job 0 of [Demo.running] is Running on
    a Busy printer, and right after [cancel_job] the job is Aborted and
    the printer Idle, before any child-status event. *)
Lemma cancel_job_changes_state_at_once :
  status (job_spool Demo.running 0) = JOB_RUNNING /\
  printer_status (printer_registry Demo.running 0) = PRINTER_BUSY /\
  fst (cancel_job 0 Demo.running) = 0 /\
  status (job_spool (snd (cancel_job 0 Demo.running)) 0) = JOB_ABORTED /\
  printer_status (printer_registry (snd (cancel_job 0 Demo.running)) 0) = PRINTER_IDLE /\
  status_changed_at (job_spool (snd (cancel_job 0 Demo.running)) 0)
    <> status_changed_at (job_spool Demo.running 0).
Proof. vm_compute. repeat split; discriminate. Qed.

(** C2 when the supervisor of job 0 of [Demo.running] exits. *)
Lemma child_status_dispatch_witness :
  ((0 < job_count Demo.running)%nat /\
   pgid (job_spool Demo.running 0) = 104 /\
   target_printer (job_spool Demo.running 0) = Some 0%nat /\
   child_signal_received (sigchld_handler Demo.running) = true /\
   Forall (fun e : Z * wstatus => 0 < fst e) [(104, W_EXITED 0)]) /\
  status (job_spool (reap 104 (W_EXITED 0) Demo.running) 0) = JOB_FINISHED /\
  printer_status (printer_registry (reap 104 (W_EXITED 0) Demo.running) 0)
    = PRINTER_IDLE /\
  handle_child_status_updates [(104, W_EXITED 0)] (sigchld_handler Demo.running) =
    try_scheduling_jobs
      (fold_left (fun st e => reap (fst e) (snd e) st) [(104, W_EXITED 0)]
                 (set_child_signal_received false (sigchld_handler Demo.running))).
Proof.
  assert (H1 : (0 < job_count Demo.running)%nat) by (vm_compute; constructor).
  assert (H2 : pgid (job_spool Demo.running 0) = 104)
    by (vm_compute; reflexivity).
  assert (H3 : target_printer (job_spool Demo.running 0) = Some 0%nat)
    by (vm_compute; reflexivity).
  assert (H4 : child_signal_received (sigchld_handler Demo.running) = true)
    by reflexivity.
  assert (H5 : Forall (fun e : Z * wstatus => 0 < fst e) [(104, W_EXITED 0)])
    by (repeat constructor).
  split; [repeat split; assumption|].
  exact (child_status_dispatch 104 (W_EXITED 0) Demo.running 0 0
           [(104, W_EXITED 0)] (sigchld_handler Demo.running) H1 H2 H3 H4 H5).
Defined.



(** C6 when [fork] fails for a job sent to an idle printer. *)
Lemma failed_submission_leaves_tables_witness :
  let s := Demo.idle_without_forks in
  let s' := snd (submit_print_job (Some "a.pdf") (Some 0%nat) s) in
  fst (submit_print_job (Some "a.pdf") (Some 0%nat) s) <> 0 /\
  get_job_count s' = get_job_count s /\
  (forall index, get_job_by_index index s' = get_job_by_index index s) /\
  get_printer_count s' = get_printer_count s /\
  (forall p, printer_registry s' p = printer_registry s p).
Proof.
  intros s s'.
  assert (H : fst (submit_print_job (Some "a.pdf") (Some 0%nat) s) <> 0)
    by (vm_compute; discriminate).
  split; [exact H|].
  exact (failed_submission_leaves_tables (Some "a.pdf") (Some 0%nat) s H).
Defined.

(** The claim C7 fails from right to left: the line [" help"] holds a
    token and is not white space only, yet it is skipped. *)
Lemma indented_command_is_skipped :
  is_all_whitespace " help" = false /\
  split_input_line_into_tokens " help" = ["help"] /\
  run_cli_line " help" Demo.boot = (None, Demo.boot) /\
  fst (run_cli_line "help" Demo.boot) = None /\
  hd_error (trace (snd (run_cli_line "help" Demo.boot))) = Some sf_cmd_ok.
Proof. vm_compute. repeat split. Qed.

(** C9 for the printer of [Demo.running], Busy with job 0. *)
Lemma enable_sets_idle_witness :
  let s := Demo.running in
  let s1 :=
    emit (sf_printer_status (name (printer_registry s 0)) PRINTER_IDLE)
         (modify_printer 0 (set_printer_status PRINTER_IDLE) s) in
  (number_of_registered_printers Demo.boot = 0%nat /\
   reachable Demo.boot s /\
   (0 < number_of_registered_printers s)%nat /\
   printer_status (printer_registry s 0) = PRINTER_BUSY) /\
  printer_status (printer_registry s1 0) = PRINTER_IDLE /\
  name (printer_registry s1 0) = name (printer_registry s 0) /\
  trace s1 = sf_printer_status (name (printer_registry s 0)) PRINTER_IDLE :: trace s /\
  handle_enable_command ["enable"; name (printer_registry s 0)] s =
    emit sf_cmd_ok
      (try_scheduling_jobs
         (emit (fprintf_out (printer_line (Z.of_nat (get_printer_count s1) - 1)
                                          (printer_registry s1 0))) s1)).
Proof.
  intros s s1.
  assert (H0 : number_of_registered_printers Demo.boot = 0%nat)
    by (vm_compute; reflexivity).
  assert (H1 : reachable Demo.boot s) by apply after_reachable.
  assert (H2 : (0 < number_of_registered_printers s)%nat) by (vm_compute; constructor).
  assert (H3 : printer_status (printer_registry s 0) = PRINTER_BUSY)
    by (vm_compute; reflexivity).
  split; [repeat split; assumption|].
  exact (enable_sets_idle Demo.boot s 0 H0 H1 H2).
Defined.

(** C10 on [Demo.compacted], where the job with id 1 has moved to
    position 0: the job submitted next is given the id 1 as well. *)
Lemma submitted_id_is_job_count_witness :
  let s := Demo.compacted in
  let s' := snd (submit_print_job (Some "c.pdf") None s) in
  (fst (submit_print_job (Some "c.pdf") None s) = 0 /\ (0 < job_count s)%nat) /\
  (job_count s' = 2%nat /\ id (job_spool s' 1) = 1 /\ id (job_spool s' 0) = 1) /\
  input_file_path (job_spool s' 0) = Some "b.pdf" /\
  input_file_path (job_spool s' 1) = Some "c.pdf".
Proof.
  intros s s'.
  assert (H1 : fst (submit_print_job (Some "c.pdf") None s) = 0)
    by (vm_compute; reflexivity).
  assert (H2 : (0 < job_count s)%nat) by (vm_compute; constructor).
  split; [split; assumption|].
  split; [|split; vm_compute; reflexivity].
  assert (Hc : job_count s = 1%nat) by (vm_compute; reflexivity).
  assert (Hid : id (job_spool s 0) = 1) by (vm_compute; reflexivity).
  pose proof (submitted_id_is_job_count (Some "c.pdf") None s H1) as H.
  cbv zeta in H. fold s' in H. destruct H as (Hcount & Hnew & Hold).
  specialize (Hold 0%nat H2). rewrite Hc in Hcount, Hnew. rewrite Hid in Hold.
  split; [exact Hcount|]. split; [exact Hnew | exact Hold].
Defined.

(** C3.  In [Demo.compacted] the only live job has id 1 and sits at
    position 0.  [cancel], [pause] and [resume] take their number as a
    position: 1 is refused as out of range although a job with id 1 is
    live, and 0 reaches the job whose id is 1. *)
Theorem job_commands_index_by_position :
  let s := Demo.compacted in
  (job_count s = 1%nat /\ id (job_spool s 0) = 1 /\
   status (job_spool s 0) = JOB_CREATED) /\
  (cancel_job 1 s = (-1, s) /\ pause_job 1 s = (-1, s) /\ resume_job 1 s = (-1, s)) /\
  hd_error (trace (handle_user_command ["cancel"; "1"] s))
    = Some (sf_cmd_error "cancel_job() failed") /\
  (fst (cancel_job 0 s) = 0 /\
   status (job_spool (snd (cancel_job 0 s)) 0) = JOB_ABORTED /\
   hd_error (trace (snd (cancel_job 0 s))) = Some (sf_job_aborted 1 0)).
Proof. vm_compute. repeat split. Qed.

(** C4.  In [Demo.two_printers] both printers are idle; [bob] matches a
    [ps] file directly and [alice] needs the conversion to [pdf].  The
    scheduler takes [alice], which comes first in the registry: a direct
    match is not preferred over a conversion. *)
Theorem conversion_printer_selected_before_direct :
  let s := Demo.two_printers in
  let ps := mkFILE_TYPE 1 "ps" in
  (infer_file_type (Some "a.ps") (registry s) = Some ps /\
   map (fun i => printer_registry s i) [0%nat; 1%nat] =
     [mkPRINTER "alice" (mkFILE_TYPE 0 "pdf") PRINTER_IDLE;
      mkPRINTER "bob" ps PRINTER_IDLE] /\
   find_conversion_path "ps" "pdf" (registry s) = Some [mkCONVERSION ["ps2pdf"]]) /\
  select_compatible_printer (Some ps) s = Some 0%nat /\
  (let s' := snd (run_cli_line "print a.ps" s) in
   target_printer (job_spool s' 0) = Some 0%nat /\
   status (job_spool s' 0) = JOB_RUNNING /\
   In (sf_job_started 0 "alice" 108 [Some "ps2pdf"]) (trace s') /\
   printer_status (printer_registry s' 1) = PRINTER_IDLE).
Proof.
  vm_compute. repeat split. right. right. left. reflexivity.
Qed.

(** * Further properties of the code *)

(** ** [printer_manager.c] *)

Section PrinterManagerFacts.

Context {env : Env}.

(** X1.  [get_printer_by_name] returns the first registered printer that
    carries the name, and nothing exactly when no registered printer
    does. *)
Theorem get_printer_by_name_first_match (pname : string) (s : spooler) :
  match get_printer_by_name pname s with
  | Some p =>
      (p < number_of_registered_printers s)%nat /\
      name (printer_registry s p) = pname /\
      forall k, (k < p)%nat -> name (printer_registry s k) <> pname
  | None =>
      forall k, (k < number_of_registered_printers s)%nat ->
                name (printer_registry s k) <> pname
  end.
Proof.
  unfold get_printer_by_name.
  assert (G : forall n i,
    match get_printer_by_name_from pname s i n with
    | Some p => (i <= p < i + n)%nat /\ name (printer_registry s p) = pname /\
                forall k, (i <= k < p)%nat -> name (printer_registry s k) <> pname
    | None => forall k, (i <= k < i + n)%nat -> name (printer_registry s k) <> pname
    end).
  { induction n as [|n IH]; intros i; simpl; [intros k Hk; lia|].
    destruct (String.eqb_spec (name (printer_registry s i)) pname) as [E|E].
    - split; [lia|]. split; [exact E|]. intros k Hk. lia.
    - specialize (IH (S i)).
      destruct (get_printer_by_name_from pname s (S i) n).
      + destruct IH as (Hr & Hn & Hf). split; [lia|]. split; [exact Hn|].
        intros k Hk. destruct (Nat.eq_dec k i) as [->|]; [exact E|]. apply Hf. lia.
      + intros k Hk. destruct (Nat.eq_dec k i) as [->|]; [exact E|]. apply IH. lia. }
  specialize (G (number_of_registered_printers s) 0%nat).
  destruct (get_printer_by_name_from pname s 0 (number_of_registered_printers s)).
  - destruct G as (Hr & Hn & Hf). split; [lia|]. split; [exact Hn|].
    intros k Hk. apply Hf. lia.
  - intros k Hk. apply G. lia.
Qed.

(** The printer just stored at the end of the registry is the one its
    name finds, when the name was free before. *)
Lemma get_printer_by_name_appended pname added s s1 :
  get_printer_by_name pname s = None ->
  name added = pname ->
  number_of_registered_printers s1 = S (number_of_registered_printers s) ->
  printer_registry s1 =
    upd (printer_registry s) (number_of_registered_printers s) added ->
  get_printer_by_name pname s1 = Some (number_of_registered_printers s).
Proof.
  intros Hfree Hname Hn Hreg. unfold get_printer_by_name. rewrite Hn.
  apply get_printer_by_name_from_first.
  - lia.
  - rewrite Hreg, upd_same. exact Hname.
  - intros k Hk. rewrite Hreg, upd_other by lia.
    apply (get_printer_by_name_from_none _ _ _ _ Hfree). lia.
Qed.

(** X2.  [add_printer_to_system] succeeds exactly when the name is free,
    the type is declared and the registry has room; it then appends a
    Disabled printer of that name and type, which the name now finds,
    touches no other slot and emits one [sf_printer_defined].  In every
    other case it returns -1 and changes nothing. *)
Theorem add_printer_to_system_outcomes (printer_name file_type_name : string)
        (s : spooler) :
  let n := number_of_registered_printers s in
  let r := add_printer_to_system printer_name file_type_name s in
  match get_printer_by_name printer_name s, find_type file_type_name (registry s) with
  | None, Some ft =>
      if Nat.ltb n MAX_PRINTERS then
        fst r = 0 /\
        number_of_registered_printers (snd r) = S n /\
        printer_registry (snd r) n = mkPRINTER printer_name ft PRINTER_DISABLED /\
        (forall k, k <> n -> printer_registry (snd r) k = printer_registry s k) /\
        get_printer_by_name printer_name (snd r) = Some n /\
        trace (snd r) = sf_printer_defined printer_name (ft_name ft) :: trace s
      else r = (-1, s)
  | _, _ => r = (-1, s)
  end.
Proof.
  intros n r. subst r. unfold add_printer_to_system. fold n.
  destruct (get_printer_by_name printer_name s) eqn:Hfind.
  - destruct (Nat.leb MAX_PRINTERS n); reflexivity.
  - destruct (find_type file_type_name (registry s)) as [ft|].
    + destruct (Nat.ltb_spec n MAX_PRINTERS) as [Hlt|Hge].
      * destruct (Nat.leb_spec MAX_PRINTERS n); [lia|]. cbn [fst snd].
        split; [reflexivity|]. split; [reflexivity|].
        split; [apply upd_same|].
        split; [intros k Hk; apply upd_other, Hk|].
        split; [|reflexivity].
        apply get_printer_by_name_appended
          with (added := mkPRINTER printer_name ft PRINTER_DISABLED);
          [exact Hfind | reflexivity | reflexivity | reflexivity].
      * destruct (Nat.leb_spec MAX_PRINTERS n); [reflexivity | lia].
    + destruct (Nat.leb MAX_PRINTERS n); reflexivity.
Qed.

(** X3.  [select_compatible_printer] answers nothing for an unknown file
    type; for a known one it answers the registered printer of least
    index that is idle and takes the type, directly or through a
    conversion path, and nothing exactly when there is no such printer. *)
Theorem select_compatible_printer_first_in_registry (from_type : FILE_TYPE)
        (s : spooler) :
  select_compatible_printer None s = None /\
  match select_compatible_printer (Some from_type) s with
  | Some p =>
      (p < get_printer_count s)%nat /\
      compatible_idle from_type s p = true /\
      forall k, (k < p)%nat -> compatible_idle from_type s k = false
  | None =>
      forall k, (k < get_printer_count s)%nat -> compatible_idle from_type s k = false
  end.
Proof.
  split; [reflexivity|]. simpl.
  pose proof (select_compatible_printer_from_first from_type s (get_printer_count s) 0) as H.
  destruct (select_compatible_printer_from from_type s 0 (get_printer_count s)).
  - destruct H as (Hr & Hc & Hf).
    split; [lia|]. split; [exact Hc|]. intros k Hk. apply Hf. lia.
  - intros k Hk. apply H. lia.
Qed.

End PrinterManagerFacts.

(** ** [job_manager.c]: the sweep, the clean-up and the listings *)

Section TableFacts.

Context {env : Env}.

Lemma slots_ext {A : Type} (a b : nat -> A) n : forall i,
  (forall k, (i <= k < i + n)%nat -> a k = b k) -> slots a i n = slots b i n.
Proof.
  unfold slots. induction n as [|n IH]; intros i H; simpl; [reflexivity|].
  f_equal; [apply H; lia | apply IH; intros k Hk; apply H; lia].
Qed.

Lemma slots_shift {A : Type} (a b : nat -> A) n : forall i,
  (forall k, (i <= k < i + n)%nat -> a k = b (S k)) -> slots a i n = slots b (S i) n.
Proof.
  unfold slots. induction n as [|n IH]; intros i H; simpl; [reflexivity|].
  f_equal; [apply H; lia | apply IH; intros k Hk; apply H; lia].
Qed.

Lemma slots_app {A : Type} (a : nat -> A) i n m :
  slots a i (n + m) = (slots a i n ++ slots a (i + n) m)%list.
Proof. unfold slots. rewrite seq_app, map_app. reflexivity. Qed.

Lemma slots_snoc {A : Type} (a : nat -> A) i n :
  slots a i (S n) = (slots a i n ++ [a (i + n)%nat])%list.
Proof. replace (S n) with (n + 1)%nat by lia. rewrite slots_app. reflexivity. Qed.

Lemma live_jobs_length s : List.length (live_jobs s) = job_count s.
Proof. unfold live_jobs, slots. rewrite length_map, length_seq. reflexivity. Qed.

Lemma live_jobs_nth s k d :
  (k < job_count s)%nat -> nth k (live_jobs s) d = job_spool s k.
Proof.
  intros Hk. unfold live_jobs, slots.
  rewrite (nth_indep _ d (job_spool s 0)) by (rewrite length_map, length_seq; exact Hk).
  rewrite map_nth, seq_nth by exact Hk. reflexivity.
Qed.

Lemma live_jobs_Forall (P : JOB -> Prop) s :
  Forall P (live_jobs s) <-> forall k, (k < job_count s)%nat -> P (job_spool s k).
Proof.
  split.
  - intros H k Hk. rewrite <- (live_jobs_nth s k (job_spool s 0)) by exact Hk.
    apply Forall_nth; [exact H | rewrite live_jobs_length; exact Hk].
  - intros H. unfold live_jobs, slots. apply Forall_map, Forall_forall.
    intros k Hk. apply in_seq in Hk. apply H. lia.
Qed.

(** The loop of the sweep from position [i]: the jobs before [i] stay,
    of the [n] jobs from [i] on the unexpired ones stay in their order. *)
Lemma delete_expired_jobs_from_filter now n : forall i s,
  (i + n = job_count s)%nat ->
  let s' := delete_expired_jobs_from now i n s in
  live_jobs s' =
    (slots (job_spool s) 0 i
       ++ filter (fun j => negb (job_expired now j)) (slots (job_spool s) i n))%list /\
  trace s' = (rev (deletions now (slots (job_spool s) i n)) ++ trace s)%list /\
  printer_registry s' = printer_registry s /\
  number_of_registered_printers s' = number_of_registered_printers s /\
  registry s' = registry s /\ syscalls s' = syscalls s.
Proof.
  induction n as [|n IH]; intros i s Hn.
  - simpl. unfold live_jobs. replace (job_count s) with i by lia.
    rewrite app_nil_r. repeat split.
  - cbn [delete_expired_jobs_from].
    change (slots (job_spool s) i (S n))
      with (job_spool s i :: slots (job_spool s) (S i) n).
    unfold deletions. cbn [filter].
    destruct (job_expired now (job_spool s i)) eqn:Hexp; cbn [negb map rev].
    + match goal with
      | |- context [delete_expired_jobs_from now i n ?x] => set (s4 := x)
      end.
      assert (Hc : (i + n = job_count s4)%nat) by (subst s4; simpl; lia).
      destruct (IH i s4 Hc) as (Hl & Ht & Hp & Hnum & Hreg & Hsys).
      assert (Hlow : forall k, (k < i)%nat -> job_spool s4 k = job_spool s k).
      { intros k Hk. subst s4. simpl. rewrite compact_from_spec by lia.
        replace (S i - 1)%nat with i by lia.
        destruct (Nat.leb_spec i k); simpl; [lia|]. apply upd_other. lia. }
      assert (Hhigh : forall k, (i <= k < i + n)%nat ->
                                job_spool s4 k = job_spool s (S k)).
      { intros k Hk. subst s4. simpl. rewrite compact_from_spec by lia.
        replace (S i - 1)%nat with i by lia.
        destruct (Nat.leb_spec i k), (Nat.ltb_spec k (i + (job_count s - S i)));
          simpl; try lia. apply upd_other. lia. }
      cbv zeta. rewrite Hl, Ht.
      rewrite (slots_ext (job_spool s4) (job_spool s) i 0)
        by (intros k Hk; apply Hlow; lia).
      rewrite (slots_shift (job_spool s4) (job_spool s) n i Hhigh).
      repeat split; auto.
      fold (deletions now (slots (job_spool s) (S i) n)).
      subst s4. simpl. rewrite <- app_assoc. reflexivity.
    + destruct (IH (S i) s ltac:(lia)) as (Hl & Ht & Hp & Hnum & Hreg & Hsys).
      cbv zeta. rewrite Hl, Ht. repeat split; auto.
      rewrite slots_snoc, <- app_assoc. reflexivity.
Qed.

Lemma delete_expired_jobs_if_needed_live s :
  live_jobs (delete_expired_jobs_if_needed s) =
    filter (fun j => negb (job_expired (time_result (syscalls s)) j)) (live_jobs s) /\
  number_of_registered_printers (delete_expired_jobs_if_needed s) =
    number_of_registered_printers s.
Proof.
  unfold delete_expired_jobs_if_needed, time.
  destruct (delete_expired_jobs_from_filter (time_result (syscalls s)) (job_count s) 0
              (set_syscalls (S (syscalls s)) s) eq_refl)
    as (Hl & _ & _ & Hnum & _).
  split; assumption.
Qed.


Lemma cleanup_jobs_from_spec n : forall i s k,
  job_spool (cleanup_jobs_from i n s) k =
    (if (Nat.leb i k && Nat.ltb k (i + n))%bool then cleanup_job (job_spool s k)
     else job_spool s k) /\
  printer_registry (cleanup_jobs_from i n s) = printer_registry s /\
  number_of_registered_printers (cleanup_jobs_from i n s) = number_of_registered_printers s /\
  trace (cleanup_jobs_from i n s) = trace s /\
  syscalls (cleanup_jobs_from i n s) = syscalls s.
Proof.
  induction n as [|n IH]; intros i s k; simpl.
  - repeat split.
    destruct (Nat.leb_spec i k), (Nat.ltb_spec k (i + 0)); simpl; try reflexivity; lia.
  - destruct (IH (S i) (modify_job i cleanup_job s) k) as (Hj & Hp & Hn & Ht & Hs).
    rewrite Hj, Hp, Hn, Ht, Hs. split; [|repeat split].
    change (job_spool (modify_job i cleanup_job s) k)
      with (upd (job_spool s) i (cleanup_job (job_spool s i)) k).
    destruct (Nat.eq_dec k i) as [->|Hne].
    + rewrite upd_same.
      destruct (Nat.leb_spec (S i) i), (Nat.ltb_spec i (S i + n)),
               (Nat.leb_spec i i), (Nat.ltb_spec i (i + S n)); cbn [andb]; try lia;
        reflexivity.
    + rewrite upd_other by exact Hne.
      destruct (Nat.leb_spec (S i) k), (Nat.ltb_spec k (S i + n)),
               (Nat.leb_spec i k), (Nat.ltb_spec k (i + S n)); cbn [andb]; try lia;
        reflexivity.
Qed.

(** X5.  [job_manager_cleanup] empties the table: the count is zero, no
    index answers any more, every slot that was live keeps its id and is
    otherwise reset (no path, no printer, Deleted, pgid -1, both times 0),
    the slots beyond are untouched; no printer is released, no event is
    emitted and no system call is made. *)
Theorem job_manager_cleanup_resets_slots (s : spooler) (k : nat) :
  let s' := job_manager_cleanup s in
  job_count s' = 0%nat /\
  get_job_by_index k s' = None /\
  job_spool s' k =
    (if Nat.ltb k (job_count s)
     then mkJOB (id (job_spool s k)) None None JOB_DELETED (-1) 0 0
     else job_spool s k) /\
  printer_registry s' = printer_registry s /\
  trace s' = trace s /\
  syscalls s' = syscalls s.
Proof.
  unfold job_manager_cleanup. simpl.
  destruct (cleanup_jobs_from_spec (job_count s) 0 s k) as (Hj & Hp & _ & Ht & Hs).
  repeat split; auto.
Qed.

Lemma list_jobs_from_trace n : forall i s,
  trace (list_jobs_from i n s) =
    (rev (map (fun j => sf_job_status (id j) (status j)) (slots (job_spool s) i n))
       ++ trace s)%list /\
  same_tables s (list_jobs_from i n s).
Proof.
  induction n as [|n IH]; intros i s.
  - simpl. repeat split.
  - cbn [list_jobs_from].
    match goal with |- context [list_jobs_from (S i) n ?x] => set (s1 := x) end.
    destruct (IH (S i) s1) as (Ht & Hj & Hc & Hp & Hn & Hr & Hf).
    split.
    + rewrite Ht. change (slots (job_spool s) i (S n))
        with (job_spool s i :: slots (job_spool s) (S i) n).
      cbn [map rev]. rewrite <- app_assoc. reflexivity.
    + repeat split; assumption.
Qed.

Lemma list_printers_from_trace n : forall i s,
  trace (list_printers_from i n s) =
    (rev (map (fun k => fprintf_out (printer_line (Z.of_nat k) (printer_registry s k)))
              (seq i n))
       ++ trace s)%list /\
  same_tables s (list_printers_from i n s).
Proof.
  induction n as [|n IH]; intros i s.
  - simpl. repeat split.
  - cbn [list_printers_from].
    match goal with |- context [list_printers_from (S i) n ?x] => set (s1 := x) end.
    destruct (IH (S i) s1) as (Ht & Hj & Hc & Hp & Hn & Hr & Hf).
    split.
    + rewrite Ht. cbn [seq map rev]. rewrite <- app_assoc. reflexivity.
    + repeat split; assumption.
Qed.

(** X6.  Whatever their arguments, [jobs] reports one [sf_job_status] per
    live job and [printers] prints one line per registered printer, with
    its index as id, both in table order and followed by [sf_cmd_ok];
    neither changes the job table, the printer registry, the type
    registry or the signal flag. *)
Theorem listing_commands_report_every_entry (args : list string) (s : spooler) :
  (trace (handle_user_command ("jobs" :: args) s) =
     (sf_cmd_ok
        :: rev (map (fun j => sf_job_status (id j) (status j)) (live_jobs s))
        ++ trace s)%list /\
   same_tables s (handle_user_command ("jobs" :: args) s)) /\
  (trace (handle_user_command ("printers" :: args) s) =
     (sf_cmd_ok
        :: rev (map (fun k => fprintf_out (printer_line (Z.of_nat k) (printer_registry s k)))
                    (seq 0 (number_of_registered_printers s)))
        ++ trace s)%list /\
   same_tables s (handle_user_command ("printers" :: args) s)).
Proof.
  split.
  - change (handle_user_command ("jobs" :: args) s) with (handle_jobs_command s).
    unfold handle_jobs_command, get_job_count.
    destruct (list_jobs_from_trace (job_count s) 0 s) as (Ht & H).
    split; [simpl; rewrite Ht; reflexivity | exact H].
  - change (handle_user_command ("printers" :: args) s) with (handle_printers_command s).
    unfold handle_printers_command, get_printer_count.
    destruct (list_printers_from_trace (number_of_registered_printers s) 0 s) as (Ht & H).
    split; [simpl; rewrite Ht; reflexivity | exact H].
Qed.

End TableFacts.

(** ** [job_manager.c]: submission and the job commands *)

Section JobFacts.

Context {env : Env}.

Lemma in_table_range job_id s :
  ((job_id <? 0) || (Z.of_nat (job_count s) <=? job_id))%bool = negb (in_table job_id s).
Proof.
  unfold in_table.
  destruct (Z.ltb_spec job_id 0), (Z.leb_spec (Z.of_nat (job_count s)) job_id),
           (Z.leb_spec 0 job_id), (Z.ltb_spec job_id (Z.of_nat (job_count s)));
    simpl; try reflexivity; lia.
Qed.

(** X7.  [cancel_job] refuses (-1, nothing changed, no signal) when
    [job_id] is not a position of the live table or when the job there is
    Finished, Aborted or Deleted.  A job still in Created is aborted
    without any signal: its status becomes Aborted, [status_changed_at]
    is refreshed by one reading of the clock, [sf_job_status] and
    [sf_job_aborted] are emitted, and no printer is touched.  A Running
    or Paused job is always accepted. *)
Theorem cancel_job_refusals_and_waiting_jobs (job_id : Z) (s : spooler) :
  let i := Z.to_nat job_id in
  let job := job_spool s i in
  let r := cancel_job job_id s in
  if in_table job_id s then
    match status job with
    | JOB_CREATED =>
        fst r = 0 /\
        trace (snd r) =
          sf_job_aborted (id job) 0 :: sf_job_status (id job) JOB_ABORTED :: trace s /\
        job_spool (snd r) i =
          mkJOB (id job) (input_file_path job) (target_printer job) JOB_ABORTED
                (pgid job) (created_at job) (time_result (syscalls s)) /\
        (forall k, k <> i -> job_spool (snd r) k = job_spool s k) /\
        printer_registry (snd r) = printer_registry s /\
        job_count (snd r) = job_count s /\
        syscalls (snd r) = S (syscalls s)
    | JOB_RUNNING | JOB_PAUSED => fst r = 0
    | JOB_FINISHED | JOB_ABORTED | JOB_DELETED => r = (-1, s)
    end
  else r = (-1, s).
Proof.
  intros i job r. subst r job. unfold cancel_job. rewrite in_table_range.
  destruct (in_table job_id s); cbn [negb]; [|reflexivity].
  fold i.
  destruct (status (job_spool s i)) eqn:Hst;
    cbn [job_status_eqb negb andb]; try reflexivity.
  unfold time. unfold_updates.
  repeat split.
  intros k Hk. rewrite !upd_other by exact Hk. reflexivity.
Qed.

(** X8.  [pause_job] and [resume_job] never write to the tables.
    [pause_job] acts only on a table position that holds a Running job,
    [resume_job] only on one that holds a Paused job: the one signal
    (SIGSTOP, SIGCONT) goes to the job's process group and the result is
    what [killpg] returned.  Everything else is refused with -1 and
    leaves the state, trace included, as it was. *)
Theorem pause_and_resume_only_signal (job_id : Z) (s : spooler) :
  let job := job_spool s (Z.to_nat job_id) in
  (same_tables s (snd (pause_job job_id s)) /\
   if in_table job_id s && job_status_eqb (status job) JOB_RUNNING
   then fst (pause_job job_id s) = killpg_result (syscalls s) /\
        trace (snd (pause_job job_id s)) = killpg (pgid job) SIGSTOP :: trace s
   else pause_job job_id s = (-1, s)) /\
  (same_tables s (snd (resume_job job_id s)) /\
   if in_table job_id s && job_status_eqb (status job) JOB_PAUSED
   then fst (resume_job job_id s) = killpg_result (syscalls s) /\
        trace (snd (resume_job job_id s)) = killpg (pgid job) SIGCONT :: trace s
   else resume_job job_id s = (-1, s)).
Proof.
  intros job. subst job. unfold pause_job, resume_job, do_killpg.
  rewrite in_table_range.
  destruct (in_table job_id s); cbn [negb andb].
  - destruct (status (job_spool s (Z.to_nat job_id)));
      cbn [job_status_eqb negb fst snd]; repeat split.
  - repeat split.
Qed.

(** X9.  [submit_print_job] returns 0 exactly when there is a path, the
    table has room, the file type of the path is known and, if a printer
    is named, that printer is idle, takes the type (it is the printer's
    own type or a conversion path exists) and the pipeline could be
    forked.  Without a named printer nothing else can make it fail. *)
Theorem submit_print_job_accepts (file_path : option string) (printer : option nat)
        (s : spooler) :
  fst (submit_print_job file_path printer s) = 0 <->
  exists path from_type,
    file_path = Some path /\
    (job_count s < MAX_JOBS)%nat /\
    infer_file_type file_path (registry s) = Some from_type /\
    match printer with
    | None => True
    | Some p =>
        printer_status (printer_registry s p) = PRINTER_IDLE /\
        (ft_addr (type (printer_registry s p)) = ft_addr from_type \/
         find_conversion_path (ft_name from_type)
                              (ft_name (type (printer_registry s p))) (registry s)
           <> None) /\
        0 <= fork_result (S (syscalls s))
    end.
Proof.
  assert (Hacc : forall p ft,
    printer_accepts p ft s = true <->
    printer_status (printer_registry s p) = PRINTER_IDLE /\
    (ft_addr (type (printer_registry s p)) = ft_addr ft \/
     find_conversion_path (ft_name ft) (ft_name (type (printer_registry s p)))
                          (registry s) <> None)).
  { intros p ft. unfold printer_accepts.
    destruct (printer_status (printer_registry s p)); cbn [printer_status_eqb negb];
      try (split; [discriminate | intros [H _]; discriminate H]).
    destruct (Nat.eqb_spec (ft_addr (type (printer_registry s p))) (ft_addr ft));
      cbn [negb].
    - split; auto.
    - destruct (find_conversion_path _ _ _).
      + split; auto. intros _. split; [reflexivity|]. right. discriminate.
      + split; [discriminate|]. intros [_ [H|H]]; [contradiction | congruence]. }
  unfold submit_print_job, start_conversion_pipeline, time.
  destruct file_path as [path|]; [|split; [discriminate | intros (? & ? & H & _); discriminate H]].
  destruct (Nat.leb_spec MAX_JOBS (job_count s)) as [Hfull|Hroom].
  { split; [discriminate|]. intros (? & ? & _ & H & _). lia. }
  destruct (infer_file_type (Some path) (registry s)) as [ft|] eqn:Hinf;
    [|split; [discriminate | intros (? & ? & _ & _ & H & _); discriminate H]].
  destruct printer as [p|].
  - destruct (printer_accepts p ft s) eqn:Hp; cbn [negb].
    + cbn [fst snd syscalls set_syscalls emit modify_job set_job_spool].
      destruct (Z.ltb_spec (fork_result (S (syscalls s))) 0) as [Hneg|Hpos].
      * cbn [fst Z.ltb Z.compare]. split; [discriminate|].
        intros (? & ? & _ & _ & E & _ & _ & H). lia.
      * destruct (Z.ltb_spec (fork_result (S (syscalls s))) 0); [lia|]. cbn [fst].
        split; [|reflexivity]. intros _. exists path, ft.
        apply Hacc in Hp. destruct Hp. repeat split; auto.
    + split; [discriminate|].
      intros (? & ft' & _ & _ & E & H1 & H2 & _). injection E as <-.
      assert (printer_accepts p ft s = true) by (apply Hacc; auto). congruence.
  - cbn [fst]. split; [|reflexivity]. intros _. exists path, ft. repeat split; auto.
Qed.

End JobFacts.

(** ** [job_manager.c]: the scheduler *)

Section SchedulerPassFacts.

Context {env : Env}.

Lemma compatible_idle_is_idle ft s p :
  compatible_idle ft s p = true ->
  printer_status (printer_registry s p) = PRINTER_IDLE.
Proof.
  unfold compatible_idle. intros H. apply andb_true_iff in H. destruct H as [H _].
  destruct (printer_status (printer_registry s p)); try discriminate H; reflexivity.
Qed.

Lemma compatible_idle_before s s' ft p :
  registry s' = registry s ->
  printer_claimed (printer_registry s p) (printer_registry s' p) ->
  compatible_idle ft s' p = true -> compatible_idle ft s p = true.
Proof.
  intros Hreg [HP | [_ HP]] H.
  - unfold compatible_idle in *. rewrite HP, Hreg in H. exact H.
  - apply compatible_idle_is_idle in H. rewrite HP in H. discriminate H.
Qed.

Lemma scheduler_pass_refl s : scheduler_pass s s.
Proof. repeat split; try (intros; left; reflexivity). Qed.

Lemma scheduler_pass_trans s1 s2 s3 :
  scheduler_pass s1 s2 -> scheduler_pass s2 s3 -> scheduler_pass s1 s3.
Proof.
  intros (Hc1 & Hr1 & Hn1 & Hj1 & Hp1) (Hc2 & Hr2 & Hn2 & Hj2 & Hp2).
  assert (Hp : forall p, printer_claimed (printer_registry s1 p) (printer_registry s3 p)).
  { intros p. destruct (Hp1 p) as [E1 | [I1 E1]], (Hp2 p) as [E2 | [I2 E2]].
    - left. congruence.
    - right. rewrite E1 in I2, E2. auto.
    - right. rewrite E2. auto.
    - rewrite E1 in I2. discriminate I2. }
  repeat split; try congruence; [|exact Hp].
  intros k. destruct (Hj1 k) as [E1 | [C1 H1]].
  - rewrite <- E1. destruct (Hj2 k) as [E2 | [C2 H2]]; [left; exact E2|].
    right. split; [exact C2|]. destruct H2 as [E2 | (p & pid & now & ft & H)];
      [left; exact E2|].
    right. exists p, pid, now, ft.
    destruct H as (Hpid & Hlt & Hinf & Hcomp & Hbusy & E2).
    repeat split; auto; try congruence.
    apply (compatible_idle_before s1 s2); auto.
  - right. split; [exact C1|]. destruct H1 as [E1 | (p & pid & now & ft & H)].
    + destruct (Hj2 k) as [E2 | [C2 H2]]; [left; congruence|].
      rewrite E1 in H2. simpl in H2.
      destruct H2 as [E2 | (p & pid & now & ft & H)]; [left; exact E2|].
      right. exists p, pid, now, ft.
      destruct H as (Hpid & Hlt & Hinf & Hcomp & Hbusy & E2).
      repeat split; auto; try congruence.
      apply (compatible_idle_before s1 s2); auto.
    + right. exists p, pid, now, ft.
      destruct H as (Hpid & Hlt & Hinf & Hcomp & Hbusy & E1).
      destruct (Hj2 k) as [E2 | [C2 _]];
        [|rewrite E1 in C2; discriminate C2].
      repeat split; auto; try congruence.
      destruct (Hp2 p) as [E | [I _]]; [congruence|]. congruence.
Qed.

Lemma try_scheduling_job_pass i s : scheduler_pass s (try_scheduling_job i s).
Proof.
  unfold try_scheduling_job.
  destruct (negb (job_status_eqb (status (job_spool s i)) JOB_CREATED)) eqn:Hst;
    [apply scheduler_pass_refl|].
  apply negb_false_iff, job_status_eqb_eq in Hst.
  destruct (infer_file_type (input_file_path (job_spool s i)) (registry s))
    as [ft|] eqn:Hinf; [|apply scheduler_pass_refl].
  destruct (select_compatible_printer (Some ft) s) as [p|] eqn:Hsel;
    [|apply scheduler_pass_refl].
  pose proof (select_compatible_printer_from_first ft s (get_printer_count s) 0) as Hp.
  simpl in Hsel. rewrite Hsel in Hp. destruct Hp as (Hrange & Hcomp & _).
  pose proof (compatible_idle_is_idle _ _ _ Hcomp) as Hidle.
  assert (Hfail : scheduler_pass s
            (modify_job i (set_target_printer None)
               (set_syscalls (S (syscalls s))
                  (modify_job i (set_target_printer (Some p)) s)))).
  { repeat split; try (intros; left; reflexivity).
    intros k. simpl. unfold upd. destruct (Nat.eqb_spec k i) as [->|]; [|left; reflexivity].
    rewrite Nat.eqb_refl. right. split; [exact Hst|]. left. reflexivity. }
  assert (Hok : forall path cmds,
    0 <= fork_result (syscalls s) ->
    scheduler_pass s
      (announce_started i p (fork_result (syscalls s)) cmds
         (mark_running i p (fork_result (syscalls s))
            (snd (start_conversion_pipeline i path
                    (modify_job i (set_target_printer (Some p)) s)))))).
  { intros path cmds Hpid.
    unfold announce_started, mark_running, start_conversion_pipeline, time.
    repeat split.
    - intros k. destruct (Nat.eq_dec k i) as [->|Hne].
      + right. split; [exact Hst|]. right.
        eexists p, _, _, ft. unfold_updates.
        repeat split; eauto. unfold get_printer_count in Hrange. lia.
      + left. unfold_updates. rewrite !upd_other by exact Hne. reflexivity.
    - intros q. destruct (Nat.eq_dec q p) as [->|Hne].
      + right. unfold_updates. split; [exact Hidle | reflexivity].
      + left. unfold_updates. rewrite !upd_other by exact Hne. reflexivity. }
  unfold start_conversion_pipeline in *. cbn [fst snd] in *.
  change (syscalls (modify_job i (set_target_printer (Some p)) s)) with (syscalls s) in *.
  destruct (String.eqb (ft_name ft) (ft_name (type (printer_registry s p)))).
  - destruct (Z.ltb_spec (fork_result (syscalls s)) 0) as [Hneg|Hpos].
    + exact Hfail.
    + destruct (Z.ltb_spec (fork_result (syscalls s)) 0); [lia|].
      apply (Hok None). lia.
  - change (registry (modify_job i (set_target_printer (Some p)) s)) with (registry s).
    destruct (find_conversion_path _ _ _) as [path|].
    + destruct (Z.ltb_spec (fork_result (syscalls s)) 0) as [Hneg|Hpos].
      * exact Hfail.
      * destruct (Z.ltb_spec (fork_result (syscalls s)) 0); [lia|].
        apply (Hok (Some path)). lia.
    + repeat split; try (intros; left; reflexivity).
      intros k. simpl. unfold upd.
      destruct (Nat.eqb_spec k i) as [->|]; [|left; reflexivity].
      rewrite Nat.eqb_refl. right. split; [exact Hst|]. left. reflexivity.
Qed.

Lemma try_scheduling_jobs_from_pass n : forall i s,
  scheduler_pass s (try_scheduling_jobs_from i n s).
Proof.
  induction n as [|n IH]; intros i s; simpl.
  - apply scheduler_pass_refl.
  - eapply scheduler_pass_trans; [apply try_scheduling_job_pass | apply IH].
Qed.

(** X10.  One pass of [try_scheduling_jobs] keeps the job count, the
    type registry and the number of printers.  To a job it does nothing
    unless the job is in Created; such a job either has its printer field
    cleared (a launch that failed) or becomes Running with the pid of the
    pipeline on a registered printer that was idle and compatible with
    its type before the pass and is Busy after it.  To a printer it does
    nothing, or turns it from Idle to Busy. *)
Theorem scheduler_only_starts_waiting_jobs (s : spooler) (k p : nat) :
  let s' := try_scheduling_jobs s in
  job_count s' = job_count s /\
  registry s' = registry s /\
  number_of_registered_printers s' = number_of_registered_printers s /\
  job_scheduled s s' (job_spool s k) (job_spool s' k) /\
  printer_claimed (printer_registry s p) (printer_registry s' p).
Proof.
  destruct (try_scheduling_jobs_from_pass (get_job_count s) 0 s)
    as (Hc & Hr & Hn & Hj & Hp).
  repeat split; auto.
Qed.

End SchedulerPassFacts.

(** What a pass leaves behind when [fork] never fails. *)
Section WorkConservation.

Context {env : Env}.

Hypothesis forks_succeed : forall n, 0 <= fork_result n.

Lemma try_scheduling_job_other i s k :
  k <> i -> job_spool (try_scheduling_job i s) k = job_spool s k.
Proof.
  intros Hk.
  unfold try_scheduling_job, start_conversion_pipeline, announce_started,
    mark_running, time.
  repeat match goal with
         | |- context [match ?x with _ => _ end] => destruct x eqn:?
         end; try reflexivity; unfold_updates; rewrite ?upd_other by exact Hk;
    reflexivity.
Qed.

Lemma try_scheduling_job_settles i s : settled (try_scheduling_job i s) i.
Proof.
  unfold settled, try_scheduling_job.
  destruct (negb (job_status_eqb (status (job_spool s i)) JOB_CREATED)) eqn:Hst.
  { intros Hc. apply negb_true_iff, job_status_eqb_neq in Hst. contradiction. }
  destruct (infer_file_type (input_file_path (job_spool s i)) (registry s))
    as [ft|] eqn:Hinf.
  2: { intros _ ft' H. rewrite Hinf in H. discriminate H. }
  pose proof (select_compatible_printer_from_first ft s (get_printer_count s) 0) as Hsel.
  simpl select_compatible_printer.
  destruct (select_compatible_printer_from ft s 0 (get_printer_count s)) as [p|].
  2: { intros _ ft' H p Hp. rewrite Hinf in H. injection H as <-. apply Hsel.
       unfold get_printer_count. lia. }
  destruct Hsel as (_ & Hcomp & _).
  unfold start_conversion_pipeline. cbn [fst snd].
  change (syscalls (modify_job i (set_target_printer (Some p)) s)) with (syscalls s).
  pose proof (forks_succeed (syscalls s)) as Hfork.
  destruct (Z.ltb_spec (fork_result (syscalls s)) 0) as [|_]; [lia|].
  destruct (Z.ltb_spec (fork_result (syscalls s)) 0) as [|_]; [lia|].
  assert (Hrun : forall cmds,
    status (job_spool
      (announce_started i p (fork_result (syscalls s)) cmds
         (mark_running i p (fork_result (syscalls s))
            (set_syscalls (S (syscalls s))
               (modify_job i (set_target_printer (Some p)) s)))) i) = JOB_RUNNING).
  { intros cmds. unfold announce_started, mark_running, time. unfold_updates.
    reflexivity. }
  destruct (String.eqb (ft_name ft) (ft_name (type (printer_registry s p)))) eqn:Hname.
  - intros Hc. rewrite Hrun in Hc. discriminate Hc.
  - change (registry (modify_job i (set_target_printer (Some p)) s)) with (registry s).
    destruct (find_conversion_path (ft_name ft) (ft_name (type (printer_registry s p)))
                (registry s)) eqn:Hpath.
    + intros Hc. rewrite Hrun in Hc. discriminate Hc.
    + exfalso. unfold compatible_idle in Hcomp. rewrite Hpath in Hcomp.
      rewrite String.eqb_sym, Hname in Hcomp.
      rewrite andb_false_r in Hcomp. discriminate Hcomp.
Qed.

Lemma settled_after_pass s s' k :
  scheduler_pass s s' -> job_spool s' k = job_spool s k ->
  settled s k -> settled s' k.
Proof.
  intros (Hc & Hr & Hn & _ & Hp) Hk Hs Hst ft Hinf p Hlt.
  rewrite Hk in Hst, Hinf. rewrite Hr in Hinf. rewrite Hn in Hlt.
  specialize (Hs Hst ft Hinf p Hlt).
  destruct (compatible_idle ft s' p) eqn:E; [|reflexivity].
  apply (compatible_idle_before s s' ft p Hr (Hp p)) in E. congruence.
Qed.

Lemma try_scheduling_jobs_from_settles n : forall i s,
  (forall k, (k < i)%nat -> settled s k) ->
  forall k, (k < i + n)%nat -> settled (try_scheduling_jobs_from i n s) k.
Proof.
  induction n as [|n IH]; intros i s Hbefore k Hk; simpl.
  - apply Hbefore. lia.
  - apply IH; [|lia]. intros j Hj.
    destruct (Nat.eq_dec j i) as [->|Hne].
    + apply try_scheduling_job_settles.
    + apply (settled_after_pass s).
      * apply try_scheduling_job_pass.
      * apply try_scheduling_job_other, Hne.
      * apply Hbefore. lia.
Qed.

Lemma settled_select s k ft :
  settled s k ->
  status (job_spool s k) = JOB_CREATED ->
  infer_file_type (input_file_path (job_spool s k)) (registry s) = Some ft ->
  select_compatible_printer (Some ft) s = None.
Proof.
  intros Hs Hst Hinf. simpl.
  pose proof (select_compatible_printer_from_first ft s (get_printer_count s) 0) as Hsel.
  destruct (select_compatible_printer_from ft s 0 (get_printer_count s)) as [p|];
    [|reflexivity].
  destruct Hsel as (Hr & Hc & _).
  rewrite (Hs Hst ft Hinf p) in Hc; [discriminate Hc|].
  unfold get_printer_count in Hr. lia.
Qed.

End WorkConservation.

Section SchedulerCompleteness.

Context {env : Env}.

(** X11.  When [fork] never fails, a pass of [try_scheduling_jobs]
    leaves no job waiting that it could have started: for every live job
    that is still in Created afterwards and whose file type is known, no
    registered printer is idle and compatible in the state the pass
    leaves. *)
Theorem scheduler_starts_every_startable_job (s : spooler) (k : nat)
        (from_type : FILE_TYPE) :
  (forall n, 0 <= fork_result n) ->
  (k < job_count s)%nat ->
  let s' := try_scheduling_jobs s in
  status (job_spool s' k) = JOB_CREATED ->
  infer_file_type (input_file_path (job_spool s' k)) (registry s') = Some from_type ->
  select_compatible_printer (Some from_type) s' = None.
Proof.
  intros Hforks Hk s' Hst Hinf.
  apply (settled_select s' k); auto.
  apply (try_scheduling_jobs_from_settles Hforks (get_job_count s) 0 s).
  - intros j Hj. lia.
  - unfold get_job_count. lia.
Qed.

(** X25.  When [fork] never fails, a job submitted without a printer is
    started by the same call whenever it can be: after a successful
    [submit_print_job] the new job sits at the old [job_count] with that
    number as id, and it is either Running on a registered printer that
    was idle and compatible before the call and is Busy now, or still in
    Created with no idle compatible printer left. *)
Theorem submitted_job_starts_when_it_can (path : string) (from_type : FILE_TYPE)
        (s : spooler) :
  (forall n, 0 <= fork_result n) ->
  fst (submit_print_job (Some path) None s) = 0 ->
  infer_file_type (Some path) (registry s) = Some from_type ->
  let s' := snd (submit_print_job (Some path) None s) in
  let job := job_spool s' (job_count s) in
  job_count s' = S (job_count s) /\
  id job = Z.of_nat (job_count s) /\
  input_file_path job = Some path /\
  match status job with
  | JOB_RUNNING =>
      exists p, target_printer job = Some p /\
                (p < number_of_registered_printers s)%nat /\
                compatible_idle from_type s p = true /\
                printer_status (printer_registry s' p) = PRINTER_BUSY
  | JOB_CREATED => select_compatible_printer (Some from_type) s' = None
  | _ => False
  end.
Proof.
  intros Hforks Hok Hinf. revert Hok.
  unfold submit_print_job, time.
  destruct (Nat.leb_spec MAX_JOBS (job_count s)) as [|Hroom]; [discriminate|].
  rewrite Hinf. intros _. cbn [snd]. unfold print_job_summary.
  match goal with
  | |- context [try_scheduling_jobs ?x] => set (s6 := x)
  end.
  assert (Hc6 : job_count s6 = S (job_count s)) by reflexivity.
  assert (Hj6 : job_spool s6 (job_count s) =
                mkJOB (Z.of_nat (job_count s)) (Some path) None JOB_CREATED (-1)
                      (time_result (syscalls s)) (time_result (syscalls s))).
  { subst s6. unfold_updates. reflexivity. }
  assert (Hr6 : registry s6 = registry s) by reflexivity.
  assert (Hn6 : number_of_registered_printers s6 = number_of_registered_printers s)
    by reflexivity.
  assert (Hp6 : printer_registry s6 = printer_registry s) by reflexivity.
  destruct (try_scheduling_jobs_from_pass (get_job_count s6) 0 s6)
    as (Hc & Hr & Hn & Hj & Hp).
  fold (try_scheduling_jobs s6) in Hc, Hr, Hn, Hj, Hp.
  pose proof (try_scheduling_jobs_from_settles Hforks (get_job_count s6) 0 s6
                ltac:(intros j Hlt; lia) (job_count s)
                ltac:(unfold get_job_count; rewrite Hc6; lia)) as Hset.
  fold (try_scheduling_jobs s6) in Hset.
  cbv zeta.
  change (job_count (emit ?e ?x)) with (job_count x).
  change (job_spool (emit ?e ?x)) with (job_spool x).
  change (printer_registry (emit ?e ?x)) with (printer_registry x).
  rewrite Hc, Hc6.
  split; [reflexivity|].
  specialize (Hj (job_count s)). rewrite Hj6 in Hj.
  destruct Hj as [E | [_ [E | (p & pid & now & ft & Hpid & Hlt & Hft & Hcomp & Hbusy & E)]]].
  - rewrite E. cbn [id input_file_path status].
    split; [reflexivity|]. split; [reflexivity|].
    apply (settled_select _ (job_count s)); [exact Hset | | ].
    + change (status (job_spool (try_scheduling_jobs s6) (job_count s)) = JOB_CREATED).
      rewrite E. reflexivity.
    + change (infer_file_type
                (input_file_path (job_spool (try_scheduling_jobs s6) (job_count s)))
                (registry (try_scheduling_jobs s6)) = Some from_type).
      rewrite E, Hr, Hr6. exact Hinf.
  - rewrite E. cbn [id input_file_path status set_target_printer].
    split; [reflexivity|]. split; [reflexivity|].
    apply (settled_select _ (job_count s)); [exact Hset | | ].
    + change (status (job_spool (try_scheduling_jobs s6) (job_count s)) = JOB_CREATED).
      rewrite E. reflexivity.
    + change (infer_file_type
                (input_file_path (job_spool (try_scheduling_jobs s6) (job_count s)))
                (registry (try_scheduling_jobs s6)) = Some from_type).
      rewrite E, Hr, Hr6. exact Hinf.
  - rewrite E. cbn [id input_file_path status target_printer].
    split; [reflexivity|]. split; [reflexivity|].
    cbn [input_file_path] in Hft. rewrite Hr6, Hinf in Hft. injection Hft as <-.
    exists p. split; [reflexivity|]. split; [lia|]. split; [|exact Hbusy].
    unfold compatible_idle in *. rewrite Hp6, Hr6 in Hcomp. exact Hcomp.
Qed.

End SchedulerCompleteness.

(** ** [cli.c]: the child-status dispatcher *)

Section ChildStatusFacts.

Context {env : Env}.

Lemma reap_from_beyond pid wst n : forall i s k,
  (i + n <= k)%nat -> job_spool (reap_from pid wst i n s) k = job_spool s k.
Proof.
  induction n as [|n IH]; intros i s k Hk; simpl; [reflexivity|].
  destruct (negb (pgid (job_spool s i) =? pid)); rewrite IH by lia;
    [reflexivity | apply update_job_status_other; lia].
Qed.

Lemma update_job_status_released i wst s q :
  printer_released (printer_registry s q)
                   (printer_registry (update_job_status i wst s) q).
Proof.
  unfold update_job_status, release_target_printer, time.
  destruct wst; try (left; reflexivity);
    match goal with
    | |- context [match ?x with _ => _ end] => destruct x as [p|] eqn:?
    end; try (left; reflexivity);
    (destruct (Nat.eq_dec q p) as [->|Hne];
     [right; unfold_updates; reflexivity
     | left; unfold_updates; rewrite ?upd_other by exact Hne; reflexivity]).
Qed.

Lemma printer_released_trans P1 P2 P3 :
  printer_released P1 P2 -> printer_released P2 P3 -> printer_released P1 P3.
Proof.
  intros [E1|E1] [E2|E2]; subst; [left | right | right | right]; reflexivity.
Qed.

Lemma reap_from_released pid wst n : forall i s q,
  printer_released (printer_registry s q)
                   (printer_registry (reap_from pid wst i n s) q).
Proof.
  induction n as [|n IH]; intros i s q; simpl; [left; reflexivity|].
  destruct (negb (pgid (job_spool s i) =? pid)); [apply IH|].
  eapply printer_released_trans; [apply update_job_status_released | apply IH].
Qed.

Lemma update_job_status_registry i wst s :
  registry (update_job_status i wst s) = registry s.
Proof.
  unfold update_job_status, release_target_printer, time.
  destruct wst; try reflexivity;
    match goal with
    | |- context [match ?x with _ => _ end] => destruct x eqn:?
    end; reflexivity.
Qed.

Lemma reap_from_registry pid wst n : forall i s,
  registry (reap_from pid wst i n s) = registry s.
Proof.
  induction n as [|n IH]; intros i s; simpl; [reflexivity|].
  destruct (negb (pgid (job_spool s i) =? pid)); rewrite IH;
    [reflexivity | apply update_job_status_registry].
Qed.

(** What [reap] does to the job at [k]. *)
Lemma reap_job_cases (pid : Z) (wst : wstatus) (s : spooler) (k : nat) :
  let job := job_spool s k in
  let job' := job_spool (reap pid wst s) k in
  job_count (reap pid wst s) = job_count s /\
  number_of_registered_printers (reap pid wst s) = number_of_registered_printers s /\
  if pgid job =? pid then
    (if Nat.ltb k (job_count s) then status job' = status_for_event wst
     else job' = job) /\
    id job' = id job /\ input_file_path job' = input_file_path job /\
    target_printer job' = target_printer job /\ pgid job' = pgid job /\
    created_at job' = created_at job
  else job' = job.
Proof.
  cbv zeta. unfold reap, get_job_count.
  destruct (reap_from_identity pid wst (job_count s) 0 s) as [Hc Hid].
  destruct (reap_from_same_names pid wst (job_count s) 0 s) as [Hn _].
  split; [exact Hc|]. split; [exact Hn|].
  destruct (Z.eqb_spec (pgid (job_spool s k)) pid) as [E|E].
  - destruct (Hid k) as (H1 & H2 & H3 & H4 & H5).
    repeat split; auto.
    destruct (Nat.ltb_spec k (job_count s)).
    + apply reap_from_status; [lia | exact E].
    + apply reap_from_beyond. lia.
  - apply reap_from_other. right. exact E.
Qed.

(** X12.  Reaping the pid [pid] with the wait status [wst] touches only
    the live jobs whose process group is [pid]: each of them takes the
    status of the event and keeps its id, path, printer, pgid and
    creation time; every other slot is unchanged.  The job count, the
    type registry and the number of printers stay, and a printer is left
    as it was or set to Idle. *)
Theorem reap_touches_only_its_jobs (pid : Z) (wst : wstatus) (s : spooler) (k q : nat) :
  let s' := reap pid wst s in
  let job := job_spool s k in
  let job' := job_spool s' k in
  job_count s' = job_count s /\
  registry s' = registry s /\
  number_of_registered_printers s' = number_of_registered_printers s /\
  (if pgid job =? pid then
     (if Nat.ltb k (job_count s) then status job' = status_for_event wst
      else job' = job) /\
     id job' = id job /\ input_file_path job' = input_file_path job /\
     target_printer job' = target_printer job /\ pgid job' = pgid job /\
     created_at job' = created_at job
   else job' = job) /\
  printer_released (printer_registry s q) (printer_registry s' q).
Proof.
  cbv zeta. destruct (reap_job_cases pid wst s k) as (Hc & Hn & Hj).
  split; [exact Hc|]. split; [apply reap_from_registry|]. split; [exact Hn|].
  split; [exact Hj | apply reap_from_released].
Qed.

End ChildStatusFacts.

(** ** The two tables in reachable states *)

Section TableInvariant.

Context {env : Env}.

Ltac split_tests :=
  repeat match goal with
         | |- context [match ?x with _ => _ end] => destruct x eqn:?
         end.

Lemma wf_job_more n m j : (n <= m)%nat -> wf_job n j -> wf_job m j.
Proof.
  intros Hnm (H1 & H2 & H3 & H4).
  split; [exact H1|]. split; [exact H2|]. split; [exact H3|].
  intros p Hp. specialize (H4 p Hp). lia.
Qed.

(** A step that leaves the job table and the number of printers alone. *)
Lemma table_inv_same s s' :
  same_jobs s s' ->
  number_of_registered_printers s' = number_of_registered_printers s ->
  table_inv s -> table_inv s'.
Proof.
  intros [Hc Hj] Hn (H1 & H2 & H3). unfold table_inv. rewrite Hc, Hn, Hj.
  auto.
Qed.

Lemma scheduler_pass_table_inv s s' :
  scheduler_pass s s' -> table_inv s -> table_inv s'.
Proof.
  intros (Hc & _ & Hn & Hj & _) (H1 & H2 & H3). unfold table_inv.
  rewrite Hc, Hn. split; [exact H1|]. split; [exact H2|].
  intros k Hk. specialize (H3 k Hk). destruct H3 as (W1 & W2 & W3 & W4).
  destruct (Hj k) as [E | [_ [E | (p & pid & now & ft & _ & Hp & _ & _ & _ & E)]]];
    rewrite E; unfold wf_job; simpl;
    (split; [exact W1|]; split; [auto; discriminate|]; split; [exact W3|]).
  - exact W4.
  - intros q Hq. discriminate Hq.
  - intros q Hq. injection Hq as <-. exact Hp.
Qed.

Lemma try_scheduling_jobs_table_inv s :
  table_inv s -> table_inv (try_scheduling_jobs s).
Proof. apply scheduler_pass_table_inv, try_scheduling_jobs_from_pass. Qed.

Lemma submit_print_job_table_inv file_path s :
  table_inv s -> table_inv (snd (submit_print_job file_path None s)).
Proof.
  intros Hs.
  destruct (submit_print_job_result file_path None s) as [Hok | Herr].
  - revert Hok. unfold submit_print_job, time. simpl.
    destruct file_path as [path|]; [|discriminate].
    destruct (Nat.leb_spec MAX_JOBS (job_count s)) as [|Hroom]; [discriminate|].
    destruct (infer_file_type (Some path) (registry s)); [|discriminate].
    intros _. cbn [snd]. unfold print_job_summary.
    match goal with
    | |- table_inv (emit _ (try_scheduling_jobs ?x)) =>
        assert (Hx : table_inv x)
    end.
    { destruct Hs as (H1 & H2 & H3). unfold table_inv. unfold_updates.
      split; [lia|]. split; [exact H2|]. intros k Hk.
      upd_cases k (job_count s).
      - unfold wf_job; simpl. split; [discriminate|]. split; [discriminate|].
        split; [lia|]. intros p Hp; discriminate Hp.
      - apply H3. lia. }
    apply try_scheduling_jobs_table_inv in Hx. exact Hx.
  - destruct (submit_print_job_error_frame _ _ _ Herr) as (Hc & Hj & Hn & _).
    destruct Hs as (H1 & H2 & H3). unfold table_inv. rewrite Hc, Hn.
    split; [exact H1|]. split; [exact H2|].
    intros k Hk. rewrite Hj by exact Hk. auto.
Qed.

Lemma delete_expired_jobs_if_needed_table_inv s :
  table_inv s -> table_inv (delete_expired_jobs_if_needed s).
Proof.
  intros (H1 & H2 & H3).
  destruct (delete_expired_jobs_if_needed_live s) as (Hl & Hn).
  assert (Hlen : (job_count (delete_expired_jobs_if_needed s) <= job_count s)%nat).
  { rewrite <- !live_jobs_length, Hl. apply filter_length_le. }
  unfold table_inv. rewrite Hn. split; [lia|]. split; [exact H2|].
  apply live_jobs_Forall. rewrite Hl.
  apply live_jobs_Forall in H3.
  apply Forall_forall. intros j Hj. apply filter_In in Hj.
  rewrite Forall_forall in H3. apply H3, Hj.
Qed.

Lemma cancel_job_table_inv job_id s :
  table_inv s -> table_inv (snd (cancel_job job_id s)).
Proof.
  intros (H1 & H2 & H3).
  destruct (cancel_job_same_names job_id s) as [Hn _].
  destruct (cancel_job_keeps_inv job_id s) as [Hc _].
  unfold table_inv. rewrite Hn, Hc. split; [exact H1|]. split; [exact H2|].
  intros k Hk. specialize (H3 k Hk). revert H3.
  unfold cancel_job, release_printer_of, announce_printer_idle_of, do_killpg, time.
  split_tests; auto; unfold_updates;
    (upd_cases k (Z.to_nat job_id); auto);
    intros (W1 & W2 & W3 & W4); unfold wf_job; simpl;
    (split; [exact W1|]; split; [discriminate|]; split; [exact W3 | exact W4]).
Qed.

Lemma reap_table_inv pid wst s : table_inv s -> table_inv (reap pid wst s).
Proof.
  intros (H1 & H2 & H3). unfold table_inv.
  destruct (reap_job_cases pid wst s 0) as (Hc & Hn & _).
  rewrite Hc, Hn. split; [exact H1|]. split; [exact H2|].
  intros k Hk.
  destruct (reap_job_cases pid wst s k) as (_ & _ & Hj). cbv zeta in Hj.
  specialize (H3 k Hk). destruct H3 as (W1 & W2 & W3 & W4).
  destruct (pgid (job_spool s k) =? pid).
  - destruct Hj as (Hst & Hid & Hpath & Htp & _).
    destruct (Nat.ltb_spec k (job_count s)); [|lia].
    unfold wf_job. rewrite Hst, Hid, Hpath, Htp.
    split; [exact W1|]. split; [destruct wst; discriminate|].
    split; [exact W3 | exact W4].
  - rewrite Hj. split; [exact W1|]. split; [exact W2|]. split; [exact W3 | exact W4].
Qed.

Lemma drain_table_inv pending : forall s, table_inv s -> table_inv (drain pending s).
Proof.
  induction pending as [|[pid wst] rest IH]; intros s Hs; simpl; [exact Hs|].
  destruct (0 <? pid); [|exact Hs]. apply IH, reap_table_inv, Hs.
Qed.

Lemma handle_child_status_updates_table_inv pending s :
  table_inv s -> table_inv (handle_child_status_updates pending s).
Proof.
  intros Hs. unfold handle_child_status_updates.
  destruct (negb (child_signal_received s)); [exact Hs|].
  apply try_scheduling_jobs_table_inv, drain_table_inv. exact Hs.
Qed.

Lemma handle_printer_command_table_inv argv s :
  table_inv s -> table_inv (handle_printer_command argv s).
Proof.
  intros Hs. unfold handle_printer_command.
  destruct (negb (argc_of argv =? 3)); [exact Hs|].
  destruct (find_type (arg argv 2) (registry s)) eqn:Hft; [|exact Hs].
  assert (H : table_inv (snd (add_printer_to_system (arg argv 1) (arg argv 2) s))).
  { unfold add_printer_to_system.
    destruct (Nat.leb_spec MAX_PRINTERS (number_of_registered_printers s)); [exact Hs|].
    destruct (get_printer_by_name (arg argv 1) s); [exact Hs|].
    rewrite Hft. destruct Hs as (H1 & H2 & H3). unfold table_inv. simpl.
    split; [exact H1|]. split; [lia|].
    intros k Hk. apply (wf_job_more (number_of_registered_printers s)); [lia | auto]. }
  destruct (add_printer_to_system (arg argv 1) (arg argv 2) s) as [rc s1].
  cbn [snd] in H. split_tests; exact H.
Qed.

Lemma handle_user_command_table_inv argv s :
  table_inv s -> table_inv (handle_user_command argv s).
Proof.
  intros Hs. unfold handle_user_command.
  destruct argv as [|cmd args]; [exact Hs|].
  repeat match goal with
         | |- context [if String.eqb cmd ?c then _ else _] =>
             destruct (String.eqb cmd c)
         end;
    try match goal with
        | |- context [if negb ?b then _ else _] => destruct (negb b)
        end;
    try exact Hs.
  - unfold handle_type_command. split_tests; exact Hs.
  - unfold handle_conversion_command. split_tests; exact Hs.
  - apply handle_printer_command_table_inv, Hs.
  - unfold handle_enable_command. split_tests; try exact Hs.
    match goal with
    | |- table_inv (emit _ (try_scheduling_jobs ?x)) =>
        apply (table_inv_same (try_scheduling_jobs x));
          [split; reflexivity | reflexivity |];
        apply try_scheduling_jobs_table_inv;
        apply (table_inv_same s); [split; reflexivity | reflexivity | exact Hs]
    end.
  - apply (table_inv_same s); [| | exact Hs].
    + eapply same_jobs_trans; [apply list_printers_from_same_jobs | split; reflexivity].
    + unfold handle_printers_command.
      destruct (list_printers_from_same_names (get_printer_count s) 0 s) as [Hn _].
      exact Hn.
  - unfold handle_print_command.
    destruct (negb (argc_of (cmd :: args) =? 2)); [exact Hs|].
    destruct (infer_file_type _ _); [|exact Hs].
    pose proof (submit_print_job_table_inv (Some (arg (cmd :: args) 1)) s Hs) as H.
    destruct (submit_print_job _ None s) as [rc s1]. cbn [snd] in H.
    split_tests; exact H.
  - apply (table_inv_same s); [| | exact Hs].
    + eapply same_jobs_trans; [apply list_jobs_from_same_jobs | split; reflexivity].
    + unfold handle_jobs_command.
      destruct (list_jobs_from_same_names (get_job_count s) 0 s) as [Hn _].
      exact Hn.
  - unfold handle_cancel_command.
    destruct (negb (argc_of (cmd :: args) =? 2)); [exact Hs|].
    pose proof (cancel_job_table_inv (atoi (arg (cmd :: args) 1)) s Hs) as H.
    destruct (cancel_job _ s) as [rc s1]. cbn [snd] in H.
    split_tests; exact H.
  - unfold handle_pause_command.
    destruct (negb (argc_of (cmd :: args) =? 2)); [exact Hs|].
    pose proof (pause_job_same_jobs (atoi (arg (cmd :: args) 1)) s) as Hj.
    destruct (pause_job_same_names (atoi (arg (cmd :: args) 1)) s) as [Hn _].
    pose proof (table_inv_same _ _ Hj Hn Hs) as H.
    destruct (pause_job _ s) as [rc s1]. cbn [snd] in H.
    split_tests; exact H.
  - unfold handle_resume_command.
    destruct (negb (argc_of (cmd :: args) =? 2)); [exact Hs|].
    pose proof (resume_job_same_jobs (atoi (arg (cmd :: args) 1)) s) as Hj.
    destruct (resume_job_same_names (atoi (arg (cmd :: args) 1)) s) as [Hn _].
    pose proof (table_inv_same _ _ Hj Hn Hs) as H.
    destruct (resume_job _ s) as [rc s1]. cbn [snd] in H.
    split_tests; exact H.
Qed.

Lemma run_cli_line_table_inv line s :
  table_inv s -> table_inv (snd (run_cli_line line s)).
Proof.
  intros Hs. unfold run_cli_line.
  destruct (is_all_whitespace line || first_is_space line)%bool; [exact Hs|].
  destruct (split_input_line_into_tokens line) as [|cmd args]; [exact Hs|].
  destruct (String.eqb cmd "quit").
  - destruct (negb (argc_of (cmd :: args) =? 1)); cbn [snd]; [|exact Hs].
    apply delete_expired_jobs_if_needed_table_inv. exact Hs.
  - cbn [snd].
    apply delete_expired_jobs_if_needed_table_inv, handle_user_command_table_inv, Hs.
Qed.

Lemma reachable_table_inv s0 s :
  job_count s0 = 0%nat ->
  (number_of_registered_printers s0 <= MAX_PRINTERS)%nat ->
  reachable s0 s -> table_inv s.
Proof.
  intros H0 Hp Hr. induction Hr as [|s s' _ IH Hstep].
  - split; [lia|]. split; [exact Hp|]. intros k Hk. lia.
  - destruct Hstep.
    + apply run_cli_line_table_inv, IH.
    + exact IH.
    + apply handle_child_status_updates_table_inv, IH.
Qed.

(** X13.  From a start with both tables empty, every state the spooler
    reaches keeps the job table within [MAX_JOBS] and the printer
    registry within [MAX_PRINTERS]: no command or child event writes
    beyond the two arrays' live range. *)
Theorem reachable_tables_within_capacity (s0 s : spooler) :
  job_count s0 = 0%nat ->
  number_of_registered_printers s0 = 0%nat ->
  reachable s0 s ->
  (job_count s <= MAX_JOBS)%nat /\
  (number_of_registered_printers s <= MAX_PRINTERS)%nat.
Proof.
  intros H0 Hp Hr.
  destruct (reachable_table_inv s0 s H0 ltac:(lia) Hr) as (H1 & H2 & _).
  split; assumption.
Qed.

(** X14.  From a start with both tables empty, every live job of every
    reachable state has an input path, is not in Deleted, carries an id
    that is a position of the job table, and points, if at all, to a
    registered printer. *)
Theorem reachable_live_jobs_are_well_formed (s0 s : spooler) (k : nat) :
  job_count s0 = 0%nat ->
  number_of_registered_printers s0 = 0%nat ->
  reachable s0 s ->
  (k < job_count s)%nat ->
  input_file_path (job_spool s k) <> None /\
  status (job_spool s k) <> JOB_DELETED /\
  0 <= id (job_spool s k) < Z.of_nat MAX_JOBS /\
  match target_printer (job_spool s k) with
  | Some p => (p < number_of_registered_printers s)%nat
  | None => True
  end.
Proof.
  intros H0 Hp Hr Hk.
  destruct (reachable_table_inv s0 s H0 ltac:(lia) Hr) as (_ & _ & H3).
  destruct (H3 k Hk) as (W1 & W2 & W3 & W4).
  split; [exact W1|]. split; [exact W2|]. split; [exact W3|].
  destruct (target_printer (job_spool s k)); [apply W4; reflexivity | exact I].
Qed.

End TableInvariant.

(** ** [cli.c]: the tokenizer and the command loop *)

Section CliFacts.

Context {env : Env}.

Lemma scan_token_no_space line : no_space (fst (scan_token line)) = true.
Proof.
  induction line as [|c rest IH]; simpl; [reflexivity|].
  destruct (isspace c) eqn:Hc; simpl; [reflexivity|].
  destruct (scan_token rest). simpl in *. rewrite Hc, IH. reflexivity.
Qed.

Lemma scan_token_nonempty c rest :
  isspace c = false -> fst (scan_token (String c rest)) <> EmptyString.
Proof.
  intros Hc. simpl. rewrite Hc. destruct (scan_token rest). simpl. discriminate.
Qed.

Lemma skip_spaces_head line :
  match skip_spaces line with
  | EmptyString => True
  | String c _ => isspace c = false
  end.
Proof.
  induction line as [|c rest IH]; simpl; [exact I|].
  destruct (isspace c) eqn:Hc; [exact IH | exact Hc].
Qed.

Lemma split_from_tokens fuel : forall line count,
  Forall is_token (split_from fuel line count) /\
  ((count < MAX_COMMAND_TOKENS)%nat ->
   (List.length (split_from fuel line count) <= MAX_COMMAND_TOKENS - count)%nat).
Proof.
  induction fuel as [|fuel IH]; intros line count; cbn [split_from].
  - split; [constructor | simpl; lia].
  - pose proof (skip_spaces_head line) as Hhead.
    destruct (skip_spaces line) as [|c rest]; [split; [constructor | simpl; lia]|].
    pose proof (scan_token_no_space (String c rest)) as Hns.
    pose proof (scan_token_nonempty c rest Hhead) as Hne.
    destruct (scan_token (String c rest)) as [tok after]. cbn [fst] in Hns, Hne.
    destruct (IH after (S count)) as [Hall Hlen].
    destruct (Nat.leb_spec MAX_COMMAND_TOKENS (S count)).
    + split; [repeat constructor; assumption|]. intros Hc. cbn [List.length]. lia.
    + split; [constructor; [split; assumption | exact Hall]|].
      intros Hc. cbn [List.length]. specialize (Hlen ltac:(lia)). lia.
Qed.

(** X15.  [split_input_line_into_tokens] returns at most
    [MAX_COMMAND_TOKENS] tokens, none of them empty and none containing
    white space, whatever the line. *)
Theorem tokens_are_bounded_and_clean (line : string) :
  let tokens := split_input_line_into_tokens line in
  (List.length tokens <= MAX_COMMAND_TOKENS)%nat /\
  Forall is_token tokens.
Proof.
  destruct (split_from_tokens (String.length line) line 0) as [Hall Hlen].
  split; [|exact Hall].
  specialize (Hlen ltac:(unfold MAX_COMMAND_TOKENS; lia)).
  unfold split_input_line_into_tokens. lia.
Qed.

Lemma length_append (a b : string) :
  String.length (a ++ b) = (String.length a + String.length b)%nat.
Proof. induction a as [|c a IH]; simpl; [reflexivity | rewrite IH; reflexivity]. Qed.

Lemma scan_token_word t rest :
  no_space t = true -> scan_token (t ++ String " " rest) = (t, rest).
Proof.
  induction t as [|c t IH]; simpl; intros H; [reflexivity|].
  apply andb_true_iff in H. destruct H as [Hc Ht]. apply negb_true_iff in Hc.
  rewrite Hc, (IH Ht). reflexivity.
Qed.

Lemma scan_token_last t :
  no_space t = true -> scan_token t = (t, EmptyString).
Proof.
  induction t as [|c t IH]; simpl; intros H; [reflexivity|].
  apply andb_true_iff in H. destruct H as [Hc Ht]. apply negb_true_iff in Hc.
  rewrite Hc, (IH Ht). reflexivity.
Qed.

Lemma token_head t :
  t <> EmptyString -> no_space t = true ->
  exists c rest, t = String c rest /\ isspace c = false.
Proof.
  destruct t as [|c rest]; [contradiction|]. simpl. intros _ H.
  apply andb_true_iff in H. destruct H as [Hc _]. apply negb_true_iff in Hc.
  exists c, rest. split; [reflexivity | exact Hc].
Qed.

Lemma split_from_join toks : forall fuel count,
  Forall is_token toks ->
  (String.length (join_tokens toks) <= fuel)%nat ->
  (count < MAX_COMMAND_TOKENS)%nat ->
  split_from fuel (join_tokens toks) count = firstn (MAX_COMMAND_TOKENS - count) toks.
Proof.
  induction toks as [|t rest IH]; intros fuel count Hall Hfuel Hcount.
  - rewrite firstn_nil. destruct fuel; reflexivity.
  - inversion Hall as [|? ? [Hne Hns] Hrest]; subst.
    destruct (token_head t Hne Hns) as (c & tl & -> & Hc).
    replace (MAX_COMMAND_TOKENS - count)%nat
      with (S (MAX_COMMAND_TOKENS - S count)) by lia.
    cbn [firstn].
    destruct rest as [|t2 rest].
    + cbn [join_tokens] in *. destruct fuel as [|fuel]; [simpl in Hfuel; lia|].
      cbn [split_from]. cbn [skip_spaces]. rewrite Hc.
      rewrite (scan_token_last _ Hns). rewrite firstn_nil.
      f_equal. destruct (Nat.leb MAX_COMMAND_TOKENS (S count)); [reflexivity|].
      destruct fuel; reflexivity.
    + change (join_tokens (String c tl :: t2 :: rest))
        with (String c tl ++ String " " (join_tokens (t2 :: rest))) in *.
      rewrite length_append in Hfuel. cbn [String.length] in Hfuel.
      destruct fuel as [|fuel]; [lia|].
      cbn [split_from]. change (String c tl ++ String " " (join_tokens (t2 :: rest)))
        with (String c (tl ++ String " " (join_tokens (t2 :: rest)))) at 1.
      cbn [skip_spaces]. rewrite Hc.
      change (String c (tl ++ String " " (join_tokens (t2 :: rest))))
        with (String c tl ++ String " " (join_tokens (t2 :: rest))).
      rewrite (scan_token_word _ _ Hns). f_equal.
      destruct (Nat.leb_spec MAX_COMMAND_TOKENS (S count)).
      * replace (MAX_COMMAND_TOKENS - S count)%nat with 0%nat by lia. reflexivity.
      * apply IH; [exact Hrest | lia | lia].
Qed.

(** X16.  Tokens written on one line with a single space between them
    are read back as they were, up to the first [MAX_COMMAND_TOKENS] of
    them: what lies beyond the 32nd token of a line is dropped. *)
Theorem tokens_round_trip (toks : list string) :
  Forall is_token toks ->
  split_input_line_into_tokens (join_tokens toks) = firstn MAX_COMMAND_TOKENS toks.
Proof.
  intros Hall. unfold split_input_line_into_tokens.
  rewrite (split_from_join toks _ 0 Hall);
    [f_equal | lia | unfold MAX_COMMAND_TOKENS; lia].
Qed.

Lemma run_cli_line_return line s r :
  fst (run_cli_line line s) = Some r -> r = -1.
Proof.
  unfold run_cli_line.
  repeat match goal with
         | |- context [match ?x with _ => _ end] => destruct x eqn:?
         end; cbn [fst]; intros H; try discriminate H.
  injection H as <-. reflexivity.
Qed.

Lemma run_cli_lines_state eof eof' lines : forall s,
  snd (run_cli_lines eof lines s) = snd (run_cli_lines eof' lines s) /\
  (fst (run_cli_lines eof lines s) = eof \/ fst (run_cli_lines eof lines s) = -1).
Proof.
  induction lines as [|line rest IH]; intros s; simpl; [split; [reflexivity | left; reflexivity]|].
  pose proof (run_cli_line_return line s) as Hret.
  destruct (run_cli_line line s) as [[r|] s1]; cbn [fst snd] in *.
  - split; [reflexivity|]. right. apply Hret. reflexivity.
  - apply IH.
Qed.

(** X17.  The command loop over [before ++ after] is the loop over
    [before] followed, if that one was not ended by [quit], by the loop
    over [after] from the state it left; a loop that is ended returns -1
    and reads no further line.  The loop itself only ever returns the
    end-of-input value or -1. *)
Theorem quit_ends_the_command_loop (at_eof : Z) (before after : list string)
        (s : spooler) :
  let r := run_cli_lines 0 before s in
  (fst r = 0 \/ fst r = -1) /\
  run_cli_lines at_eof (before ++ after) s =
    if fst r =? 0 then run_cli_lines at_eof after (snd r) else (-1, snd r).
Proof.
  revert s. induction before as [|line rest IH]; intros s; cbn zeta.
  - split; [left; reflexivity | reflexivity].
  - cbn [app run_cli_lines].
    pose proof (run_cli_line_return line s) as Hret.
    destruct (run_cli_line line s) as [[r|] s1]; cbn [fst snd] in *.
    + rewrite (Hret r eq_refl). split; [right; reflexivity | reflexivity].
    + apply IH.
Qed.

(** X18.  A line ends the loop exactly when it does not start with
    white space (and is not blank) and its tokens are the single token
    [quit]; the loop then returns -1 after one [sf_cmd_ok], without
    running the sweep.  A line that is blank or starts with white space is
    skipped with the state untouched, [quit] or not. *)
Theorem only_quit_ends_the_loop (line : string) (s : spooler) :
  let skipped := (is_all_whitespace line || first_is_space line)%bool in
  let tokens := split_input_line_into_tokens line in
  (fst (run_cli_line line s) <> None <-> skipped = false /\ tokens = ["quit"]) /\
  (skipped = true -> run_cli_line line s = (None, s)) /\
  (skipped = false -> tokens = ["quit"] ->
   run_cli_line line s = (Some (-1), emit sf_cmd_ok s)).
Proof.
  cbv zeta. unfold run_cli_line.
  destruct (is_all_whitespace line || first_is_space line)%bool.
  { split; [|split; [reflexivity | discriminate]].
    cbn [fst]. split; [intros H; contradiction | intros [H _]; discriminate H]. }
  split; [|split; [discriminate|]].
  - destruct (split_input_line_into_tokens line) as [|cmd args]; cbn [fst].
    { split; [intros H; contradiction | intros [_ H]; discriminate H]. }
    destruct (String.eqb_spec cmd "quit") as [->|Hne].
    + destruct args as [|a args].
      * cbn. split; [intros _; split; reflexivity | discriminate].
      * replace (argc_of ("quit" :: a :: args) =? 1) with false
          by (symmetry; apply Z.eqb_neq; unfold argc_of; cbn [List.length]; lia).
        cbn [negb fst].
        split; [intros H; contradiction | intros [_ H]; discriminate H].
    + cbn [fst]. split; [intros H; contradiction|].
      intros [_ H]. injection H as H _. contradiction.
  - intros _ ->. reflexivity.
Qed.

End CliFacts.

(** ** [cli.c]: the two flags *)

Section FlagFacts.

Context {env : Env}.

Ltac split_tests :=
  repeat match goal with
         | |- context [match ?x with _ => _ end] => destruct x eqn:?
         end.

Ltac flags_kept := split; reflexivity.

Lemma same_flags_refl s : same_flags s s.
Proof. flags_kept. Qed.

Lemma same_flags_trans s1 s2 s3 :
  same_flags s1 s2 -> same_flags s2 s3 -> same_flags s1 s3.
Proof. intros [H1 H2] [H3 H4]. split; congruence. Qed.

Lemma try_scheduling_job_same_flags i s : same_flags s (try_scheduling_job i s).
Proof.
  unfold try_scheduling_job, start_conversion_pipeline, announce_started,
    mark_running, time.
  split_tests; flags_kept.
Qed.

Lemma try_scheduling_jobs_from_same_flags n : forall i s,
  same_flags s (try_scheduling_jobs_from i n s).
Proof.
  induction n as [|n IH]; intros i s; simpl.
  - apply same_flags_refl.
  - eapply same_flags_trans; [apply try_scheduling_job_same_flags | apply IH].
Qed.

Lemma try_scheduling_jobs_same_flags s : same_flags s (try_scheduling_jobs s).
Proof. apply try_scheduling_jobs_from_same_flags. Qed.

Lemma submit_print_job_same_flags file_path printer s :
  same_flags s (snd (submit_print_job file_path printer s)).
Proof.
  unfold submit_print_job, start_conversion_pipeline, announce_started,
    mark_running, print_job_summary, time.
  split_tests; try flags_kept.
  cbn [snd].
  match goal with
  | |- same_flags _ (emit _ (try_scheduling_jobs ?x)) =>
      apply (same_flags_trans _ x);
        [ flags_kept
        | eapply same_flags_trans;
            [apply try_scheduling_jobs_same_flags | flags_kept] ]
  end.
Qed.

Lemma delete_expired_jobs_from_same_flags now n : forall i s,
  same_flags s (delete_expired_jobs_from now i n s).
Proof.
  induction n as [|n IH]; intros i s; cbn [delete_expired_jobs_from].
  - apply same_flags_refl.
  - destruct (job_expired now (job_spool s i)); [|apply IH].
    eapply same_flags_trans; [|apply IH]. flags_kept.
Qed.

Lemma delete_expired_jobs_if_needed_same_flags s :
  same_flags s (delete_expired_jobs_if_needed s).
Proof.
  unfold delete_expired_jobs_if_needed, time.
  eapply same_flags_trans; [|apply delete_expired_jobs_from_same_flags]. flags_kept.
Qed.

Lemma cancel_job_same_flags job_id s : same_flags s (snd (cancel_job job_id s)).
Proof.
  unfold cancel_job, release_printer_of, announce_printer_idle_of, do_killpg, time.
  split_tests; flags_kept.
Qed.

Lemma pause_job_same_flags job_id s : same_flags s (snd (pause_job job_id s)).
Proof. unfold pause_job, do_killpg. split_tests; flags_kept. Qed.

Lemma resume_job_same_flags job_id s : same_flags s (snd (resume_job job_id s)).
Proof. unfold resume_job, do_killpg. split_tests; flags_kept. Qed.

Lemma update_job_status_same_flags i wst s :
  same_flags s (update_job_status i wst s).
Proof.
  unfold update_job_status, release_target_printer, time.
  destruct wst; split_tests; flags_kept.
Qed.

Lemma reap_from_same_flags pid wst n : forall i s,
  same_flags s (reap_from pid wst i n s).
Proof.
  induction n as [|n IH]; intros i s; simpl.
  - apply same_flags_refl.
  - destruct (negb (pgid (job_spool s i) =? pid)); [apply IH|].
    eapply same_flags_trans; [apply update_job_status_same_flags | apply IH].
Qed.

Lemma drain_same_flags pending : forall s, same_flags s (drain pending s).
Proof.
  induction pending as [|[pid wst] rest IH]; intros s; simpl.
  - apply same_flags_refl.
  - destruct (0 <? pid); [|apply same_flags_refl].
    eapply same_flags_trans; [apply reap_from_same_flags | apply IH].
Qed.

Lemma list_printers_from_same_flags n : forall i s,
  same_flags s (list_printers_from i n s).
Proof.
  induction n as [|n IH]; intros i s; simpl.
  - apply same_flags_refl.
  - eapply same_flags_trans; [|apply IH]. flags_kept.
Qed.

Lemma list_jobs_from_same_flags n : forall i s,
  same_flags s (list_jobs_from i n s).
Proof.
  induction n as [|n IH]; intros i s; simpl.
  - apply same_flags_refl.
  - eapply same_flags_trans; [|apply IH]. flags_kept.
Qed.

Lemma add_printer_to_system_same_flags printer_name file_type_name s :
  same_flags s (snd (add_printer_to_system printer_name file_type_name s)).
Proof. unfold add_printer_to_system. split_tests; flags_kept. Qed.

Lemma handle_user_command_same_flags argv s :
  same_flags s (handle_user_command argv s).
Proof.
  unfold handle_user_command.
  destruct argv as [|cmd args]; [flags_kept|].
  repeat match goal with
         | |- context [if String.eqb cmd ?c then _ else _] =>
             destruct (String.eqb cmd c)
         end;
    try match goal with
        | |- context [if negb ?b then _ else _] => destruct (negb b)
        end;
    try flags_kept.
  - unfold handle_type_command. split_tests; flags_kept.
  - unfold handle_conversion_command. split_tests; flags_kept.
  - unfold handle_printer_command.
    destruct (negb (argc_of (cmd :: args) =? 3)); [flags_kept|].
    destruct (find_type _ _); [|flags_kept].
    pose proof (add_printer_to_system_same_flags
                  (arg (cmd :: args) 1) (arg (cmd :: args) 2) s) as H.
    destruct (add_printer_to_system _ _ s) as [rc s1]. cbn [snd] in H.
    split_tests; (eapply same_flags_trans; [exact H | flags_kept]).
  - unfold handle_enable_command. split_tests; try flags_kept.
    match goal with
    | |- same_flags _ (emit _ (try_scheduling_jobs ?x)) =>
        apply (same_flags_trans _ x);
          [ flags_kept
          | eapply same_flags_trans;
              [apply try_scheduling_jobs_same_flags | flags_kept] ]
    end.
  - eapply same_flags_trans; [apply list_printers_from_same_flags | flags_kept].
  - unfold handle_print_command.
    destruct (negb (argc_of (cmd :: args) =? 2)); [flags_kept|].
    destruct (infer_file_type _ _); [|flags_kept].
    pose proof (submit_print_job_same_flags (Some (arg (cmd :: args) 1)) None s) as H.
    destruct (submit_print_job _ None s) as [rc s1]. cbn [snd] in H.
    split_tests; (eapply same_flags_trans; [exact H | flags_kept]).
  - eapply same_flags_trans; [apply list_jobs_from_same_flags | flags_kept].
  - unfold handle_cancel_command.
    destruct (negb (argc_of (cmd :: args) =? 2)); [flags_kept|].
    pose proof (cancel_job_same_flags (atoi (arg (cmd :: args) 1)) s) as H.
    destruct (cancel_job _ s) as [rc s1]. cbn [snd] in H.
    split_tests; (eapply same_flags_trans; [exact H | flags_kept]).
  - unfold handle_pause_command.
    destruct (negb (argc_of (cmd :: args) =? 2)); [flags_kept|].
    pose proof (pause_job_same_flags (atoi (arg (cmd :: args) 1)) s) as H.
    destruct (pause_job _ s) as [rc s1]. cbn [snd] in H.
    split_tests; (eapply same_flags_trans; [exact H | flags_kept]).
  - unfold handle_resume_command.
    destruct (negb (argc_of (cmd :: args) =? 2)); [flags_kept|].
    pose proof (resume_job_same_flags (atoi (arg (cmd :: args) 1)) s) as H.
    destruct (resume_job _ s) as [rc s1]. cbn [snd] in H.
    split_tests; (eapply same_flags_trans; [exact H | flags_kept]).
Qed.

Lemma run_cli_line_same_flags line s : same_flags s (snd (run_cli_line line s)).
Proof.
  unfold run_cli_line.
  destruct (is_all_whitespace line || first_is_space line)%bool; [flags_kept|].
  destruct (split_input_line_into_tokens line) as [|cmd args]; [flags_kept|].
  destruct (String.eqb cmd "quit").
  - destruct (negb (argc_of (cmd :: args) =? 1)); cbn [snd]; [|flags_kept].
    eapply same_flags_trans; [|apply delete_expired_jobs_if_needed_same_flags].
    flags_kept.
  - cbn [snd].
    eapply same_flags_trans;
      [apply handle_user_command_same_flags
      | apply delete_expired_jobs_if_needed_same_flags].
Qed.

Lemma run_cli_lines_same_flags at_eof lines : forall s,
  same_flags s (snd (run_cli_lines at_eof lines s)).
Proof.
  induction lines as [|line rest IH]; intros s; cbn [run_cli_lines];
    [apply same_flags_refl|].
  pose proof (run_cli_line_same_flags line s) as H.
  destruct (run_cli_line line s) as [[r|] s1]; cbn [snd] in *; [exact H|].
  eapply same_flags_trans; [exact H | apply IH].
Qed.

(** X19.  [run_cli] initializes on its first call only: a call on a
    state whose flag is clear empties both tables and sets the flag, a
    call on a state whose flag is set starts from the state as it is;
    no command clears the flag, so a second call of [run_cli] (the
    interactive loop after a batch file) continues with the jobs and
    printers the first one left. *)
Theorem run_cli_initializes_once (interactive again : bool)
        (lines more : list string) (s : spooler) :
  let first := run_cli interactive lines s in
  let at_eof (b : bool) := if b then -1 else 0 in
  first =
    run_cli_lines (at_eof interactive) lines
      (if initialized s then s
       else set_initialized true
              (set_job_count 0 (set_number_of_registered_printers 0 s))) /\
  initialized (snd first) = true /\
  run_cli again more (snd first) = run_cli_lines (at_eof again) more (snd first).
Proof.
  cbv zeta.
  assert (Hinit : initialized (initialize_once s) = true).
  { unfold initialize_once. destruct (initialized s) eqn:E; [exact E | reflexivity]. }
  assert (Hafter : initialized (snd (run_cli interactive lines s)) = true).
  { unfold run_cli.
    destruct (run_cli_lines_same_flags (if interactive then -1 else 0) lines
                (initialize_once s)) as [H _].
    rewrite H. exact Hinit. }
  split; [|split; [exact Hafter|]].
  - unfold run_cli, initialize_once. destruct (initialized s); reflexivity.
  - unfold run_cli at 1. unfold initialize_once. rewrite Hafter. reflexivity.
Qed.

(** X20.  The child-status dispatcher does nothing unless the handler
    of [SIGCHLD] has set the flag, and it always leaves the flag clear:
    calling it again, with whatever children pending, changes nothing
    until the next [SIGCHLD]. *)
Theorem child_status_flag_is_consumed (pending again : list (Z * wstatus))
        (s : spooler) :
  let s' := handle_child_status_updates pending s in
  (if child_signal_received s then True else s' = s) /\
  child_signal_received s' = false /\
  initialized s' = initialized s /\
  handle_child_status_updates again s' = s'.
Proof.
  cbv zeta.
  assert (Hclear : child_signal_received (handle_child_status_updates pending s) = false
                   /\ initialized (handle_child_status_updates pending s) = initialized s).
  { unfold handle_child_status_updates.
    destruct (child_signal_received s) eqn:E; cbn [negb]; [|split; [exact E | reflexivity]].
    destruct (try_scheduling_jobs_same_flags
                (drain pending (set_child_signal_received false s))) as [H1 H2].
    destruct (drain_same_flags pending (set_child_signal_received false s)) as [H3 H4].
    rewrite H1, H2, H3, H4. split; reflexivity. }
  destruct Hclear as [Hc Hi].
  split; [|split; [exact Hc | split; [exact Hi|]]].
  - unfold handle_child_status_updates. destruct (child_signal_received s); [exact I | reflexivity].
  - unfold handle_child_status_updates at 1. rewrite Hc. reflexivity.
Qed.

End FlagFacts.

(** ** [command_handler.c] *)

Section CommandHandlerFacts.

Context {env : Env}.

Lemma argc_of_cons cmd args :
  argc_of (cmd :: args) - 1 = Z.of_nat (List.length args).
Proof. unfold argc_of. cbn [List.length]. lia. Qed.

Lemma argc_of_test cmd args (n : nat) :
  (argc_of (cmd :: args) =? Z.of_nat (S n)) = Nat.eqb (List.length args) n.
Proof.
  unfold argc_of. cbn [List.length].
  destruct (Nat.eqb_spec (List.length args) n) as [E|E].
  - apply Z.eqb_eq. lia.
  - apply Z.eqb_neq. lia.
Qed.

(** X21.  With a wrong number of arguments, [help], [type],
    [conversion] (fewer than three), [printer], [enable] and [print] do
    nothing but print the line
    [Wrong number of args (given: X, required: Y) for CLI command 'name']
    and report [sf_cmd_error]. *)
Theorem wrong_argument_count_is_reported (args : list string) (s : spooler) :
  let given := List.length args in
  let report cmd required message :=
    handle_user_command (cmd :: args) s =
      report_wrong_number_of_args (Z.of_nat given) required cmd message s in
  (given <> 0%nat -> report "help" "0" "Invalid number of arguments for 'help'") /\
  (given <> 1%nat -> report "type" "1" "Invalid number of arguments for 'type'.") /\
  ((given < 3)%nat ->
   report "conversion" "3" "Invalid number of arguments for 'conversion'.") /\
  (given <> 2%nat -> report "printer" "2" "Invalid number of arguments for 'printer'.") /\
  (given <> 1%nat -> report "enable" "1" "Invalid number of arguments for 'enable'.") /\
  (given <> 1%nat -> report "print" "1" "Invalid number of arguments for 'print'.").
Proof.
  cbv zeta. unfold report_wrong_number_of_args, wrong_number_of_args.
  repeat match goal with |- _ /\ _ => split end; intros H;
    unfold handle_user_command; cbn [String.eqb Ascii.eqb Bool.eqb];
    unfold handle_type_command, handle_conversion_command, handle_printer_command,
      handle_enable_command, handle_print_command;
    rewrite argc_of_cons.
  - change 1 with (Z.of_nat 1). rewrite argc_of_test.
    apply Nat.eqb_neq in H. rewrite H. reflexivity.
  - change 2 with (Z.of_nat 2). rewrite argc_of_test.
    apply Nat.eqb_neq in H. rewrite H. reflexivity.
  - replace (argc_of ("conversion" :: args) <? 4) with true; [reflexivity|].
    symmetry. apply Z.ltb_lt. unfold argc_of. cbn [List.length]. lia.
  - change 3 with (Z.of_nat 3). rewrite argc_of_test.
    apply Nat.eqb_neq in H. rewrite H. reflexivity.
  - change 2 with (Z.of_nat 2). rewrite argc_of_test.
    apply Nat.eqb_neq in H. rewrite H. reflexivity.
  - change 2 with (Z.of_nat 2). rewrite argc_of_test.
    apply Nat.eqb_neq in H. rewrite H. reflexivity.
Qed.

(** X22.  A first token that is none of the handled commands is
    answered by an error and nothing else, whatever follows it:
    [disable], which the help line lists, with
    [Command error: disable (not implemented)], anything else with
    [Unrecognized command: ] and the token. *)
Theorem commands_without_a_handler (cmd : string) (args : list string) (s : spooler) :
  ~ In cmd handled_commands ->
  handle_user_command (cmd :: args) s =
    if String.eqb cmd "disable" then
      emit (sf_cmd_error "disable command not implemented")
           (emit (fprintf_out ("Command error: disable (not implemented)" ++ nl)) s)
    else
      emit (sf_cmd_error "Unknown command.")
           (emit (fprintf_out ("Unrecognized command: " ++ cmd ++ nl)) s).
Proof.
  intros H. unfold handle_user_command.
  repeat match goal with
         | |- context [if String.eqb cmd ?c then _ else _] =>
             destruct (String.eqb_spec cmd c) as [E|_];
               [try (exfalso; apply H; rewrite E; unfold handled_commands;
                     cbn [In]; tauto)|]
         end; try reflexivity.
Qed.

(** X23.  From a start with an empty registry, no two registered
    printers of a reachable state share a name, and each of them is the
    printer its name finds. *)
Theorem printer_names_stay_distinct (s0 s : spooler) (i j : nat) :
  number_of_registered_printers s0 = 0%nat ->
  reachable s0 s ->
  (i < get_printer_count s)%nat ->
  (j < get_printer_count s)%nat ->
  name (printer_registry s i) = name (printer_registry s j) ->
  i = j /\ get_printer_by_name (name (printer_registry s i)) s = Some i.
Proof.
  intros H0 Hr Hi Hj E.
  pose proof (reachable_distinct_names s0 s H0 Hr) as Hd.
  split; [apply Hd; assumption|].
  apply get_printer_by_name_declared; assumption.
Qed.

(** X24.  [printer NAME TYPE]: with an undeclared type the command
    prints [Unknown file type] and fails; with a name already taken or a
    full registry it fails; in both cases nothing but the trace changes.
    Otherwise it appends a Disabled printer, prints its line with its own
    index as id after [sf_printer_defined], answers [sf_cmd_ok], and
    leaves the job table alone. *)
Theorem printer_command_outcomes (pname tname : string) (s : spooler) :
  let n := number_of_registered_printers s in
  let s' := handle_user_command ["printer"; pname; tname] s in
  let failed s1 :=
    emit (fprintf_out ("Command error: printer (failed)" ++ nl))
         (emit (sf_cmd_error "printer") s1) in
  match find_type tname (registry s) with
  | None => s' = failed (emit (fprintf_out ("Unknown file type: " ++ tname ++ nl)) s)
  | Some ft =>
      match get_printer_by_name pname s with
      | Some _ => s' = failed s
      | None =>
          if Nat.ltb n MAX_PRINTERS then
            let added := mkPRINTER pname ft PRINTER_DISABLED in
            number_of_registered_printers s' = S n /\
            printer_registry s' = upd (printer_registry s) n added /\
            trace s' =
              sf_cmd_ok :: fprintf_out (printer_line (Z.of_nat n) added)
                :: sf_printer_defined pname (ft_name ft) :: trace s /\
            same_jobs s s'
          else s' = failed s
      end
  end.
Proof.
  cbv zeta.
  change (handle_user_command ["printer"; pname; tname] s)
    with (handle_printer_command ["printer"; pname; tname] s).
  unfold handle_printer_command.
  change (argc_of ["printer"; pname; tname] =? 3) with true. cbn [negb arg nth].
  destruct (find_type tname (registry s)) as [ft|] eqn:Hft; [|reflexivity].
  unfold add_printer_to_system.
  destruct (get_printer_by_name pname s) eqn:Hfind.
  - destruct (Nat.leb MAX_PRINTERS (number_of_registered_printers s)); reflexivity.
  - destruct (Nat.ltb_spec (number_of_registered_printers s) MAX_PRINTERS) as [Hlt|Hge].
    + destruct (Nat.leb_spec MAX_PRINTERS (number_of_registered_printers s)); [lia|].
      rewrite Hft. cbn [negb Z.eqb].
      match goal with
      | |- context [get_printer_by_name pname ?x] => set (s1 := x)
      end.
      assert (Hnew : get_printer_by_name pname s1 =
                     Some (number_of_registered_printers s))
        by (apply get_printer_by_name_appended
              with (added := mkPRINTER pname ft PRINTER_DISABLED);
            [exact Hfind | reflexivity | reflexivity | reflexivity]).
      rewrite Hnew. unfold get_printer_count.
      change (number_of_registered_printers s1)
        with (S (number_of_registered_printers s)).
      replace (Z.of_nat (S (number_of_registered_printers s)) - 1)
        with (Z.of_nat (number_of_registered_printers s)) by lia.
      subst s1. simpl. rewrite upd_same.
      split; [reflexivity|]. split; [reflexivity|]. split; [reflexivity|].
      split; reflexivity.
    + destruct (Nat.leb_spec MAX_PRINTERS (number_of_registered_printers s));
        [reflexivity | lia].
Qed.

End CommandHandlerFacts.

(** ** The further properties on concrete runs *)

(** X11 on [Demo.queued]: job 1 waits behind job 0 for the only printer,
    and a further pass of the scheduler finds no printer for it. *)
Lemma scheduler_starts_every_startable_job_witness :
  (1 < job_count Demo.queued)%nat /\
  status (job_spool (try_scheduling_jobs Demo.queued) 1) = JOB_CREATED /\
  select_compatible_printer (Some (mkFILE_TYPE 0 "pdf"))
                            (try_scheduling_jobs Demo.queued) = None.
Proof.
  assert (H1 : (1 < job_count Demo.queued)%nat) by (vm_compute; lia).
  assert (H2 : status (job_spool (try_scheduling_jobs Demo.queued) 1) = JOB_CREATED)
    by (vm_compute; reflexivity).
  assert (H3 : infer_file_type
                 (input_file_path (job_spool (try_scheduling_jobs Demo.queued) 1))
                 (registry (try_scheduling_jobs Demo.queued))
               = Some (mkFILE_TYPE 0 "pdf"))
    by (vm_compute; reflexivity).
  assert (H0 : forall n, 0 <= @fork_result Demo.world n)
    by (intros n; change (0 <= Demo.pids n); unfold Demo.pids; lia).
  split; [exact H1|]. split; [exact H2|].
  exact (scheduler_starts_every_startable_job Demo.queued 1 (mkFILE_TYPE 0 "pdf")
           H0 H1 H2 H3).
Defined.

(** X13 on [Demo.running]. *)
Lemma reachable_tables_within_capacity_witness :
  (job_count Demo.running <= @MAX_JOBS Demo.world)%nat /\
  (number_of_registered_printers Demo.running <= @MAX_PRINTERS Demo.world)%nat.
Proof.
  assert (H0 : job_count Demo.boot = 0%nat) by (vm_compute; reflexivity).
  assert (H1 : number_of_registered_printers Demo.boot = 0%nat)
    by (vm_compute; reflexivity).
  exact (reachable_tables_within_capacity Demo.boot Demo.running H0 H1
           (after_reachable _)).
Defined.

(** X14 at job 0 of [Demo.running]. *)
Lemma reachable_live_jobs_are_well_formed_witness :
  input_file_path (job_spool Demo.running 0) <> None /\
  status (job_spool Demo.running 0) <> JOB_DELETED /\
  0 <= id (job_spool Demo.running 0) < Z.of_nat (@MAX_JOBS Demo.world) /\
  match target_printer (job_spool Demo.running 0) with
  | Some p => (p < number_of_registered_printers Demo.running)%nat
  | None => True
  end.
Proof.
  assert (H0 : job_count Demo.boot = 0%nat) by (vm_compute; reflexivity).
  assert (H1 : number_of_registered_printers Demo.boot = 0%nat)
    by (vm_compute; reflexivity).
  assert (Hk : (0 < job_count Demo.running)%nat) by (vm_compute; lia).
  exact (reachable_live_jobs_are_well_formed Demo.boot Demo.running 0 H0 H1
           (after_reachable _) Hk).
Defined.

(** X16 on a line of three tokens. *)
Lemma tokens_round_trip_witness :
  split_input_line_into_tokens (join_tokens ["printer"; "alice"; "pdf"]) =
    firstn MAX_COMMAND_TOKENS ["printer"; "alice"; "pdf"].
Proof.
  apply tokens_round_trip.
  repeat constructor; discriminate.
Defined.

(** X22 on [disable], with a running job in the table. *)
Lemma commands_without_a_handler_witness :
  handle_user_command ["disable"; "alice"] Demo.running =
    emit (sf_cmd_error "disable command not implemented")
         (emit (fprintf_out ("Command error: disable (not implemented)" ++ nl))
               Demo.running).
Proof.
  apply (commands_without_a_handler "disable" ["alice"] Demo.running).
  unfold handled_commands. cbn [In]. intros H.
  repeat (destruct H as [H|H]; [discriminate H|]). exact H.
Defined.

(** X23 on the second printer of [Demo.two_printers]. *)
Lemma printer_names_stay_distinct_witness :
  1%nat = 1%nat /\
  get_printer_by_name (name (printer_registry Demo.two_printers 1)) Demo.two_printers
    = Some 1%nat.
Proof.
  assert (H0 : number_of_registered_printers Demo.boot = 0%nat)
    by (vm_compute; reflexivity).
  assert (H1 : (1 < get_printer_count Demo.two_printers)%nat) by (vm_compute; lia).
  exact (printer_names_stay_distinct Demo.boot Demo.two_printers 1 1 H0
           (after_reachable _) H1 H1 eq_refl).
Defined.

(** X25 on [Demo.one_idle_printer]: the job is started on [alice]. *)
Lemma submitted_job_starts_when_it_can_witness :
  let s' := snd (submit_print_job (Some "a.pdf") None Demo.one_idle_printer) in
  let job := job_spool s' (job_count Demo.one_idle_printer) in
  job_count s' = S (job_count Demo.one_idle_printer) /\
  id job = Z.of_nat (job_count Demo.one_idle_printer) /\
  input_file_path job = Some "a.pdf" /\
  match status job with
  | JOB_RUNNING =>
      exists p, target_printer job = Some p /\
                (p < number_of_registered_printers Demo.one_idle_printer)%nat /\
                compatible_idle (mkFILE_TYPE 0 "pdf") Demo.one_idle_printer p = true /\
                printer_status (printer_registry s' p) = PRINTER_BUSY
  | JOB_CREATED => select_compatible_printer (Some (mkFILE_TYPE 0 "pdf")) s' = None
  | _ => False
  end.
Proof.
  assert (H0 : forall n, 0 <= @fork_result Demo.world n)
    by (intros n; change (0 <= Demo.pids n); unfold Demo.pids; lia).
  assert (H1 : fst (submit_print_job (Some "a.pdf") None Demo.one_idle_printer) = 0)
    by (vm_compute; reflexivity).
  assert (H2 : infer_file_type (Some "a.pdf") (registry Demo.one_idle_printer)
               = Some (mkFILE_TYPE 0 "pdf"))
    by (vm_compute; reflexivity).
  exact (submitted_job_starts_when_it_can "a.pdf" (mkFILE_TYPE 0 "pdf")
           Demo.one_idle_printer H0 H1 H2).
Defined.
